(** * Page objects, action wrapper and page-object manager of the
    Playwright test framework: a shallow embedding and its properties.

  The repository wraps the Playwright browser-automation library:
  - [CommonActions] (utils/CommonActions.ts) forwards to Playwright's
    locator primitives with defaulted timeouts;
  - [LoginPage], [CheckboxesPage], [SecurePage] (pages/*.ts) build
    task-level methods from [CommonActions] calls;
  - [PomManager] (pages/PomManager.ts) lazily constructs and caches one
    page object per kind.

  Asynchronous methods are embedded in a state-and-error monad over a
  browser state: the document of the tab under test plus a log of the
  calls made so far.  [await] is the monad's bind; a rejected promise is
  the [Err] result, which propagates through bind exactly as an uncaught
  exception does through a chain of awaits.

  Playwright itself is not part of the repository.  Its locator
  primitives are modelled after their documented contract, on a page that
  nothing but the test changes:
  - a locator is a recipe, resolved against the current document at every
    call; selectors are matched for the fragment of CSS the page objects
    use;
  - a call on a single element fails with a timeout when nothing matches
    (nothing will appear) and with a strictness violation when several
    elements match;
  - an action needs its element to be visible, unless forced;
  - [check] and [uncheck] return at once when the element already has the
    state asked for.

  The log is ghost state: the primitives, and the [CommonActions] methods
  on entry, record their calls with the arguments they received; [count]
  is the one exception and records nothing.  The sources do not read the
  log; the statements do. *)

From Stdlib Require Import ZArith String Ascii List Bool Lia.
From Stdlib Require Import Decimal DecimalString DecimalFacts DecimalNat.
From stdpp Require Import base option list.
Import ListNotations.

Local Open Scope string_scope.
Local Open Scope list_scope.

(* ====================================================================== *)
(** ** JavaScript built-ins used by the sources *)
(* ====================================================================== *)

Module Js.

(** A string holds its text in UTF-8, one byte per character of the Rocq
    string, as string literals do.

    ECMAScript's WhiteSpace and LineTerminator code points, by the length
    of their encoding.  One byte: TAB, LF, VT, FF, CR and SPACE. *)
Definition isWhiteSpace1 (a : ascii) : bool :=
  let x := nat_of_ascii a in
  Nat.eqb x 32 || (Nat.leb 9 x && Nat.leb x 13).

(** Two bytes: U+00A0 (C2 A0). *)
Definition isWhiteSpace2 (a b : ascii) : bool :=
  Nat.eqb (nat_of_ascii a) 194 && Nat.eqb (nat_of_ascii b) 160.

(** Three bytes: U+1680 (E1 9A 80); U+2000 to U+200A, U+2028, U+2029 and
    U+202F (E2 80 80 to 8A, A8, A9, AF); U+205F (E2 81 9F); U+3000
    (E3 80 80); U+FEFF (EF BB BF). *)
Definition isWhiteSpace3 (a b c : ascii) : bool :=
  let x := nat_of_ascii a in
  let y := nat_of_ascii b in
  let z := nat_of_ascii c in
  (Nat.eqb x 225 && Nat.eqb y 154 && Nat.eqb z 128)
  || (Nat.eqb x 226 && Nat.eqb y 128
      && ((Nat.leb 128 z && Nat.leb z 138)
          || Nat.eqb z 168 || Nat.eqb z 169 || Nat.eqb z 175))
  || (Nat.eqb x 226 && Nat.eqb y 129 && Nat.eqb z 159)
  || (Nat.eqb x 227 && Nat.eqb y 128 && Nat.eqb z 128)
  || (Nat.eqb x 239 && Nat.eqb y 187 && Nat.eqb z 191).

(** [String.prototype.trimStart]: drop white space and line terminators
    at the front. *)
Fixpoint trimStart (s : string) : string :=
  match s with
  | String a r1 =>
      if isWhiteSpace1 a then trimStart r1
      else
        match r1 with
        | String b r2 =>
            if isWhiteSpace2 a b then trimStart r2
            else
              match r2 with
              | String c r3 =>
                  if isWhiteSpace3 a b c then trimStart r3 else s
              | EmptyString => s
              end
        | EmptyString => s
        end
  | EmptyString => s
  end.

Fixpoint reverseOnto (s acc : string) : string :=
  match s with
  | EmptyString => acc
  | String c r => reverseOnto r (String c acc)
  end.

Definition reverse (s : string) : string := reverseOnto s EmptyString.

(** [trimStart] on the reversed text: the last byte comes first. *)
Fixpoint dropTrailing (s : string) : string :=
  match s with
  | String c r1 =>
      if isWhiteSpace1 c then dropTrailing r1
      else
        match r1 with
        | String b r2 =>
            if isWhiteSpace2 b c then dropTrailing r2
            else
              match r2 with
              | String a r3 =>
                  if isWhiteSpace3 a b c then dropTrailing r3 else s
              | EmptyString => s
              end
        | EmptyString => s
        end
  | EmptyString => s
  end.

(** [String.prototype.trimEnd]. *)
Definition trimEnd (s : string) : string :=
  reverse (dropTrailing (reverse s)).

(** [String.prototype.trim]. *)
Definition trim (s : string) : string := trimEnd (trimStart s).

(** Template-literal rendering [`${n}`] of a non-negative integer. *)
Definition numberToString (n : nat) : string :=
  NilEmpty.string_of_uint (Nat.to_uint n).

(** A value of type [T | null]. *)
Inductive OrNull (A : Type) :=
| Null
| NotNull (a : A).
Arguments Null {A}.
Arguments NotNull {A} a.

(** A value of type [T | undefined]. *)
Inductive OrUndefined (A : Type) :=
| Undefined
| Defined (a : A).
Arguments Undefined {A}.
Arguments Defined {A} a.

(** The nullish-coalescing operator [a ?? b] on [T | undefined]. *)
Definition nullish {A} (a : OrUndefined A) (b : A) : A :=
  match a with Defined x => x | Undefined => b end.

(** The double-quote character, for selector strings. *)
Definition dquote : ascii := "034"%char.

(** A value of type [T | null | undefined], as untyped JavaScript
    returns it. *)
Inductive OrNullish (A : Type) :=
| IsNull
| IsUndefined
| Present (a : A).
Arguments IsNull {A}.
Arguments IsUndefined {A}.
Arguments Present {A} a.

(** [String.prototype.startsWith]. *)
Fixpoint startsWith (s p : string) : bool :=
  match p with
  | EmptyString => true
  | String a p' =>
      match s with
      | String b s' => Ascii.eqb a b && startsWith s' p'
      | EmptyString => false
      end
  end.

(** [String.prototype.includes]. *)
Fixpoint includes (s sub : string) : bool :=
  startsWith s sub
  || match s with
     | EmptyString => false
     | String _ r => includes r sub
     end.

(** Truthiness of an environment variable: set and not empty. *)
Definition truthy (v : option string) : bool :=
  match v with
  | Some (String _ _) => true
  | _ => false
  end.

End Js.

(* ====================================================================== *)
(** ** The document of the tab under test *)
(* ====================================================================== *)

Module Dom.

(** An element of the document.  The document is the list of its elements
    in document order; an element is identified by its position and names
    its parent by position. *)
Record Element := mkElement {
  tag : string;
  attrs : list (string * string);
  parent : option nat;
  visible : bool;
  textContent : Js.OrNull string;
  value : string;
  checked : bool
}.

Abbreviation Document := (list Element).

Fixpoint assoc (name : string) (l : list (string * string)) : option string :=
  match l with
  | [] => None
  | (k, v) :: r => if String.eqb k name then Some v else assoc name r
  end.

Definition getAttribute (e : Element) (name : string) : option string :=
  assoc name (attrs e).

Definition setChecked (v : bool) (e : Element) : Element :=
  mkElement (tag e) (attrs e) (parent e) (visible e) (textContent e)
            (value e) v.

Definition setValue (v : string) (e : Element) : Element :=
  mkElement (tag e) (attrs e) (parent e) (visible e) (textContent e)
            v (checked e).

(** What selector matching looks at: everything but the form state. *)
Definition skeleton (e : Element) : string * list (string * string) * option nat :=
  (tag e, attrs e, parent e).

(** *** The selector fragment used by the page objects

    [#id], [tag[attr="value"]] and
    [tag[attr="value"]:nth-of-type(n)]. *)
Inductive Css :=
| ById (id : string)
| ByTagAttr (tg attr val : string) (nth : option nat).

Fixpoint splitOn (c : ascii) (s : string) : option (string * string) :=
  match s with
  | EmptyString => None
  | String a r =>
      if Ascii.eqb a c then Some (EmptyString, r)
      else match splitOn c r with
           | Some (p, q) => Some (String a p, q)
           | None => None
           end
  end.

Fixpoint stripPrefix (p s : string) : option string :=
  match p with
  | EmptyString => Some s
  | String a p' =>
      match s with
      | String b s' => if Ascii.eqb a b then stripPrefix p' s' else None
      | EmptyString => None
      end
  end.

Definition isNameChar (c : ascii) : bool :=
  let n := nat_of_ascii c in
  (Nat.leb 48 n && Nat.leb n 57) || (Nat.leb 65 n && Nat.leb n 90)
  || (Nat.leb 97 n && Nat.leb n 122) || Nat.eqb n 45 || Nat.eqb n 95.

Fixpoint isName (s : string) : bool :=
  match s with
  | EmptyString => true
  | String c r => isNameChar c && isName r
  end.

Definition nonEmpty (s : string) : bool :=
  match s with EmptyString => false | _ => true end.

Definition parseNth (s : string) : option (option nat) :=
  match s with
  | EmptyString => Some None
  | _ =>
      match stripPrefix ":nth-of-type(" s with
      | Some r =>
          match splitOn ")" r with
          | Some (digits, EmptyString) =>
              match NilEmpty.uint_of_string digits with
              | Some u => if nonEmpty digits then Some (Some (Nat.of_uint u))
                          else None
              | None => None
              end
          | _ => None
          end
      | None => None
      end
  end.

Definition parseTagAttr (s : string) : option Css :=
  match splitOn "[" s with
  | Some (tg, r1) =>
      match splitOn "=" r1 with
      | Some (attr, r2) =>
          match stripPrefix (String Js.dquote EmptyString) r2 with
          | Some r3 =>
              match splitOn Js.dquote r3 with
              | Some (val, r4) =>
                  match stripPrefix "]" r4 with
                  | Some r5 =>
                      match parseNth r5 with
                      | Some n =>
                          if nonEmpty tg && isName tg
                             && nonEmpty attr && isName attr
                          then Some (ByTagAttr tg attr val n)
                          else None
                      | None => None
                      end
                  | None => None
                  end
              | None => None
              end
          | None => None
          end
      | None => None
      end
  | None => None
  end.

Definition parse (s : string) : option Css :=
  match s with
  | String "#" r => if nonEmpty r && isName r then Some (ById r) else None
  | _ => parseTagAttr s
  end.

Definition optStringEqb (a b : option string) : bool :=
  match a, b with
  | Some x, Some y => String.eqb x y
  | None, None => true
  | _, _ => false
  end.

Definition optNatEqb (a b : option nat) : bool :=
  match a, b with
  | Some x, Some y => Nat.eqb x y
  | None, None => true
  | _, _ => false
  end.

(** Element [j] is a sibling of element [k] with the same tag. *)
Definition sameTypeSibling (d : Document) (k j : nat) : bool :=
  match d !! k, d !! j with
  | Some ek, Some ej =>
      optNatEqb (parent ek) (parent ej) && String.eqb (tag ek) (tag ej)
  | _, _ => false
  end.

(** The 1-based position of element [k] among its siblings of the same
    tag, as [:nth-of-type] counts it. *)
Definition typePosition (d : Document) (k : nat) : nat :=
  S (length (List.filter (sameTypeSibling d k) (seq 0 k))).

Definition holds (d : Document) (c : Css) (k : nat) : bool :=
  match d !! k with
  | None => false
  | Some e =>
      match c with
      | ById i => optStringEqb (getAttribute e "id") (Some i)
      | ByTagAttr tg attr val n =>
          String.eqb (tag e) tg
          && optStringEqb (getAttribute e attr) (Some val)
          && match n with
             | None => true
             | Some n => Nat.eqb (typePosition d k) n
             end
      end
  end.

(** The chain of ancestors of element [k], nearest first. *)
Fixpoint ancestors (fuel : nat) (d : Document) (k : nat) : list nat :=
  match fuel with
  | O => []
  | S f =>
      match d !! k with
      | Some e =>
          match parent e with
          | Some p => p :: ancestors f d p
          | None => []
          end
      | None => []
      end
  end.

Definition isDescendantOfAny (d : Document) (roots : list nat) (k : nat) : bool :=
  existsb (fun a => existsb (Nat.eqb a) roots) (ancestors (length d) d k).

(** [querySelectorAll] over the whole document, in document order.  A
    selector outside the fragment matches nothing in this model. *)
Definition querySelectorAll (d : Document) (sel : string) : list nat :=
  match parse sel with
  | Some c => List.filter (holds d c) (seq 0 (length d))
  | None => []
  end.

(** The same, restricted to the descendants of the elements [roots]. *)
Definition querySelectorAllWithin (d : Document) (roots : list nat)
           (sel : string) : list nat :=
  List.filter (isDescendantOfAny d roots) (querySelectorAll d sel).

End Dom.

(* ====================================================================== *)
(** ** The part of Playwright the sources call *)
(* ====================================================================== *)

Module Playwright.

(** The handle of the tab under test: opaque to the sources, which only
    store it and create locators from it.  The browser state below is the
    state of that one tab. *)
Definition Page := nat.

(** A locator is a recipe, resolved afresh at every use. *)
Inductive Locator :=
| page_locator (page : Page) (selector : string)        (* page.locator(s) *)
| locator_locator (scope : Locator) (selector : string) (* l.locator(s)    *)
| locator_nth (l : Locator) (index : nat).              (* l.nth(i)        *)

Inductive WaitForState := Attached | Detached | Visible | Hidden.

Inductive Error :=
| TimeoutError          (* a wait or actionability check never held *)
| StrictModeViolation   (* a single-element call on several matches *)
| AssertionError.       (* a failed [expect] *)

Inductive Result (A : Type) :=
| Ok (a : A)
| Err (e : Error).
Arguments Ok {A} a.
Arguments Err {A} e.

(** The elements a locator matches, in document order. *)
Fixpoint query (d : Dom.Document) (l : Locator) : list nat :=
  match l with
  | page_locator _ sel => Dom.querySelectorAll d sel
  | locator_locator scope sel =>
      Dom.querySelectorAllWithin d (query d scope) sel
  | locator_nth l n =>
      match query d l !! n with
      | Some k => [k]
      | None => []
      end
  end.

(** Resolution for a single-element call: no match never appears on a
    page nothing else changes, so the call times out; several matches
    violate strictness. *)
Definition resolve (d : Dom.Document) (l : Locator) : Result nat :=
  match query d l with
  | [] => Err TimeoutError
  | [k] => Ok k
  | _ :: _ :: _ => Err StrictModeViolation
  end.

Definition isVisibleAt (d : Dom.Document) (k : nat) : bool :=
  match d !! k with
  | Some e => Dom.visible e
  | None => false
  end.

Definition isCheckedAt (d : Dom.Document) (k : nat) : bool :=
  match d !! k with
  | Some e => Dom.checked e
  | None => false
  end.

End Playwright.

(* ====================================================================== *)
(** ** types/actions.types.ts *)
(* ====================================================================== *)

Module ActionTypes.
Import Playwright.

(** [type SelectorOrLocator = string | Locator]. *)
Inductive SelectorOrLocator :=
| Selector (s : string)
| Loc (l : Locator).

(** Optional properties are [None] when absent; [{}] is the record of
    all-absent properties. *)
Record ClickOptions := { click_force : option bool; click_timeout : option Z }.
Record FillOptions := { fill_timeout : option Z }.
Record CheckOptions := { check_timeout : option Z }.
Record GetTextOptions := { text_timeout : option Z; text_trim : option bool }.

Definition noClickOptions : ClickOptions := {| click_force := None; click_timeout := None |}.
Definition noFillOptions : FillOptions := {| fill_timeout := None |}.
Definition noCheckOptions : CheckOptions := {| check_timeout := None |}.
Definition noGetTextOptions : GetTextOptions := {| text_timeout := None; text_trim := None |}.

End ActionTypes.

(* ====================================================================== *)
(** ** Browser state, call log and the monad of asynchronous methods *)
(* ====================================================================== *)

Module Browser.
Import Playwright ActionTypes.

(** A call of a Playwright primitive, with the arguments it was given.
    An absent timeout argument is [None]. *)
Inductive PrimCall :=
| P_waitFor (l : Locator) (state : WaitForState) (timeout : Z)
| P_click (l : Locator) (force : bool) (timeout : Z)
| P_fill (l : Locator) (text : string) (timeout : Z)
| P_check (l : Locator) (timeout : option Z)
| P_uncheck (l : Locator) (timeout : option Z)
| P_isChecked (l : Locator)
| P_textContent (l : Locator) (timeout : Z)
| P_all (l : Locator).

(** A call of a [CommonActions] method, with the arguments it was
    given. *)
Inductive ActionCall :=
| A_click (target : SelectorOrLocator) (options : ClickOptions)
| A_fill (target : SelectorOrLocator) (text : string) (options : FillOptions)
| A_check (target : SelectorOrLocator) (options : CheckOptions)
| A_uncheck (target : SelectorOrLocator)
| A_isChecked (target : SelectorOrLocator) (options : CheckOptions)
| A_getText (target : SelectorOrLocator) (options : GetTextOptions).

Inductive Event :=
| Action (a : ActionCall)
| Prim (p : PrimCall).

(** The state of the tab: its document, how the application under test
    reacts to a click, and the calls made so far (oldest first). *)
Record t := mk {
  document : Dom.Document;
  onClick : Dom.Document -> nat -> Dom.Document;
  log : list Event
}.

Definition Async (A : Type) : Type := t -> Result A * t.

Definition ret {A} (a : A) : Async A := fun b => (Ok a, b).

Definition throw {A} (e : Error) : Async A := fun b => (Err e, b).

Definition bind {A B} (c : Async A) (k : A -> Async B) : Async B :=
  fun b =>
    match c b with
    | (Ok a, b') => k a b'
    | (Err e, b') => (Err e, b')
    end.

Definition lift {A} (r : Result A) : Async A := fun b => (r, b).

Definition emit (e : Event) : Async unit :=
  fun b => (Ok tt, mk (document b) (onClick b) (log b ++ [e])).

Definition getDocument : Async Dom.Document := fun b => (Ok (document b), b).

Definition setDocument (d : Dom.Document) : Async unit :=
  fun b => (Ok tt, mk d (onClick b) (log b)).

Definition getOnClick : Async (Dom.Document -> nat -> Dom.Document) :=
  fun b => (Ok (onClick b), b).

(** The state [b] with the events [new] logged after its own. *)
Definition logged (b : t) (new : list Event) : t :=
mk (document b) (onClick b) (log b ++ new).

(** The state [b] with the document [d] and the events [new] logged after
    its own. *)
Definition moved (b : t) (d : Dom.Document) (new : list Event) : t :=
mk d (onClick b) (log b ++ new).

(** The [CommonActions] calls of a log, in order. *)
Fixpoint actionsOf (l : list Event) : list ActionCall :=
match l with
| [] => []
| Action a :: r => a :: actionsOf r
| Prim _ :: r => actionsOf r
end.

(** The primitive calls of a log, in order. *)
Fixpoint primsOf (l : list Event) : list PrimCall :=
match l with
| [] => []
| Action _ :: r => primsOf r
| Prim p :: r => p :: primsOf r
end.

(** The locator a primitive call was made on. *)
Definition primTarget (p : PrimCall) : Locator :=
match p with
| P_waitFor l _ _ => l
| P_click l _ _ => l
| P_fill l _ _ => l
| P_check l _ => l
| P_uncheck l _ => l
| P_isChecked l => l
| P_textContent l _ => l
| P_all l => l
end.

(** Two outcomes that agree in everything but the wrapper calls logged:
    the same result, the same page, the same primitive calls in the same
    order. *)
Definition agree {A} (x y : Result A * t) : Prop :=
  fst x = fst y
  /\ document (snd x) = document (snd y)
  /\ onClick (snd x) = onClick (snd y)
  /\ primsOf (log (snd x)) = primsOf (log (snd y)).

(** A computation that leaves the page as it found it, whatever it
    returns and whatever it logs. *)
Definition readOnly {A} (c : Async A) : Prop :=
  forall b, document (snd (c b)) = document b /\ onClick (snd (c b)) = onClick b.

End Browser.

Notation "x <- c ;; k" := (Browser.bind c (fun x => k))
(at level 100, c at next level, right associativity).
Notation "c ;; k" := (Browser.bind c (fun _ => k))
(at level 100, right associativity).

Module LocatorApi.
Import Playwright ActionTypes Browser.

(** [locator.waitFor({ state, timeout })]. *)
Definition waitFor (l : Locator) (state : WaitForState) (timeout : Z) : Async unit :=
  emit (Prim (P_waitFor l state timeout)) ;;
  d <- getDocument ;;
  match state with
  | Attached => _ <- lift (resolve d l) ;; ret tt
  | Visible =>
      k <- lift (resolve d l) ;;
      if isVisibleAt d k then ret tt else throw TimeoutError
  | Detached =>
      match query d l with
      | [] => ret tt
      | [_] => throw TimeoutError
      | _ :: _ :: _ => throw StrictModeViolation
      end
  | Hidden =>
      match query d l with
      | [] => ret tt
      | [k] => if isVisibleAt d k then throw TimeoutError else ret tt
      | _ :: _ :: _ => throw StrictModeViolation
      end
  end.

(** [locator.click({ force, timeout })]: the actionability check is
    skipped under [force]; the application then reacts. *)
Definition click (l : Locator) (force : bool) (timeout : Z) : Async unit :=
  emit (Prim (P_click l force timeout)) ;;
  d <- getDocument ;;
  k <- lift (resolve d l) ;;
  if force || isVisibleAt d k
  then react <- getOnClick ;; setDocument (react d k)
  else throw TimeoutError.

(** [locator.fill(text, { timeout })]. *)
Definition fill (l : Locator) (text : string) (timeout : Z) : Async unit :=
  emit (Prim (P_fill l text timeout)) ;;
  d <- getDocument ;;
  k <- lift (resolve d l) ;;
  if isVisibleAt d k
  then setDocument (alter (Dom.setValue text) k d)
  else throw TimeoutError.

(** The set-state primitive behind [check] and [uncheck]: returns at
    once when the element already has the state, otherwise waits for
    actionability and flips it. *)
Definition setChecked (l : Locator) (state : bool) : Async unit :=
  d <- getDocument ;;
  k <- lift (resolve d l) ;;
  if Bool.eqb (isCheckedAt d k) state then ret tt
  else if isVisibleAt d k
       then setDocument (alter (Dom.setChecked state) k d)
       else throw TimeoutError.

(** [locator.check({ timeout })] and [locator.check()]. *)
Definition check (l : Locator) (timeout : option Z) : Async unit :=
  emit (Prim (P_check l timeout)) ;; setChecked l true.

(** [locator.uncheck({ timeout })] and [locator.uncheck()]. *)
Definition uncheck (l : Locator) (timeout : option Z) : Async unit :=
  emit (Prim (P_uncheck l timeout)) ;; setChecked l false.

(** [locator.isChecked()]. *)
Definition isChecked (l : Locator) : Async bool :=
  emit (Prim (P_isChecked l)) ;;
  d <- getDocument ;;
  k <- lift (resolve d l) ;;
  ret (isCheckedAt d k).

(** [locator.textContent({ timeout })]. *)
Definition textContent (l : Locator) (timeout : Z) : Async (Js.OrNull string) :=
  emit (Prim (P_textContent l timeout)) ;;
  d <- getDocument ;;
  k <- lift (resolve d l) ;;
  ret (match d !! k with Some e => Dom.textContent e | None => Js.Null end).

(** [locator.all()]: one [nth] locator per current match; no waiting. *)
Definition all (l : Locator) : Async (list Locator) :=
  emit (Prim (P_all l)) ;;
  d <- getDocument ;;
  ret (map (locator_nth l) (seq 0 (length (query d l)))).

(** [for (const x of xs) { await body(x) }]. *)
Fixpoint forOf {A} (xs : list A) (body : A -> Async unit) : Async unit :=
  match xs with
  | [] => ret tt
  | x :: r => body x ;; forOf r body
  end.

(** [Promise.all(xs.map(f))]: every call is started, in order; the
    result is the list of values, or the first rejection. *)
Fixpoint promiseAllMap {A B} (f : A -> Async B) (xs : list A) : Async (list B) :=
  fun b =>
    match xs with
    | [] => (Ok [], b)
    | x :: r =>
        let (rx, b1) := f x b in
        let (rr, b2) := promiseAllMap f r b1 in
        (match rx, rr with
         | Ok v, Ok vs => Ok (v :: vs)
         | Err e, _ => Err e
         | Ok _, Err e => Err e
         end, b2)
    end.

(** [expect(actual).toBe(expected)] on booleans. *)
Definition expectToBe (actual expected : bool) : Async unit :=
  if Bool.eqb actual expected then ret tt else throw AssertionError.

Fixpoint boolArrayEqual (a b : list bool) : bool :=
  match a, b with
  | [], [] => true
  | x :: a', y :: b' => Bool.eqb x y && boolArrayEqual a' b'
  | _, _ => false
  end.

(** [expect(actual).toEqual(expected)] on arrays of booleans. *)
Definition expectToEqual (actual expected : list bool) : Async unit :=
  if boolArrayEqual actual expected then ret tt else throw AssertionError.

(** [locator.count()]: the number of current matches; no waiting, no
    strictness.  Not among the calls the log records. *)
Definition count (l : Locator) : Async nat :=
  d <- getDocument ;;
  ret (length (query d l)).

(** [expect(actual).toContain(expected)] on a string that may be
    [undefined]: an absent value fails the expectation. *)
Definition expectToContain (actual : Js.OrUndefined string) (expected : string) : Async unit :=
  match actual with
  | Js.Defined s =>
      if Js.includes s expected then ret tt else throw AssertionError
  | Js.Undefined => throw AssertionError
  end.

(** The same on a value of untyped JavaScript. *)
Definition expectToContainJs (actual : Js.OrNullish string) (expected : string) : Async unit :=
  match actual with
  | Js.Present s =>
      if Js.includes s expected then ret tt else throw AssertionError
  | _ => throw AssertionError
  end.

End LocatorApi.

(* ====================================================================== *)
(** ** utils/CommonActions.ts *)
(* ====================================================================== *)

(** Each method first records its own call in the log ([count] apart) and
    then does what the source does, line by line. *)

Module CommonActions.
Import Playwright ActionTypes Browser.

Record t := { page : Page }.

Definition constructor (page : Page) : t := {| page := page |}.

Definition _getLocator (this : t) (selectorOrLocator : SelectorOrLocator) : Locator :=
  match selectorOrLocator with
  | Selector s => page_locator (page this) s
  | Loc l => l
  end.

Definition click (this : t) (selectorOrLocator : SelectorOrLocator)
           (options : ClickOptions) : Async unit :=
  emit (Action (A_click selectorOrLocator options)) ;;
  let force := default false (click_force options) in
  let timeout := default 10000%Z (click_timeout options) in
  let locator := _getLocator this selectorOrLocator in
  LocatorApi.waitFor locator Visible timeout ;;
  LocatorApi.click locator force timeout.

Definition fill (this : t) (selectorOrLocator : SelectorOrLocator)
           (text : string) (options : FillOptions) : Async unit :=
  emit (Action (A_fill selectorOrLocator text options)) ;;
  let timeout := default 10000%Z (fill_timeout options) in
  let locator := _getLocator this selectorOrLocator in
  LocatorApi.fill locator text timeout.

Definition check (this : t) (selectorOrLocator : SelectorOrLocator)
           (options : CheckOptions) : Async unit :=
  emit (Action (A_check selectorOrLocator options)) ;;
  let timeout := default 10000%Z (check_timeout options) in
  let locator := _getLocator this selectorOrLocator in
  LocatorApi.check locator (Some timeout).

(** [uncheck] takes the target only and calls [locator.uncheck()]
    without arguments. *)
Definition uncheck (this : t) (selectorOrLocator : SelectorOrLocator) : Async unit :=
  emit (Action (A_uncheck selectorOrLocator)) ;;
  let locator := _getLocator this selectorOrLocator in
  LocatorApi.uncheck locator None.

Definition isChecked (this : t) (selectorOrLocator : SelectorOrLocator)
           (options : CheckOptions) : Async bool :=
  emit (Action (A_isChecked selectorOrLocator options)) ;;
  let timeout := default 10000%Z (check_timeout options) in
  let locator := _getLocator this selectorOrLocator in
  LocatorApi.waitFor locator Attached timeout ;;
  LocatorApi.isChecked locator.

(** The last line is [return trim ? text?.trim() : text ?? undefined]. *)
Definition getText (this : t) (selectorOrLocator : SelectorOrLocator)
           (options : GetTextOptions) : Async (Js.OrUndefined string) :=
  emit (Action (A_getText selectorOrLocator options)) ;;
  let timeout := default 10000%Z (text_timeout options) in
  let trim := default true (text_trim options) in
  let locator := _getLocator this selectorOrLocator in
  LocatorApi.waitFor locator Visible timeout ;;
  text <- LocatorApi.textContent locator timeout ;;
  ret (if trim
       then match text with
            | Js.NotNull s => Js.Defined (Js.trim s)
            | Js.Null => Js.Undefined
            end
       else match text with
            | Js.NotNull s => Js.Defined s
            | Js.Null => Js.Undefined
            end).

(** [count] records no call of its own. *)
Definition count (this : t) (selectorOrLocator : SelectorOrLocator) : Async nat :=
  LocatorApi.count (_getLocator this selectorOrLocator).

End CommonActions.

(* ====================================================================== *)
(** ** pages/LoginPage.ts *)
(* ====================================================================== *)

Module LoginPage.
Import Playwright ActionTypes Browser.

Record t := {
  page : Page;
  actions : CommonActions.t;
  usernameInput : Locator;
  passwordInput : Locator;
  loginButton : Locator;
  errorMessage : Locator
}.

Definition submitSelector : string :=
  "button[type=" ++ String Js.dquote "submit" ++ String Js.dquote "]".

Definition constructor (page : Page) : t :=
  {| page := page;
     actions := CommonActions.constructor page;
     usernameInput := page_locator page "#username";
     passwordInput := page_locator page "#password";
     loginButton := page_locator page submitSelector;
     errorMessage := page_locator page "#flash" |}.

Definition login (this : t) (username password : string) : Async unit :=
  CommonActions.fill (actions this) (Loc (usernameInput this)) username noFillOptions ;;
  CommonActions.fill (actions this) (Loc (passwordInput this)) password noFillOptions ;;
  CommonActions.click (actions this) (Loc (loginButton this)) noClickOptions.

Definition getErrorMessage (this : t) : Async (Js.OrUndefined string) :=
  CommonActions.getText (actions this) (Loc (errorMessage this)) noGetTextOptions.

Definition assertErrorMessage (this : t) (expectedMessage : string) : Async unit :=
  actualMessage <- getErrorMessage this ;;
  LocatorApi.expectToContain actualMessage expectedMessage.

Definition assertSuccessMessage (this : t) (expectedMessage : string) : Async unit :=
  actualMessage <- getErrorMessage this ;;
  LocatorApi.expectToContain actualMessage expectedMessage.

End LoginPage.

(* ====================================================================== *)
(** ** pages/SecurePage.ts *)
(* ====================================================================== *)

Module SecurePage.
Import Playwright ActionTypes Browser.

Record t := {
  page : Page;
  actions : CommonActions.t;
  flashMessage : string
}.

Definition constructor (page : Page) : t :=
  {| page := page;
     actions := CommonActions.constructor page;
     flashMessage := "#flash" |}.

Definition getMessage (this : t) : Async string :=
  message <- CommonActions.getText (actions this) (Selector (flashMessage this))
               {| text_timeout := Some 8000%Z; text_trim := None |} ;;
  ret (Js.nullish message "").

Definition assertLoggedInMessage (this : t) (passedMessage : string) : Async unit :=
  message <- getMessage this ;;
  LocatorApi.expectToContain (Js.Defined message) passedMessage.

End SecurePage.

(* ====================================================================== *)
(** ** pages/CheckboxesPage.ts *)
(* ====================================================================== *)

Module CheckboxesPage.
Import Playwright ActionTypes Browser.

Record t := {
  page : Page;
  actions : CommonActions.t;
  checkboxesContainer : Locator;
  checkboxes : Locator
}.

(** The selector [input[type="checkbox"]]. *)
Definition checkboxSelector : string :=
  "input[type=" ++ String Js.dquote "checkbox" ++ String Js.dquote "]".

(** The template [`input[type="checkbox"]:nth-of-type(${index})`], for an
    index that is a non-negative integer, as a 1-based position is. *)
Definition nthCheckboxSelector (index : nat) : string :=
  checkboxSelector ++ ":nth-of-type(" ++ Js.numberToString index ++ ")".

Definition constructor (page : Page) : t :=
  let container := page_locator page "#checkboxes" in
  {| page := page;
     actions := CommonActions.constructor page;
     checkboxesContainer := container;
     checkboxes := locator_locator container checkboxSelector |}.

Definition checkCheckbox (this : t) (index : nat) : Async unit :=
  let selector := nthCheckboxSelector index in
  CommonActions.check (actions this) (Selector selector) noCheckOptions.

Definition uncheckCheckbox (this : t) (index : nat) : Async unit :=
  let selector := nthCheckboxSelector index in
  CommonActions.uncheck (actions this) (Selector selector).

Definition checkAll (this : t) : Async unit :=
  allCheckboxes <- LocatorApi.all (checkboxes this) ;;
  LocatorApi.forOf allCheckboxes (fun checkbox =>
    isChecked <- LocatorApi.isChecked checkbox ;;
    if negb isChecked
    then CommonActions.check (actions this) (Loc checkbox) noCheckOptions
    else ret tt).

Definition uncheckAll (this : t) : Async unit :=
  allCheckboxes <- LocatorApi.all (checkboxes this) ;;
  LocatorApi.forOf allCheckboxes (fun checkbox =>
    isChecked <- LocatorApi.isChecked checkbox ;;
    if isChecked
    then CommonActions.uncheck (actions this) (Loc checkbox)
    else ret tt).

Definition getCheckboxStates (this : t) : Async (list bool) :=
  allCheckboxes <- LocatorApi.all (checkboxes this) ;;
  LocatorApi.promiseAllMap (fun checkbox => LocatorApi.isChecked checkbox)
                           allCheckboxes.

Definition validateCheckboxState (this : t) (index : nat)
           (expectedState : bool) : Async unit :=
  let selector := nthCheckboxSelector index in
  actualState <- CommonActions.isChecked (actions this) (Selector selector)
                   noCheckOptions ;;
  LocatorApi.expectToBe actualState expectedState.

Definition validateAllCheckboxStates (this : t)
           (expectedStates : list bool) : Async unit :=
  actualStates <- getCheckboxStates this ;;
  LocatorApi.expectToEqual actualStates expectedStates.

Definition toggleCheckbox (this : t) (index : nat) : Async unit :=
  let selector := nthCheckboxSelector index in
  isCurrentlyChecked <- CommonActions.isChecked (actions this)
                          (Selector selector) noCheckOptions ;;
  if isCurrentlyChecked : bool
  then CommonActions.uncheck (actions this) (Selector selector)
  else CommonActions.check (actions this) (Selector selector) noCheckOptions.

Definition getCheckboxCount (this : t) : Async nat :=
  CommonActions.count (actions this) (Selector checkboxSelector).

End CheckboxesPage.

(* ====================================================================== *)
(** ** utils/CommonActions.js and pages/SecurePage.js: the JavaScript
       versions, where they differ *)
(* ====================================================================== *)

Module CommonActionsJs.
Import Playwright ActionTypes Browser.

(** The last line is [return trim ? text?.trim() : text]. *)
Definition getText (this : CommonActions.t) (selectorOrLocator : SelectorOrLocator)
           (options : GetTextOptions) : Async (Js.OrNullish string) :=
  emit (Action (A_getText selectorOrLocator options)) ;;
  let timeout := default 10000%Z (text_timeout options) in
  let trim := default true (text_trim options) in
  let locator := CommonActions._getLocator this selectorOrLocator in
  LocatorApi.waitFor locator Visible timeout ;;
  text <- LocatorApi.textContent locator timeout ;;
  ret (if trim
       then match text with
            | Js.NotNull s => Js.Present (Js.trim s)
            | Js.Null => Js.IsUndefined
            end
       else match text with
            | Js.NotNull s => Js.Present s
            | Js.Null => Js.IsNull
            end).

End CommonActionsJs.

Module SecurePageJs.
Import Playwright ActionTypes Browser.

Definition getMessage (this : SecurePage.t) : Async (Js.OrNullish string) :=
  CommonActionsJs.getText (SecurePage.actions this)
    (Selector (SecurePage.flashMessage this))
    {| text_timeout := Some 8000%Z; text_trim := None |}.

Definition assertLoggedInMessage (this : SecurePage.t) (passedMessage : string) : Async unit :=
  message <- getMessage this ;;
  LocatorApi.expectToContainJs message passedMessage.

End SecurePageJs.

(* ====================================================================== *)
(** ** pages/PomManager.ts *)
(* ====================================================================== *)

Module PomManager.
Import Playwright.

(** Objects live in a heap and are named by reference; [new] allocates
    at a fresh address.  Reference identity is equality of addresses. *)
Definition Ref := nat.

(** The three cache properties.  The manager's constructor sets them to
    [null].  A getter run on another object of the heap, as
    [Function.prototype.call] allows, finds them [undefined] there and
    assigns the one it fills, since objects are extensible.  [null] and
    [undefined] are falsy alike and are [None] alike; an object is
    truthy. *)
Record Cache := {
  _loginPage : option Ref;
  _securePage : option Ref;
  _checkboxesPage : option Ref
}.

Definition emptyCache : Cache :=
  {| _loginPage := None; _securePage := None; _checkboxesPage := None |}.

(** What an object was constructed as, with the properties its class
    declares besides the cache. *)
Inductive Instance :=
| LoginPageInstance (o : LoginPage.t)
| SecurePageInstance (o : SecurePage.t)
| CheckboxesPageInstance (o : CheckboxesPage.t)
| PomManagerInstance (page : Page).

Record Object := { instance : Instance; cache : Cache }.

Abbreviation Heap := (list Object).

(** [this.page]: the manager and the three page objects all have it. *)
Definition page (o : Object) : Page :=
  match instance o with
  | LoginPageInstance p => LoginPage.page p
  | SecurePageInstance p => SecurePage.page p
  | CheckboxesPageInstance p => CheckboxesPage.page p
  | PomManagerInstance p => p
  end.

Definition new (o : Object) (h : Heap) : Ref * Heap := (length h, h ++ [o]).

Definition constructor (page : Page) (h : Heap) : Ref * Heap :=
  new {| instance := PomManagerInstance page; cache := emptyCache |} h.

(** A getter runs on any object of the heap.  A reference that names no
    object stands for no call: the result is [None] and the heap is left
    alone. *)
Definition getLoginPage (this : Ref) (h : Heap) : option Ref * Heap :=
  match h !! this with
  | Some o =>
      match _loginPage (cache o) with
      | None =>
          let (r, h1) :=
            new {| instance := LoginPageInstance (LoginPage.constructor (page o));
                   cache := emptyCache |} h in
          (Some r,
           <[this := {| instance := instance o;
                        cache := {| _loginPage := Some r;
                                    _securePage := _securePage (cache o);
                                    _checkboxesPage := _checkboxesPage (cache o) |} |}]>
             h1)
      | Some r => (Some r, h)
      end
  | None => (None, h)
  end.

Definition getSecurePage (this : Ref) (h : Heap) : option Ref * Heap :=
  match h !! this with
  | Some o =>
      match _securePage (cache o) with
      | None =>
          let (r, h1) :=
            new {| instance := SecurePageInstance (SecurePage.constructor (page o));
                   cache := emptyCache |} h in
          (Some r,
           <[this := {| instance := instance o;
                        cache := {| _loginPage := _loginPage (cache o);
                                    _securePage := Some r;
                                    _checkboxesPage := _checkboxesPage (cache o) |} |}]>
             h1)
      | Some r => (Some r, h)
      end
  | None => (None, h)
  end.

Definition getCheckboxesPage (this : Ref) (h : Heap) : option Ref * Heap :=
  match h !! this with
  | Some o =>
      match _checkboxesPage (cache o) with
      | None =>
          let (r, h1) :=
            new {| instance :=
                     CheckboxesPageInstance (CheckboxesPage.constructor (page o));
                   cache := emptyCache |} h in
          (Some r,
           <[this := {| instance := instance o;
                        cache := {| _loginPage := _loginPage (cache o);
                                    _securePage := _securePage (cache o);
                                    _checkboxesPage := Some r |} |}]>
             h1)
      | Some r => (Some r, h)
      end
  | None => (None, h)
  end.

(** The three getters, indexed by the kind of page object. *)
Inductive Kind := Login | Secure | Checkboxes.

#[global] Instance Kind_eq_dec : EqDecision Kind.
Proof. solve_decision. Defined.

Definition get (k : Kind) : Ref -> Heap -> option Ref * Heap :=
  match k with
  | Login => getLoginPage
  | Secure => getSecurePage
  | Checkboxes => getCheckboxesPage
  end.

Definition field (k : Kind) (c : Cache) : option Ref :=
  match k with
  | Login => _loginPage c
  | Secure => _securePage c
  | Checkboxes => _checkboxesPage c
  end.

(** The cache field of kind [k] of the object at [this]. *)
Definition cached (k : Kind) (this : Ref) (h : Heap) : option Ref :=
  match h !! this with
  | Some o => field k (cache o)
  | None => None
  end.

Definition kindOf (o : Object) : option Kind :=
  match instance o with
  | LoginPageInstance _ => Some Login
  | SecurePageInstance _ => Some Secure
  | CheckboxesPageInstance _ => Some Checkboxes
  | PomManagerInstance _ => None
  end.

(** Every cache field that is set names a page object of its kind. *)
Definition wellFormed (h : Heap) : Prop :=
  forall this k r, cached k this h = Some r ->
    exists o, h !! r = Some o /\ kindOf o = Some k.

(** What [new Kind(page)] constructs. *)
Definition construct (k : Kind) (page : Page) : Instance :=
  match k with
  | Login => LoginPageInstance (LoginPage.constructor page)
  | Secure => SecurePageInstance (SecurePage.constructor page)
  | Checkboxes => CheckboxesPageInstance (CheckboxesPage.constructor page)
  end.

(** Any sequence of getter calls, on any receivers. *)
Fixpoint run (ops : list (Kind * Ref)) (h : Heap) : Heap :=
  match ops with
  | [] => h
  | (k, this) :: r => run r (snd (get k this h))
  end.

(** The heaps a test can be in: built from the empty heap by
    [new PomManager(page)] and getter calls. *)
Inductive reachable : Heap -> Prop :=
| reachable_empty : reachable []
| reachable_constructor (page : Page) (h : Heap) :
    reachable h -> reachable (snd (constructor page h))
| reachable_get (k : Kind) (this : Ref) (h : Heap) :
    reachable h -> reachable (snd (get k this h)).

(** Every cache field that is set names the page object of its kind built
    from the page handle of the object that holds the field, and no other
    field of any object names that page object. *)
Definition consistent (h : Heap) : Prop :=
  forall this o k r,
    h !! this = Some o -> field k (cache o) = Some r ->
    instance <$> h !! r = Some (construct k (page o))
    /\ forall this' o' k',
         h !! this' = Some o' -> field k' (cache o') = Some r ->
         this' = this /\ k' = k.

(** The number of cache fields of the object at [this] that are still
    empty. *)
Definition emptyFields (this : Ref) (h : Heap) : nat :=
  match h !! this with
  | Some o =>
      length (List.filter (fun k => match field k (cache o) with
                                    | None => true
                                    | Some _ => false
                                    end)
                          [Login; Secure; Checkboxes])
  | None => 0
  end.

End PomManager.

(* ====================================================================== *)
(** ** playwright.config.ts *)
(* ====================================================================== *)

Module Config.

(** [Math.min(Math.floor(cpuCount * 0.75), 20)].  The factor 0.75 is a
    binary fraction, so for a count of cores the product is exact and its
    floor is the integer quotient of [3 * cpuCount] by 4. *)
Definition calculateWorkers (cpuCount : nat) : nat :=
  Nat.min (3 * cpuCount / 4) 20.

(** [process.env['CI'] ? 2 : calculateWorkers()]. *)
Definition workers (ci : option string) (cpuCount : nat) : nat :=
  if Js.truthy ci then 2 else calculateWorkers cpuCount.

(** [process.env['CI'] ? 2 : 0]. *)
Definition retries (ci : option string) : nat :=
  if Js.truthy ci then 2 else 0.

End Config.

(* ====================================================================== *)
(** ** tests/pomTests.spec.ts: the checkbox tests *)
(* ====================================================================== *)

Module PomTests.
Import Playwright ActionTypes Browser.

(** 'Uncheck all checkboxes'. *)
Definition uncheckAllCheckboxes (checkboxesPage : CheckboxesPage.t) : Async unit :=
  CheckboxesPage.checkAll checkboxesPage ;;
  CheckboxesPage.uncheckAll checkboxesPage ;;
  states <- CheckboxesPage.getCheckboxStates checkboxesPage ;;
  LocatorApi.expectToEqual states [false; false].


(** 'Check individual checkbox by index and validate'. *)
Definition checkIndividualCheckbox (checkboxesPage : CheckboxesPage.t) : Async unit :=
  CheckboxesPage.checkCheckbox checkboxesPage 1 ;;
  CheckboxesPage.validateCheckboxState checkboxesPage 1 true ;;
  CheckboxesPage.checkCheckbox checkboxesPage 2 ;;
  CheckboxesPage.validateCheckboxState checkboxesPage 2 true.

(** 'Test checkbox states when starting from unknown state'.  An index
    beyond the array reads [undefined], which is neither [=== false] nor
    [=== true]. *)
Definition startingFromUnknownState (checkboxesPage : CheckboxesPage.t) : Async unit :=
  initialStates <- CheckboxesPage.getCheckboxStates checkboxesPage ;;
  (match initialStates !! 0 with
   | Some false => CheckboxesPage.checkCheckbox checkboxesPage 1
   | _ => ret tt
   end) ;;
  (match initialStates !! 1 with
   | Some true => CheckboxesPage.uncheckCheckbox checkboxesPage 2
   | _ => ret tt
   end) ;;
  CheckboxesPage.validateCheckboxState checkboxesPage 1 true ;;
  CheckboxesPage.validateCheckboxState checkboxesPage 2 false.

(** 'Validate all checkbox states together'. *)
Definition validateAllTogether (checkboxesPage : CheckboxesPage.t) : Async unit :=
  CheckboxesPage.checkCheckbox checkboxesPage 1 ;;
  CheckboxesPage.uncheckCheckbox checkboxesPage 2 ;;
  CheckboxesPage.validateAllCheckboxStates checkboxesPage [true; false].

End PomTests.

(* ====================================================================== *)
(** ** Vocabulary of the statements about checkboxes *)
(* ====================================================================== *)

Module Checkboxes.
Import Playwright ActionTypes Browser.

(** The document [d] with the checked state of the elements [ks] set to
    [v], one after the other. *)
Definition setAll (v : bool) (ks : list nat) (d : Dom.Document) : Dom.Document :=
fold_left (fun d k => alter (Dom.setChecked v) k d) ks d.

(** The checked state of the [i]-th match of [l], 0-based. *)
Definition stateAt (d : Dom.Document) (l : Locator) (i : nat) : bool :=
match query d l !! i with
| Some k => isCheckedAt d k
| None => false
end.

(** The wrapper call, and the primitive call behind it, that sets the
    [i]-th match of [l] to [v]. *)
Definition setAction (v : bool) (l : Locator) (i : nat) : ActionCall :=
if v then A_check (Loc (locator_nth l i)) noCheckOptions
else A_uncheck (Loc (locator_nth l i)).

Definition setPrim (v : bool) (l : Locator) (i : nat) : PrimCall :=
if v then P_check (locator_nth l i) (Some 10000%Z)
else P_uncheck (locator_nth l i) None.

Definition setCalls (v : bool) (l : Locator) (i : nat) : list Event :=
[Action (setAction v l i); Prim (setPrim v l i)].

(** What one round of the loop of [checkAll] ([v] true) or [uncheckAll]
    ([v] false) logs for the [i]-th match on the document [d]: the state
    read, and the set calls when the state read is not [v]. *)
Definition roundCalls (v : bool) (d : Dom.Document) (l : Locator) (i : nat) : list Event :=
Prim (P_isChecked (locator_nth l i))
:: (if Bool.eqb (stateAt d l i) v then [] else setCalls v l i).

(** What [toggleCheckbox] logs when its selector resolves and the state
    read is [c]: the state is read through the wrapper, then the opposite
    state is written through the wrapper. *)
Definition toggleCalls (target : SelectorOrLocator) (l : Locator) (c : bool) : list Event :=
[ Action (A_isChecked target noCheckOptions);
  Prim (P_waitFor l Attached 10000%Z);
  Prim (P_isChecked l);
  Action (if c then A_uncheck target else A_check target noCheckOptions);
  Prim (if c then P_uncheck l None else P_check l (Some 10000%Z)) ].

(** The primitive call [p] was made on [l] itself or on one of its [nth]
    locators. *)
Definition onScoped (l : Locator) (p : PrimCall) : Prop :=
primTarget p = l \/ exists j, primTarget p = locator_nth l j.

(** The 0-based positions of the matches of [l] whose state is not [v]. *)
Definition positionsNot (v : bool) (d : Dom.Document) (l : Locator) : list nat :=
List.filter (fun i => negb (Bool.eqb (stateAt d l i) v))
            (seq 0 (length (query d l))).

End Checkboxes.

(* ====================================================================== *)
(** ** The pages of the demo site the tests run against *)
(* ====================================================================== *)

Module Fixtures.

(** A visible element without text, value or checked state. *)
Definition element (tg : string) (attrs : list (string * string))
         (parent : option nat) : Dom.Element :=
Dom.mkElement tg attrs parent true (Js.NotNull "") "" false.

Definition checkbox (parent : option nat) (state : bool) : Dom.Element :=
Dom.mkElement "input" [("type", "checkbox")] parent true (Js.NotNull "") "" state.

(** /checkboxes: [<form id="checkboxes">] holding one checkbox input per
    entry of [states]. *)
Definition checkboxesDocument (states : list bool) : Dom.Document :=
element "form" [("id", "checkboxes")] None :: map (checkbox (Some 0)) states.

(** /login: the form with its two inputs and the submit button, and the
    flash region. *)
Definition loginDocument : Dom.Document :=
[ Dom.mkElement "div" [("id", "flash")] None true
    (Js.NotNull "  Your password is invalid! ") "" false;
  element "form" [("id", "login")] None;
  element "input" [("type", "text"); ("id", "username")] (Some 1);
  element "input" [("type", "password"); ("id", "password")] (Some 1);
  element "button" [("type", "submit")] (Some 1) ].

(** /secure with the flash region shown, hidden, and without text. *)
Definition secureDocument (shown : bool) (text : Js.OrNull string) : Dom.Document :=
[ Dom.mkElement "div" [("id", "flash")] None shown text "" false ].

(** A checkbox outside the [#checkboxes] container, before it. *)
Definition strayCheckboxDocument : Dom.Document :=
[ element "div" [] None;
  checkbox (Some 0) false;
  element "form" [("id", "checkboxes")] None;
  element "input" [("type", "text")] (Some 2);
  checkbox (Some 2) false ].

(** A container whose checkboxes follow a text input. *)
Definition mixedInputsDocument : Dom.Document :=
[ element "form" [("id", "checkboxes")] None;
  element "input" [("type", "text")] (Some 0);
  checkbox (Some 0) false;
  checkbox (Some 0) false ].

(** An application that does not react to clicks. *)
Definition inert (d : Dom.Document) (k : nat) : Dom.Document := d.

Definition browser (d : Dom.Document) : Browser.t := Browser.mk d inert [].

End Fixtures.

(* ====================================================================== *)
(** ** The checkboxes page seen as its vector of states *)
(* ====================================================================== *)

Module VectorModel.
Import Playwright Browser.

(** A computation on the vector of checked states alone. *)
Definition Abs (A : Type) : Type := list bool -> Result A * list bool.

Definition ret {A} (a : A) : Abs A := fun st => (Ok a, st).

Definition lift {A} (r : Result A) : Abs A := fun st => (r, st).

Definition bind {A B} (c : Abs A) (k : A -> Abs B) : Abs B :=
  fun st =>
    match c st with
    | (Ok a, st') => k a st'
    | (Err e, st') => (Err e, st')
    end.

(** A 1-based index that names a checkbox of the vector. *)
Definition inRange (index : nat) (st : list bool) : bool :=
  Nat.leb 1 index && Nat.leb index (length st).

(** Set entry [index]; no such entry is a timeout. *)
Definition setAt (v : bool) (index : nat) : Abs unit :=
  fun st =>
    if inRange index st then (Ok tt, <[index - 1 := v]> st)
    else (Err TimeoutError, st).

(** Flip entry [index]. *)
Definition toggleAt (index : nat) : Abs unit :=
  fun st =>
    if inRange index st
    then (Ok tt, <[index - 1 := negb (default false (st !! (index - 1)))]> st)
    else (Err TimeoutError, st).

(** Compare entry [index] with the expected state. *)
Definition validateAt (index : nat) (expected : bool) : Abs unit :=
  fun st =>
    (if inRange index st
     then if Bool.eqb (default false (st !! (index - 1))) expected
          then Ok tt else Err AssertionError
     else Err TimeoutError,
     st).

Definition readAll : Abs (list bool) := fun st => (Ok st, st).

Definition setEvery (v : bool) : Abs unit :=
  fun st => (Ok tt, repeat v (length st)).

(** [c], run on the checkboxes page built from a vector, returns what [a]
    returns on that vector and leaves the checkboxes page built from the
    vector [a] leaves. *)
Definition simulates {A} (c : Async A) (a : Abs A) : Prop :=
  forall (b : Browser.t) (st : list bool),
    document b = Fixtures.checkboxesDocument st ->
    fst (c b) = fst (a st)
    /\ document (snd (c b)) = Fixtures.checkboxesDocument (snd (a st)).

End VectorModel.

(* ====================================================================== *)
(** * Properties *)
(* ====================================================================== *)

(** ** The page-object manager caches one instance per kind *)

Section PomManagerFacts.
Import PomManager.

Implicit Types (h : Heap) (this r : Ref) (k : Kind) (o : Object).

Lemma kindOf_construct k page c :
  kindOf {| instance := construct k page; cache := c |} = Some k.
Proof. destruct k; reflexivity. Qed.

Lemma kindOf_instance o o' : instance o' = instance o -> kindOf o' = kindOf o.
Proof. unfold kindOf. intros ->. reflexivity. Qed.

Lemma page_instance o o' : instance o' = instance o -> page o' = page o.
Proof. unfold page. intros ->. reflexivity. Qed.

(** A getter on a cached field is a pure read. *)
Lemma get_hit k this h r :
  cached k this h = Some r -> get k this h = (Some r, h).
Proof.
  unfold cached. destruct (h !! this) as [o|] eqn:E; [|discriminate].
  intros F. destruct k; simpl in *;
    [unfold getLoginPage|unfold getSecurePage|unfold getCheckboxesPage];
    rewrite E, F; reflexivity.
Qed.

(** A getter on an empty field allocates at the next address and stores
    that address in the field of its receiver, whatever the receiver is. *)
Lemma get_miss k this h o :
  h !! this = Some o -> field k (cache o) = None ->
  exists o',
    get k this h
    = (Some (length h),
       <[this := o']> (h ++ [{| instance := construct k (page o);
                                cache := emptyCache |}]))
    /\ instance o' = instance o
    /\ field k (cache o') = Some (length h)
    /\ (forall k', k' <> k -> field k' (cache o') = field k' (cache o)).
Proof.
  intros E F.
  destruct k; simpl in F;
    [unfold get, getLoginPage|unfold get, getSecurePage
     |unfold get, getCheckboxesPage];
    rewrite E, F; simpl; eexists; (split; [reflexivity|]);
    (split; [reflexivity|]); (split; [reflexivity|]);
    intros [] Hne; try reflexivity; congruence.
Qed.

Lemma get_no_object k this h :
  h !! this = None -> get k this h = (None, h).
Proof.
  intros N.
  destruct k; simpl;
    [unfold getLoginPage|unfold getSecurePage|unfold getCheckboxesPage];
    rewrite N; reflexivity.
Qed.

(** The three possible outcomes of one getter call. *)
Lemma get_cases k this h :
  (get k this h = (None, h) /\ h !! this = None)
  \/ (exists r, cached k this h = Some r /\ get k this h = (Some r, h))
  \/ (exists o o',
        h !! this = Some o /\ field k (cache o) = None
        /\ get k this h
           = (Some (length h),
              <[this := o']> (h ++ [{| instance := construct k (page o);
                                       cache := emptyCache |}]))
        /\ instance o' = instance o
        /\ field k (cache o') = Some (length h)
        /\ (forall k', k' <> k -> field k' (cache o') = field k' (cache o))).
Proof.
  destruct (h !! this) as [o|] eqn:E.
  - destruct (field k (cache o)) as [r|] eqn:F.
    + right; left. exists r.
      assert (C : cached k this h = Some r) by (unfold cached; rewrite E; exact F).
      split; [exact C|apply get_hit, C].
    + right; right.
      destruct (get_miss k this h o E F) as (o' & G & P & F' & O).
      exists o, o'. repeat split; assumption.
  - left; split; [apply get_no_object, E|reflexivity].
Qed.

(** A getter called on an object returns a reference. *)
Lemma get_returns k this h o :
  h !! this = Some o -> exists r, fst (get k this h) = Some r.
Proof.
  intros E.
  destruct (get_cases k this h)
    as [[_ N]|[(r & _ & G)|(o1 & o' & _ & _ & G & _)]].
  - congruence.
  - exists r. rewrite G. reflexivity.
  - exists (length h). rewrite G. reflexivity.
Qed.

(** One getter call, on any receiver, keeps every set cache field. *)
Lemma get_keeps_cached k' this' h k this r :
  cached k this h = Some r ->
  cached k this (snd (get k' this' h)) = Some r.
Proof.
  intros C.
  destruct (get_cases k' this' h)
    as [[G _]|[(r' & _ & G)|(o & o' & E & F & G & P & F' & O)]];
    rewrite G; cbn [snd]; try exact C.
  unfold cached in *.
  assert (L : this' < length h) by (eapply lookup_lt_Some; exact E).
  destruct (decide (this' = this)) as [->|Hne].
  - rewrite list_lookup_insert_eq by (rewrite length_app; simpl; lia).
    rewrite E in C.
    destruct (decide (k = k')) as [->|Hk]; [congruence|].
    rewrite (O k Hk). exact C.
  - rewrite list_lookup_insert_ne by exact Hne.
    destruct (h !! this) as [o2|] eqn:E2; [|discriminate].
    rewrite (lookup_app_l_Some _ _ _ _ E2). exact C.
Qed.

(** One getter call, on any receiver, leaves every object where it is and
    what it was constructed as; an object that is not the receiver it
    leaves as it is. *)
Lemma get_keeps_instance k' this' h r o :
  h !! r = Some o ->
  exists o1, snd (get k' this' h) !! r = Some o1 /\ instance o1 = instance o.
Proof.
  intros E.
  destruct (get_cases k' this' h)
    as [[G _]|[(r' & _ & G)|(o0 & o' & E' & F & G & P & F' & O)]];
    rewrite G; cbn [snd]; try (exists o; split; [exact E|reflexivity]).
  assert (L : this' < length h) by (eapply lookup_lt_Some; exact E').
  destruct (decide (this' = r)) as [->|Hne].
  - exists o'. rewrite list_lookup_insert_eq by (rewrite length_app; simpl; lia).
    split; [reflexivity|]. rewrite E in E'. inversion E'; subst. exact P.
  - exists o. rewrite list_lookup_insert_ne by exact Hne.
    split; [apply lookup_app_l_Some, E|reflexivity].
Qed.

Lemma get_keeps_object k' this' h r o :
  this' <> r -> h !! r = Some o -> snd (get k' this' h) !! r = Some o.
Proof.
  intros Hne E.
  destruct (get_cases k' this' h)
    as [[G _]|[(r' & _ & G)|(o0 & o' & E' & F & G & P & F' & O)]];
    rewrite G; cbn [snd]; try exact E.
  rewrite list_lookup_insert_ne by exact Hne.
  apply lookup_app_l_Some, E.
Qed.

Lemma run_keeps_cached ops h k this r :
  cached k this h = Some r -> cached k this (run ops h) = Some r.
Proof.
  revert h. induction ops as [|[k' this'] ops IH]; intros h C; simpl.
  - exact C.
  - apply IH, get_keeps_cached, C.
Qed.

Lemma run_keeps_instance ops h r o :
  h !! r = Some o ->
  exists o1, run ops h !! r = Some o1 /\ instance o1 = instance o.
Proof.
  revert h o. induction ops as [|[k' this'] ops IH]; intros h o E; simpl.
  - exists o. split; [exact E|reflexivity].
  - destruct (get_keeps_instance k' this' h r o E) as (o1 & E1 & I1).
    destruct (IH _ o1 E1) as (o2 & E2 & I2).
    exists o2. split; [exact E2|congruence].
Qed.

Lemma run_keeps_object ops h r o :
  Forall (fun op => snd op <> r) ops ->
  h !! r = Some o -> run ops h !! r = Some o.
Proof.
  revert h. induction ops as [|[k' this'] ops IH]; intros h F E; simpl.
  - exact E.
  - inversion F as [|? ? Hne F']; subst. apply IH; [exact F'|].
    apply get_keeps_object; [exact Hne|exact E].
Qed.

(** Well-formedness is an invariant of the getters. *)
Lemma get_wellFormed k this h :
  wellFormed h -> wellFormed (snd (get k this h)).
Proof.
  intros W.
  destruct (get_cases k this h)
    as [[G _]|[(r' & _ & G)|(o0 & o' & E & F & G & P & F' & O)]];
    rewrite G; cbn [snd]; try exact W.
  assert (L : this < length h) by (eapply lookup_lt_Some; exact E).
  pose proof (get_keeps_instance k this h) as Keep. rewrite G in Keep.
  cbn [snd] in Keep.
  intros x kx rx C. unfold cached in C.
  assert (Old : forall x' kx' rx', cached kx' x' h = Some rx' ->
                  exists o, (<[this := o']>
                               (h ++ [{| instance := construct k (page o0);
                                         cache := emptyCache |}])) !! rx' = Some o
                            /\ kindOf o = Some kx').
  { intros x' kx' rx' C'. destruct (W x' kx' rx' C') as (o & Eo & Ko).
    destruct (Keep rx' o Eo) as (o1 & E1 & I1).
    exists o1. split; [exact E1|]. rewrite (kindOf_instance _ _ I1). exact Ko. }
  destruct (decide (this = x)) as [<-|Hne].
  - rewrite list_lookup_insert_eq in C by (rewrite length_app; simpl; lia).
    destruct (decide (kx = k)) as [->|Hk].
    + rewrite F' in C. inversion C; subst rx.
      eexists. split; [|apply kindOf_construct].
      rewrite list_lookup_insert_ne by lia.
      rewrite lookup_app_r by lia. rewrite Nat.sub_diag. reflexivity.
    + rewrite (O kx Hk) in C. apply (Old this kx rx).
      unfold cached. rewrite E. exact C.
  - rewrite list_lookup_insert_ne in C by exact Hne.
    destruct (decide (x < length h)) as [Lx|Lx].
    + rewrite lookup_app_l in C by exact Lx. apply (Old x kx rx). exact C.
    + rewrite lookup_app_r in C by lia.
      destruct (x - length h) as [|n] eqn:D; simpl in C.
      * destruct kx; discriminate.
      * discriminate.
Qed.

Lemma constructor_wellFormed page h :
  wellFormed h -> wellFormed (snd (constructor page h)).
Proof.
  intros W x kx rx C. unfold constructor, new in *. simpl in *.
  unfold cached in C.
  destruct (decide (x < length h)) as [Lx|Lx].
  - rewrite lookup_app_l in C by exact Lx.
    destruct (W x kx rx C) as (o & Eo & Ko).
    exists o. split; [apply lookup_app_l_Some, Eo|exact Ko].
  - rewrite lookup_app_r in C by lia.
    destruct (x - length h) as [|n]; simpl in C.
    + destruct kx; discriminate.
    + discriminate.
Qed.

End PomManagerFacts.

Lemma wellFormed_nil : PomManager.wellFormed [].
Proof. intros this k r C. unfold PomManager.cached in C. destruct this; discriminate. Qed.

(** C1.  A getter called on a manager, and on any other object of the
    heap, returns a reference, and for every object the same getter
    returns the reference-identical page object however often it is
    called.  A call that finds the field empty constructs the page object
    of its kind from the receiver's page handle at a fresh address and
    stores that address; a call that finds the field set returns the stored
    address and changes nothing.  After any further sequence of getter
    calls, on this or on any other receiver, the field still holds the same
    address, the getter still returns it without changing anything, and the
    object at that address is the object constructed there: what it was
    constructed as never changes, and the object as a whole is unchanged
    as long as no getter is called on it. *)
Theorem pom_manager_getter_returns_cached_instance :
  forall (h : PomManager.Heap) (k : PomManager.Kind)
         (this : PomManager.Ref) (receiver : PomManager.Object),
    PomManager.wellFormed h ->
    h !! this = Some receiver ->
    exists (r : PomManager.Ref) (h1 : PomManager.Heap),
      PomManager.get k this h = (Some r, h1)
      /\ (PomManager.cached k this h1 = Some r
          /\ exists o, h1 !! r = Some o /\ PomManager.kindOf o = Some k)
      /\ (PomManager.cached k this h = None ->
          r = length h /\ h !! r = None /\ length h1 = S (length h)
          /\ h1 !! r
             = Some {| PomManager.instance :=
                         PomManager.construct k (PomManager.page receiver);
                       PomManager.cache := PomManager.emptyCache |})
      /\ (forall r0, PomManager.cached k this h = Some r0 -> r0 = r /\ h1 = h)
      /\ (forall ops : list (PomManager.Kind * PomManager.Ref),
            PomManager.cached k this (PomManager.run ops h1) = Some r
            /\ PomManager.get k this (PomManager.run ops h1)
               = (Some r, PomManager.run ops h1)
            /\ PomManager.instance <$> PomManager.run ops h1 !! r
               = PomManager.instance <$> h1 !! r
            /\ (Forall (fun op => snd op <> r) ops ->
                PomManager.run ops h1 !! r = h1 !! r)).
Proof.
  intros h k this receiver W E.
  destruct (PomManager.get k this h) as [res h1] eqn:G.
  destruct (get_returns k this h receiver E) as [r Gr].
  rewrite G in Gr. cbn [fst] in Gr. subst res. exists r, h1.
  split; [reflexivity|].
  assert (W1 : PomManager.wellFormed h1).
  { pose proof (get_wellFormed k this h W) as W1. rewrite G in W1. exact W1. }
  assert (C1 : PomManager.cached k this h1 = Some r).
  { destruct (get_cases k this h)
      as [[G' _]|[(r' & C & G')|(o & o' & E' & F & G' & P & F' & O)]];
      rewrite G' in G; inversion G; subst.
    - exact C.
    - unfold PomManager.cached.
      rewrite list_lookup_insert_eq; [exact F'|].
      rewrite length_app. apply lookup_lt_Some in E'. simpl. lia. }
  destruct (W1 this k r C1) as (o & Eo & Ko).
  split; [split; [exact C1|exists o; split; assumption]|].
  split.
  { intros N.
    destruct (get_cases k this h)
      as [[G' _]|[(r' & C & G')|(o0 & o' & E' & F & G' & P & F' & O)]];
      rewrite G' in G; inversion G; subst.
    - congruence.
    - assert (L : this < length h) by (eapply lookup_lt_Some; exact E').
      split; [reflexivity|]. split; [apply lookup_ge_None_2; lia|].
      split; [rewrite length_insert, length_app; simpl; lia|].
      rewrite list_lookup_insert_ne by lia.
      rewrite lookup_app_r by lia. rewrite Nat.sub_diag.
      rewrite E in E'. inversion E'; subst. reflexivity. }
  split.
  { intros r0 C0. rewrite (get_hit k this h r0 C0) in G.
    inversion G; subst. split; reflexivity. }
  intros ops.
  pose proof (run_keeps_cached ops h1 k this r C1) as C2.
  split; [exact C2|]. split; [apply get_hit, C2|].
  split.
  - destruct (run_keeps_instance ops h1 r o Eo) as (o1 & E1 & I1).
    rewrite E1, Eo. cbn. rewrite I1. reflexivity.
  - intros F. rewrite Eo. apply run_keeps_object; assumption.
Qed.

Lemma pom_manager_getter_returns_cached_instance_witness :
  let h := snd (PomManager.constructor 7 []) in
  (exists h1, PomManager.get PomManager.Login 0 h = (Some 1, h1)
              /\ PomManager.get PomManager.Login 0 h1 = (Some 1, h1)
              /\ PomManager.get PomManager.Secure 0 h1
                 = (Some 2, snd (PomManager.get PomManager.Secure 0 h1)))
  /\ (exists h1, PomManager.get PomManager.Secure 0 h = (Some 1, h1)
                 /\ h1 !! 1
                    = Some {| PomManager.instance :=
                                PomManager.SecurePageInstance
                                  (SecurePage.constructor 7);
                              PomManager.cache := PomManager.emptyCache |})
  /\ (exists h1, PomManager.get PomManager.Checkboxes 0 h = (Some 1, h1)
                 /\ forall ops,
                      PomManager.get PomManager.Checkboxes 0
                                     (PomManager.run ops h1)
                      = (Some 1, PomManager.run ops h1)).
Proof.
  intros h.
  assert (W : PomManager.wellFormed h)
    by (apply constructor_wellFormed, wellFormed_nil).
  destruct (pom_manager_getter_returns_cached_instance
              h PomManager.Login 0 _ W eq_refl)
    as (r & h1 & G & _ & Fresh & _ & Later).
  destruct (pom_manager_getter_returns_cached_instance
              h PomManager.Secure 0 _ W eq_refl)
    as (r2 & h2 & G2 & _ & Fresh2 & _).
  destruct (pom_manager_getter_returns_cached_instance
              h PomManager.Checkboxes 0 _ W eq_refl)
    as (r3 & h3 & G3 & _ & Fresh3 & _ & Later3).
  destruct (Fresh eq_refl) as (-> & _).
  destruct (Fresh2 eq_refl) as (-> & _ & _ & Built2).
  destruct (Fresh3 eq_refl) as (-> & _).
  split; [|split].
  - exists h1. split; [exact G|]. split.
    + exact (proj1 (proj2 (Later []))).
    + inversion G; subst h1. reflexivity.
  - exists h2. split; [exact G2|exact Built2].
  - exists h3. split; [exact G3|]. intros ops.
    exact (proj1 (proj2 (Later3 ops))).
Defined.

(** ** Selector matching ignores form state *)

Section QueryFacts.
Import Playwright.

Implicit Types (d : Dom.Document) (k : nat).

Lemma skeleton_lookup d d' k :
  map Dom.skeleton d' = map Dom.skeleton d ->
  Dom.skeleton <$> d' !! k = Dom.skeleton <$> d !! k.
Proof.
  intros H. rewrite <- !list_lookup_fmap.
  change (map Dom.skeleton d' !! k = map Dom.skeleton d !! k).
  rewrite H. reflexivity.
Qed.

Lemma skeleton_length d d' :
  map Dom.skeleton d' = map Dom.skeleton d -> length d' = length d.
Proof.
  intros H. rewrite <- (length_map Dom.skeleton d'), H. apply length_map.
Qed.

Lemma skeleton_fields (e e' : Dom.Element) :
  Dom.skeleton e' = Dom.skeleton e ->
  Dom.tag e' = Dom.tag e /\ Dom.attrs e' = Dom.attrs e
  /\ Dom.parent e' = Dom.parent e.
Proof. unfold Dom.skeleton. intros H. inversion H. auto. Qed.

Lemma sameTypeSibling_skeleton d d' k j :
  map Dom.skeleton d' = map Dom.skeleton d ->
  Dom.sameTypeSibling d' k j = Dom.sameTypeSibling d k j.
Proof.
  intros H. unfold Dom.sameTypeSibling.
  pose proof (skeleton_lookup d d' k H) as Hk.
  pose proof (skeleton_lookup d d' j H) as Hj.
  destruct (d' !! k) as [ek'|], (d !! k) as [ek|]; simpl in Hk;
    try discriminate; try reflexivity.
  destruct (d' !! j) as [ej'|], (d !! j) as [ej|]; simpl in Hj;
    try discriminate; try reflexivity.
  apply (inj Some) in Hk as Hk'. apply (inj Some) in Hj as Hj'.
  destruct (skeleton_fields _ _ Hk') as (-> & _ & ->).
  destruct (skeleton_fields _ _ Hj') as (-> & _ & ->).
  reflexivity.
Qed.

Lemma typePosition_skeleton d d' k :
  map Dom.skeleton d' = map Dom.skeleton d ->
  Dom.typePosition d' k = Dom.typePosition d k.
Proof.
  intros H. unfold Dom.typePosition. f_equal. f_equal.
  apply List.filter_ext. intros j. apply sameTypeSibling_skeleton, H.
Qed.

Lemma holds_skeleton d d' c k :
  map Dom.skeleton d' = map Dom.skeleton d ->
  Dom.holds d' c k = Dom.holds d c k.
Proof.
  intros H. unfold Dom.holds.
  pose proof (skeleton_lookup d d' k H) as Hk.
  rewrite (typePosition_skeleton d d' k H).
  destruct (d' !! k) as [e'|], (d !! k) as [e|]; simpl in Hk;
    try discriminate; try reflexivity.
  apply (inj Some) in Hk as Hk'.
  destruct (skeleton_fields _ _ Hk') as (Ht & Ha & _).
  unfold Dom.getAttribute. rewrite Ht, Ha. reflexivity.
Qed.

Lemma ancestors_skeleton d d' fuel k :
  map Dom.skeleton d' = map Dom.skeleton d ->
  Dom.ancestors fuel d' k = Dom.ancestors fuel d k.
Proof.
  intros H. revert k. induction fuel as [|f IH]; intros k; simpl; [reflexivity|].
  pose proof (skeleton_lookup d d' k H) as Hk.
  destruct (d' !! k) as [e'|], (d !! k) as [e|]; simpl in Hk;
    try discriminate; try reflexivity.
  apply (inj Some) in Hk as Hk'.
  destruct (skeleton_fields _ _ Hk') as (_ & _ & ->).
  destruct (Dom.parent e); [rewrite IH|]; reflexivity.
Qed.

Lemma querySelectorAll_skeleton d d' sel :
  map Dom.skeleton d' = map Dom.skeleton d ->
  Dom.querySelectorAll d' sel = Dom.querySelectorAll d sel.
Proof.
  intros H. unfold Dom.querySelectorAll.
  destruct (Dom.parse sel); [|reflexivity].
  rewrite (skeleton_length d d' H).
  apply List.filter_ext. intros k. apply holds_skeleton, H.
Qed.

(** A document with the same skeleton answers every locator alike. *)
Lemma query_skeleton d d' l :
  map Dom.skeleton d' = map Dom.skeleton d -> query d' l = query d l.
Proof.
  intros H. induction l as [p sel|scope IH sel|l IH n]; simpl.
  - apply querySelectorAll_skeleton, H.
  - unfold Dom.querySelectorAllWithin.
    rewrite IH, (querySelectorAll_skeleton d d' sel H).
    apply List.filter_ext. intros k. unfold Dom.isDescendantOfAny.
    rewrite (skeleton_length d d' H), (ancestors_skeleton d d' _ k H).
    reflexivity.
  - rewrite IH. reflexivity.
Qed.

Lemma skeleton_alter_setChecked d k v :
  map Dom.skeleton (alter (Dom.setChecked v) k d) = map Dom.skeleton d.
Proof.
  apply list_eq. intros j.
  change (map Dom.skeleton ?x) with (Dom.skeleton <$> x).
  rewrite !list_lookup_fmap.
  destruct (decide (k = j)) as [->|Hne].
  - rewrite list_lookup_alter_eq. destruct (d !! j); reflexivity.
  - rewrite list_lookup_alter_ne by exact Hne. reflexivity.
Qed.

Lemma query_alter_setChecked d k v l :
  query (alter (Dom.setChecked v) k d) l = query d l.
Proof. apply query_skeleton, skeleton_alter_setChecked. Qed.

(** Every match of a whole-document query is an element of the
    document. *)
Lemma querySelectorAll_bound d sel k :
  In k (Dom.querySelectorAll d sel) -> k < length d.
Proof.
  unfold Dom.querySelectorAll. destruct (Dom.parse sel); [|intros []].
  intros H. apply List.filter_In in H. destruct H as [H _].
  apply in_seq in H. lia.
Qed.

Lemma querySelectorAll_NoDup d sel : List.NoDup (Dom.querySelectorAll d sel).
Proof.
  unfold Dom.querySelectorAll. destruct (Dom.parse sel); [|constructor].
  apply List.NoDup_filter, List.seq_NoDup.
Qed.

Lemma query_bound d l k : In k (query d l) -> k < length d.
Proof.
  revert k. induction l as [p sel|scope IH sel|l IH n]; intros k; simpl.
  - apply querySelectorAll_bound.
  - unfold Dom.querySelectorAllWithin. intros H.
    apply List.filter_In in H. destruct H as [H _].
    eapply querySelectorAll_bound, H.
  - destruct (query d l !! n) as [k'|] eqn:E; [|intros []].
    intros [<-|[]]. apply IH.
    apply list_elem_of_In. eapply list_elem_of_lookup_2, E.
Qed.

(** The matches of a locator are pairwise distinct elements. *)
Lemma query_NoDup d l : List.NoDup (query d l).
Proof.
  induction l as [p sel|scope IH sel|l IH n]; simpl.
  - apply querySelectorAll_NoDup.
  - apply List.NoDup_filter, querySelectorAll_NoDup.
  - destruct (query d l !! n); repeat constructor. intros [].
Qed.

End QueryFacts.

(** ** What each primitive returns, changes and logs *)

Section PrimitiveFacts.
Import Playwright ActionTypes Browser.

Implicit Types (b : Browser.t) (l : Locator).

Lemma logged_logged b new more : logged (logged b new) more = logged b (new ++ more).
Proof. unfold logged. simpl. rewrite <- app_assoc. reflexivity. Qed.

Lemma moved_logged b d new more :
  moved (logged b new) d more = moved b d (new ++ more).
Proof. unfold moved, logged. simpl. rewrite <- app_assoc. reflexivity. Qed.

Lemma logged_nil b : logged b [] = b.
Proof. destruct b. unfold logged. simpl. rewrite app_nil_r. reflexivity. Qed.

Lemma waitFor_visible_run l timeout b :
  LocatorApi.waitFor l Visible timeout b
  = (match resolve (document b) l with
     | Ok k => if isVisibleAt (document b) k then Ok tt else Err TimeoutError
     | Err e => Err e
     end,
     logged b [Prim (P_waitFor l Visible timeout)]).
Proof.
  unfold LocatorApi.waitFor, bind, emit, getDocument, lift, ret, throw, logged.
  simpl. destruct (resolve (document b) l) as [k|e]; [|reflexivity].
  destruct (isVisibleAt (document b) k); reflexivity.
Qed.

Lemma waitFor_attached_run l timeout b :
  LocatorApi.waitFor l Attached timeout b
  = (match resolve (document b) l with
     | Ok k => Ok tt
     | Err e => Err e
     end,
     logged b [Prim (P_waitFor l Attached timeout)]).
Proof.
  unfold LocatorApi.waitFor, bind, emit, getDocument, lift, ret, throw, logged.
  simpl. destruct (resolve (document b) l) as [k|e]; reflexivity.
Qed.

Lemma click_run l force timeout b :
  LocatorApi.click l force timeout b
  = match resolve (document b) l with
    | Ok k =>
        if force || isVisibleAt (document b) k
        then (Ok tt, moved b (onClick b (document b) k)
                           [Prim (P_click l force timeout)])
        else (Err TimeoutError, logged b [Prim (P_click l force timeout)])
    | Err e => (Err e, logged b [Prim (P_click l force timeout)])
    end.
Proof.
  unfold LocatorApi.click, bind, emit, getDocument, getOnClick, setDocument,
    lift, ret, throw, logged, moved.
  simpl. destruct (resolve (document b) l) as [k|e]; [|reflexivity].
  destruct (force || isVisibleAt (document b) k); reflexivity.
Qed.

Lemma fill_run l text timeout b :
  LocatorApi.fill l text timeout b
  = match resolve (document b) l with
    | Ok k =>
        if isVisibleAt (document b) k
        then (Ok tt, moved b (alter (Dom.setValue text) k (document b))
                           [Prim (P_fill l text timeout)])
        else (Err TimeoutError, logged b [Prim (P_fill l text timeout)])
    | Err e => (Err e, logged b [Prim (P_fill l text timeout)])
    end.
Proof.
  unfold LocatorApi.fill, bind, emit, getDocument, setDocument,
    lift, ret, throw, logged, moved.
  simpl. destruct (resolve (document b) l) as [k|e]; [|reflexivity].
  destruct (isVisibleAt (document b) k); reflexivity.
Qed.

Lemma setChecked_run l state b :
  LocatorApi.setChecked l state b
  = match resolve (document b) l with
    | Ok k =>
        if Bool.eqb (isCheckedAt (document b) k) state then (Ok tt, b)
        else if isVisibleAt (document b) k
             then (Ok tt, moved b (alter (Dom.setChecked state) k (document b)) [])
             else (Err TimeoutError, b)
    | Err e => (Err e, b)
    end.
Proof.
  unfold LocatorApi.setChecked, bind, getDocument, setDocument,
    lift, ret, throw, moved.
  destruct (resolve (document b) l) as [k|e]; [|reflexivity].
  destruct (Bool.eqb (isCheckedAt (document b) k) state); [reflexivity|].
  destruct (isVisibleAt (document b) k); [|reflexivity].
  rewrite app_nil_r. reflexivity.
Qed.

Lemma check_run l timeout b :
  LocatorApi.check l timeout b
  = LocatorApi.setChecked l true (logged b [Prim (P_check l timeout)]).
Proof. reflexivity. Qed.

Lemma uncheck_run l timeout b :
  LocatorApi.uncheck l timeout b
  = LocatorApi.setChecked l false (logged b [Prim (P_uncheck l timeout)]).
Proof. reflexivity. Qed.

Lemma isChecked_run l b :
  LocatorApi.isChecked l b
  = (match resolve (document b) l with
     | Ok k => Ok (isCheckedAt (document b) k)
     | Err e => Err e
     end,
     logged b [Prim (P_isChecked l)]).
Proof.
  unfold LocatorApi.isChecked, bind, emit, getDocument, lift, ret, logged.
  simpl. destruct (resolve (document b) l) as [k|e]; reflexivity.
Qed.

Lemma textContent_run l timeout b :
  LocatorApi.textContent l timeout b
  = (match resolve (document b) l with
     | Ok k => Ok (match document b !! k with
                   | Some e => Dom.textContent e
                   | None => Js.Null
                   end)
     | Err e => Err e
     end,
     logged b [Prim (P_textContent l timeout)]).
Proof.
  unfold LocatorApi.textContent, bind, emit, getDocument, lift, ret, logged.
  simpl. destruct (resolve (document b) l) as [k|e]; reflexivity.
Qed.

Lemma all_run l b :
  LocatorApi.all l b
  = (Ok (map (locator_nth l) (seq 0 (length (query (document b) l)))),
     logged b [Prim (P_all l)]).
Proof. reflexivity. Qed.

Lemma actionsOf_app (x y : list Event) : actionsOf (x ++ y) = actionsOf x ++ actionsOf y.
Proof.
  induction x as [|[a|p] x IH]; simpl; [reflexivity| |]; rewrite IH; reflexivity.
Qed.

Lemma primsOf_app (x y : list Event) : primsOf (x ++ y) = primsOf x ++ primsOf y.
Proof.
  induction x as [|[a|p] x IH]; simpl; [reflexivity| |]; rewrite IH; reflexivity.
Qed.

End PrimitiveFacts.

(** ** The action wrapper *)

Section CommonActionsFacts.
Import Playwright ActionTypes Browser.

Implicit Types (this : CommonActions.t) (target : SelectorOrLocator)
         (b : Browser.t).

Lemma CommonActions_click_run this target options b :
  let timeout := default 10000%Z (click_timeout options) in
  let force := default false (click_force options) in
  let locator := CommonActions._getLocator this target in
  let entered := Action (A_click target options) in
  let waited := Prim (P_waitFor locator Visible timeout) in
  let clicked := Prim (P_click locator force timeout) in
  CommonActions.click this target options b
  = match resolve (document b) locator with
    | Ok k =>
        if isVisibleAt (document b) k
        then (Ok tt, moved b (onClick b (document b) k) [entered; waited; clicked])
        else (Err TimeoutError, logged b [entered; waited])
    | Err e => (Err e, logged b [entered; waited])
    end.
Proof.
  intros timeout force locator entered waited clicked.
  unfold CommonActions.click.
  unfold bind at 1. unfold emit at 1. fold (logged b [entered]).
  fold timeout force locator.
  unfold bind. rewrite waitFor_visible_run. cbn [document logged].
  destruct (resolve (document b) locator) as [k|e] eqn:R.
  - destruct (isVisibleAt (document b) k) eqn:V.
    + rewrite click_run. cbn [document logged]. rewrite R, V, orb_true_r.
      unfold moved, logged, waited, clicked, entered. simpl.
      rewrite <- !app_assoc. reflexivity.
    + unfold logged. simpl. rewrite <- app_assoc. reflexivity.
  - unfold logged. simpl. rewrite <- app_assoc. reflexivity.
Qed.

Lemma CommonActions_fill_run this target text options b :
  let timeout := default 10000%Z (fill_timeout options) in
  let locator := CommonActions._getLocator this target in
  let entered := Action (A_fill target text options) in
  let filled := Prim (P_fill locator text timeout) in
  CommonActions.fill this target text options b
  = match resolve (document b) locator with
    | Ok k =>
        if isVisibleAt (document b) k
        then (Ok tt, moved b (alter (Dom.setValue text) k (document b))
                           [entered; filled])
        else (Err TimeoutError, logged b [entered; filled])
    | Err e => (Err e, logged b [entered; filled])
    end.
Proof.
  intros timeout locator entered filled.
  unfold CommonActions.fill.
  unfold bind at 1. unfold emit at 1. fold (logged b [entered]).
  fold timeout locator. rewrite fill_run. cbn [document logged].
  destruct (resolve (document b) locator) as [k|e] eqn:R.
  - destruct (isVisibleAt (document b) k);
      unfold moved, logged; simpl; rewrite <- app_assoc; reflexivity.
  - unfold logged. simpl. rewrite <- app_assoc. reflexivity.
Qed.

Lemma CommonActions_check_run this target options b :
  let timeout := default 10000%Z (check_timeout options) in
  let locator := CommonActions._getLocator this target in
  CommonActions.check this target options b
  = LocatorApi.setChecked locator true
      (logged b [Action (A_check target options);
                 Prim (P_check locator (Some timeout))]).
Proof.
  intros timeout locator. unfold CommonActions.check.
  unfold bind at 1. unfold emit at 1. fold timeout locator.
  rewrite check_run. unfold logged. simpl. rewrite <- app_assoc. reflexivity.
Qed.

Lemma CommonActions_uncheck_run this target b :
  let locator := CommonActions._getLocator this target in
  CommonActions.uncheck this target b
  = LocatorApi.setChecked locator false
      (logged b [Action (A_uncheck target); Prim (P_uncheck locator None)]).
Proof.
  intros locator. unfold CommonActions.uncheck.
  unfold bind at 1. unfold emit at 1. fold locator.
  rewrite uncheck_run. unfold logged. simpl. rewrite <- app_assoc. reflexivity.
Qed.

Lemma CommonActions_isChecked_run this target options b :
  let timeout := default 10000%Z (check_timeout options) in
  let locator := CommonActions._getLocator this target in
  let entered := Action (A_isChecked target options) in
  let waited := Prim (P_waitFor locator Attached timeout) in
  CommonActions.isChecked this target options b
  = match resolve (document b) locator with
    | Ok k => (Ok (isCheckedAt (document b) k),
               logged b [entered; waited; Prim (P_isChecked locator)])
    | Err e => (Err e, logged b [entered; waited])
    end.
Proof.
  intros timeout locator entered waited. unfold CommonActions.isChecked.
  unfold bind at 1. unfold emit at 1. fold (logged b [entered]).
  fold timeout locator.
  unfold bind. rewrite waitFor_attached_run. cbn [document logged].
  destruct (resolve (document b) locator) as [k|e] eqn:R.
  - rewrite isChecked_run. cbn [document logged]. rewrite R.
    unfold logged. simpl. rewrite <- !app_assoc. reflexivity.
  - unfold logged. simpl. rewrite <- app_assoc. reflexivity.
Qed.

Lemma CommonActions_getText_run this target options b :
  let timeout := default 10000%Z (text_timeout options) in
  let trim := default true (text_trim options) in
  let locator := CommonActions._getLocator this target in
  let entered := Action (A_getText target options) in
  let waited := Prim (P_waitFor locator Visible timeout) in
  let read := Prim (P_textContent locator timeout) in
  CommonActions.getText this target options b
  = match resolve (document b) locator with
    | Ok k =>
        if isVisibleAt (document b) k
        then (Ok (match document b !! k with
                  | Some e =>
                      match Dom.textContent e with
                      | Js.NotNull s => Js.Defined (if trim then Js.trim s else s)
                      | Js.Null => Js.Undefined
                      end
                  | None => Js.Undefined
                  end),
              logged b [entered; waited; read])
        else (Err TimeoutError, logged b [entered; waited])
    | Err e => (Err e, logged b [entered; waited])
    end.
Proof.
  intros timeout trim locator entered waited read.
  unfold CommonActions.getText.
  unfold bind at 1. unfold emit at 1. fold (logged b [entered]).
  fold timeout trim locator.
  unfold bind. rewrite waitFor_visible_run. cbn [document logged].
  destruct (resolve (document b) locator) as [k|e] eqn:R.
  - destruct (isVisibleAt (document b) k) eqn:V.
    + rewrite textContent_run. cbn [document logged]. rewrite R.
      unfold ret, logged. simpl. rewrite <- !app_assoc. simpl.
      f_equal. f_equal.
      destruct (document b !! k) as [e|]; [|destruct trim; reflexivity].
      destruct (Dom.textContent e), trim; reflexivity.
    + unfold logged. simpl. rewrite <- app_assoc. reflexivity.
  - unfold logged. simpl. rewrite <- app_assoc. reflexivity.
Qed.

End CommonActionsFacts.

Section WaitFacts.
Import Playwright ActionTypes Browser.

(** The outcome of waiting for visibility, read off the document. *)
Lemma waitFor_visible_ok l timeout b :
  fst (LocatorApi.waitFor l Visible timeout b) = Ok tt <->
  exists k, resolve (document b) l = Ok k /\ isVisibleAt (document b) k = true.
Proof.
  rewrite waitFor_visible_run. cbn [fst].
  destruct (resolve (document b) l) as [k|e].
  - destruct (isVisibleAt (document b) k) eqn:V; split.
    + intros _. exists k. split; [reflexivity|exact V].
    + reflexivity.
    + discriminate.
    + intros (k' & E & V'). inversion E; subst. congruence.
  - split; [discriminate|]. intros (k' & E & _). discriminate.
Qed.

End WaitFacts.

(** C6.  [click] logs its call, then waits for the resolved locator to be
    visible with the timeout of the options (10000 ms when absent).  When
    the wait fails, [click] fails with the wait's error, and the log shows
    the single wait and no click: nothing is caught or retried.  That error
    is [TimeoutError] when no element matches or the match is not visible.
    When the wait succeeds, [click] is the click primitive called with the
    same timeout and the [force] flag of the options ([false] when
    absent). *)
Theorem click_waits_for_visible_then_clicks :
  forall (this : CommonActions.t) (target : ActionTypes.SelectorOrLocator)
         (options : ActionTypes.ClickOptions) (b : Browser.t),
    let timeout := default 10000%Z (ActionTypes.click_timeout options) in
    let force := default false (ActionTypes.click_force options) in
    let locator := CommonActions._getLocator this target in
    let entered := Browser.Action (Browser.A_click target options) in
    let waited := Browser.Prim (Browser.P_waitFor locator Playwright.Visible timeout) in
    let clicked := Browser.Prim (Browser.P_click locator force timeout) in
    (forall e,
        fst (LocatorApi.waitFor locator Playwright.Visible timeout
               (Browser.logged b [entered])) = Playwright.Err e ->
        CommonActions.click this target options b
        = (Playwright.Err e, Browser.logged b [entered; waited]))
    /\ (Playwright.resolve (Browser.document b) locator
          = Playwright.Err Playwright.TimeoutError
        \/ (exists k, Playwright.resolve (Browser.document b) locator = Playwright.Ok k
                      /\ Playwright.isVisibleAt (Browser.document b) k = false) ->
        CommonActions.click this target options b
        = (Playwright.Err Playwright.TimeoutError,
           Browser.logged b [entered; waited]))
    /\ (fst (LocatorApi.waitFor locator Playwright.Visible timeout
               (Browser.logged b [entered])) = Playwright.Ok tt ->
        CommonActions.click this target options b
        = LocatorApi.click locator force timeout
            (Browser.logged b [entered; waited])
        /\ exists k,
            Playwright.resolve (Browser.document b) locator = Playwright.Ok k
            /\ CommonActions.click this target options b
               = (Playwright.Ok tt,
                  Browser.moved b (Browser.onClick b (Browser.document b) k)
                                [entered; waited; clicked])).
Proof.
  intros this target options b timeout force locator entered waited clicked.
  pose proof (CommonActions_click_run this target options b) as R.
  cbn zeta in R. fold timeout force locator entered waited clicked in R.
  split; [|split].
  - intros e W. rewrite waitFor_visible_run in W. cbn [fst Browser.logged Browser.document] in W.
    rewrite R.
    destruct (Playwright.resolve (Browser.document b) locator) as [k|e'].
    + destruct (Playwright.isVisibleAt (Browser.document b) k); [discriminate|].
      inversion W; subst. reflexivity.
    + inversion W; subst. reflexivity.
  - intros [E|(k & E & V)]; rewrite R, E; [reflexivity|].
    rewrite V. reflexivity.
  - intros W. apply waitFor_visible_ok in W.
    cbn [Browser.logged Browser.document] in W.
    destruct W as (k & E & V).
    split.
    + rewrite R, click_run. cbn [Browser.logged Browser.document Browser.onClick].
      rewrite E, V, orb_true_r.
      unfold Browser.moved, Browser.logged. simpl. rewrite <- app_assoc.
      reflexivity.
    + exists k. split; [exact E|]. rewrite R, E, V. reflexivity.
Qed.

Lemma click_waits_for_visible_then_clicks_witness :
  (fst (LocatorApi.waitFor (LoginPage.loginButton (LoginPage.constructor 0))
          Playwright.Visible 10000%Z
          (Browser.logged (Fixtures.browser Fixtures.loginDocument)
             [Browser.Action
                (Browser.A_click
                   (ActionTypes.Loc (LoginPage.loginButton (LoginPage.constructor 0)))
                   ActionTypes.noClickOptions)]))
   = Playwright.Ok tt)
  /\ fst (CommonActions.click (CommonActions.constructor 0)
            (ActionTypes.Loc (LoginPage.loginButton (LoginPage.constructor 0)))
            ActionTypes.noClickOptions
            (Fixtures.browser Fixtures.loginDocument))
     = Playwright.Ok tt
  /\ fst (CommonActions.click (CommonActions.constructor 0)
            (ActionTypes.Selector "#missing")
            ActionTypes.noClickOptions
            (Fixtures.browser Fixtures.loginDocument))
     = Playwright.Err Playwright.TimeoutError.
Proof.
  split; [vm_compute; reflexivity|]. split.
  - destruct (click_waits_for_visible_then_clicks
                (CommonActions.constructor 0)
                (ActionTypes.Loc (LoginPage.loginButton (LoginPage.constructor 0)))
                ActionTypes.noClickOptions
                (Fixtures.browser Fixtures.loginDocument)) as (_ & _ & H).
    destruct (H ltac:(vm_compute; reflexivity)) as (_ & k & _ & E).
    rewrite E. reflexivity.
  - destruct (click_waits_for_visible_then_clicks
                (CommonActions.constructor 0)
                (ActionTypes.Selector "#missing")
                ActionTypes.noClickOptions
                (Fixtures.browser Fixtures.loginDocument)) as (_ & H & _).
    rewrite H; [reflexivity|]. left. vm_compute. reflexivity.
Defined.

(** C4, as the code has it.  [getText] logs its call, then waits for the
    resolved locator to be visible (timeout of the options, 10000 ms when
    absent); when the wait fails, it fails with the wait's error and reads
    nothing.  When the wait succeeds it reads the text content with the
    same timeout and returns: [undefined], with or without [trim] and
    without raising, exactly when the content read is [null]; the trimmed
    text when [trim] is set or absent; the text as read when [trim] is
    [false].  An element whose text is the empty string yields the empty
    string, not [undefined]. *)
Theorem getText_waits_reads_trims :
  forall (this : CommonActions.t) (target : ActionTypes.SelectorOrLocator)
         (options : ActionTypes.GetTextOptions) (b : Browser.t),
    let timeout := default 10000%Z (ActionTypes.text_timeout options) in
    let trim := default true (ActionTypes.text_trim options) in
    let locator := CommonActions._getLocator this target in
    let entered := Browser.Action (Browser.A_getText target options) in
    let waited := Browser.Prim (Browser.P_waitFor locator Playwright.Visible timeout) in
    let read := Browser.Prim (Browser.P_textContent locator timeout) in
    (forall e,
        fst (LocatorApi.waitFor locator Playwright.Visible timeout
               (Browser.logged b [entered])) = Playwright.Err e ->
        CommonActions.getText this target options b
        = (Playwright.Err e, Browser.logged b [entered; waited]))
    /\ (forall k element,
          Playwright.resolve (Browser.document b) locator = Playwright.Ok k ->
          Playwright.isVisibleAt (Browser.document b) k = true ->
          Browser.document b !! k = Some element ->
          CommonActions.getText this target options b
          = (Playwright.Ok
               match Dom.textContent element with
               | Js.Null => Js.Undefined
               | Js.NotNull s => Js.Defined (if trim then Js.trim s else s)
               end,
             Browser.logged b [entered; waited; read]))
    /\ (forall k element,
          Playwright.resolve (Browser.document b) locator = Playwright.Ok k ->
          Playwright.isVisibleAt (Browser.document b) k = true ->
          Browser.document b !! k = Some element ->
          (fst (CommonActions.getText this target options b)
           = Playwright.Ok Js.Undefined
           <-> Dom.textContent element = Js.Null)
          /\ (Dom.textContent element = Js.NotNull EmptyString ->
              fst (CommonActions.getText this target options b)
              = Playwright.Ok (Js.Defined EmptyString)))
    /\ (fst (CommonActions.getText this target options b)
        = Playwright.Ok Js.Undefined ->
        exists k element,
          Playwright.resolve (Browser.document b) locator = Playwright.Ok k
          /\ Playwright.isVisibleAt (Browser.document b) k = true
          /\ Browser.document b !! k = Some element
          /\ Dom.textContent element = Js.Null).
Proof.
  intros this target options b timeout trim locator entered waited read.
  pose proof (CommonActions_getText_run this target options b) as R.
  cbn zeta in R. fold timeout trim locator entered waited read in R.
  split; [|split; [|split]].
  - intros e W. rewrite waitFor_visible_run in W.
    cbn [fst Browser.logged Browser.document] in W. rewrite R.
    destruct (Playwright.resolve (Browser.document b) locator) as [k|e'].
    + destruct (Playwright.isVisibleAt (Browser.document b) k); [discriminate|].
      inversion W; subst. reflexivity.
    + inversion W; subst. reflexivity.
  - intros k element E V L. rewrite R, E, V, L.
    destruct (Dom.textContent element); reflexivity.
  - intros k element E V L. rewrite R, E, V, L. cbn [fst].
    destruct (Dom.textContent element) as [|s]; split.
    + split; reflexivity.
    + discriminate.
    + split; discriminate.
    + intros H. inversion H; subst s. destruct trim; reflexivity.
  - rewrite R.
    destruct (Playwright.resolve (Browser.document b) locator) as [k|e'] eqn:E;
      [|discriminate].
    destruct (Playwright.isVisibleAt (Browser.document b) k) eqn:V;
      [|discriminate].
    assert (V' := V). unfold Playwright.isVisibleAt in V'.
    destruct (Browser.document b !! k) as [element|] eqn:L; [|discriminate].
    cbn [fst]. intros H. exists k, element.
    split; [reflexivity|]. split; [exact V|]. split; [exact L|].
    destruct (Dom.textContent element); [reflexivity|discriminate].
Qed.

Lemma getText_waits_reads_trims_witness :
  CommonActions.getText (CommonActions.constructor 0)
    (ActionTypes.Selector "#flash") ActionTypes.noGetTextOptions
    (Fixtures.browser (Fixtures.secureDocument true Js.Null))
  = (Playwright.Ok Js.Undefined,
     Browser.logged (Fixtures.browser (Fixtures.secureDocument true Js.Null))
       [Browser.Action
          (Browser.A_getText (ActionTypes.Selector "#flash")
             ActionTypes.noGetTextOptions);
        Browser.Prim
          (Browser.P_waitFor (Playwright.page_locator 0 "#flash")
             Playwright.Visible 10000%Z);
        Browser.Prim
          (Browser.P_textContent (Playwright.page_locator 0 "#flash") 10000%Z)]).
Proof.
  exact (proj1 (proj2 (getText_waits_reads_trims (CommonActions.constructor 0)
                  (ActionTypes.Selector "#flash") ActionTypes.noGetTextOptions
                  (Fixtures.browser (Fixtures.secureDocument true Js.Null))))
               0
               (Dom.mkElement "div" [("id", "flash")] None true Js.Null "" false)
               eq_refl eq_refl eq_refl).
Defined.

(** C4, as stated, fails.  An element without text, [<div id="flash">]
    with nothing in it, has the empty string as its text content, and
    [getText] returns that string, with or without [trim], not
    [undefined]; and when no element matches, [getText] raises the
    timeout of its wait and returns nothing. *)
Lemma getText_of_an_element_without_text_is_not_undefined :
  let element := Fixtures.element "div" [("id", "flash")] None in
  let b := Fixtures.browser [element] in
  let this := CommonActions.constructor 0 in
  let target := ActionTypes.Selector "#flash" in
  let untrimmed := {| ActionTypes.text_timeout := None;
                      ActionTypes.text_trim := Some false |} in
  Dom.textContent element = Js.NotNull EmptyString
  /\ fst (CommonActions.getText this target ActionTypes.noGetTextOptions b)
     = Playwright.Ok (Js.Defined EmptyString)
  /\ fst (CommonActions.getText this target untrimmed b)
     = Playwright.Ok (Js.Defined EmptyString)
  /\ fst (CommonActions.getText this target ActionTypes.noGetTextOptions b)
     <> Playwright.Ok Js.Undefined
  /\ fst (CommonActions.getText this target ActionTypes.noGetTextOptions
            (Fixtures.browser []))
     = Playwright.Err Playwright.TimeoutError.
Proof.
  intros element b this target untrimmed.
  split; [reflexivity|]. split; [reflexivity|]. split; [reflexivity|].
  split; [discriminate|reflexivity].
Qed.

(** C10.  [SecurePage.getMessage] calls [getText] on its flash selector
    with the explicit timeout 8000, so that both primitives run with 8000
    and not with the wrapper's default; it fails exactly when [getText]
    fails, and otherwise returns a string: the text [getText] returned, or
    the empty string when [getText] returned [undefined]. *)
Theorem getMessage_returns_string_with_timeout_8000 :
  forall (this : SecurePage.t) (b : Browser.t),
    let options := {| ActionTypes.text_timeout := Some 8000%Z;
                      ActionTypes.text_trim := None |} in
    let target := ActionTypes.Selector (SecurePage.flashMessage this) in
    let locator := Playwright.page_locator
                     (CommonActions.page (SecurePage.actions this))
                     (SecurePage.flashMessage this) in
    let entered := Browser.Action (Browser.A_getText target options) in
    let waited := Browser.Prim (Browser.P_waitFor locator Playwright.Visible 8000%Z) in
    let read := Browser.Prim (Browser.P_textContent locator 8000%Z) in
    SecurePage.getMessage this b
    = (match fst (CommonActions.getText (SecurePage.actions this) target options b) with
       | Playwright.Ok (Js.Defined s) => Playwright.Ok s
       | Playwright.Ok Js.Undefined => Playwright.Ok ""
       | Playwright.Err e => Playwright.Err e
       end,
       snd (CommonActions.getText (SecurePage.actions this) target options b))
    /\ (Browser.log (snd (SecurePage.getMessage this b))
          = Browser.log b ++ [entered; waited]
        \/ Browser.log (snd (SecurePage.getMessage this b))
          = Browser.log b ++ [entered; waited; read])
    /\ (forall k element,
          Playwright.resolve (Browser.document b) locator = Playwright.Ok k ->
          Playwright.isVisibleAt (Browser.document b) k = true ->
          Browser.document b !! k = Some element ->
          SecurePage.getMessage this b
          = (Playwright.Ok
               match Dom.textContent element with
               | Js.Null => ""
               | Js.NotNull s => Js.trim s
               end,
             Browser.logged b [entered; waited; read])).
Proof.
  intros this b options target locator entered waited read.
  assert (G : SecurePage.getMessage this b
    = (match fst (CommonActions.getText (SecurePage.actions this) target options b) with
       | Playwright.Ok (Js.Defined s) => Playwright.Ok s
       | Playwright.Ok Js.Undefined => Playwright.Ok ""
       | Playwright.Err e => Playwright.Err e
       end,
       snd (CommonActions.getText (SecurePage.actions this) target options b))).
  { unfold SecurePage.getMessage, Browser.bind. fold options target.
    destruct (CommonActions.getText (SecurePage.actions this) target options b)
      as [[[|s]|e] b']; reflexivity. }
  pose proof (CommonActions_getText_run (SecurePage.actions this) target options b) as R.
  cbn zeta in R. cbn [default ActionTypes.text_timeout ActionTypes.text_trim options] in R.
  change (CommonActions._getLocator (SecurePage.actions this) target) with locator in R.
  fold entered waited read in R.
  split; [exact G|]. split.
  - rewrite G, R. cbn [snd].
    destruct (Playwright.resolve (Browser.document b) locator) as [k|e];
      [destruct (Playwright.isVisibleAt (Browser.document b) k)|];
      cbn [snd Browser.logged Browser.log]; auto.
  - intros k element E V L. rewrite G, R, E, V, L. cbn [fst snd].
    destruct (Dom.textContent element); reflexivity.
Qed.

Lemma getMessage_returns_string_with_timeout_8000_witness :
  let nbsp s := String "194"%char (String "160"%char s) in
  fst (SecurePage.getMessage (SecurePage.constructor 0)
         (Fixtures.browser (Fixtures.secureDocument true Js.Null)))
  = Playwright.Ok ""
  /\ fst (SecurePage.getMessage (SecurePage.constructor 0)
            (Fixtures.browser
               (Fixtures.secureDocument true (Js.NotNull " You logged in! "))))
     = Playwright.Ok "You logged in!"
  /\ fst (SecurePage.getMessage (SecurePage.constructor 0)
            (Fixtures.browser
               (Fixtures.secureDocument true
                  (Js.NotNull (nbsp (String "h" (String "i" (nbsp EmptyString))))))))
     = Playwright.Ok "hi".
Proof.
  intros nbsp. split; [|split].
  3:{ rewrite (proj2 (proj2 (getMessage_returns_string_with_timeout_8000
               (SecurePage.constructor 0)
               (Fixtures.browser
                  (Fixtures.secureDocument true
                     (Js.NotNull (nbsp (String "h" (String "i" (nbsp EmptyString)))))))))
               0 _ eq_refl eq_refl eq_refl).
      reflexivity. }
  - rewrite (proj2 (proj2 (getMessage_returns_string_with_timeout_8000
               (SecurePage.constructor 0)
               (Fixtures.browser (Fixtures.secureDocument true Js.Null))))
               0 _ eq_refl eq_refl eq_refl).
    reflexivity.
  - rewrite (proj2 (proj2 (getMessage_returns_string_with_timeout_8000
               (SecurePage.constructor 0)
               (Fixtures.browser
                  (Fixtures.secureDocument true (Js.NotNull " You logged in! ")))))
               0 _ eq_refl eq_refl eq_refl).
    reflexivity.
Defined.

Section SetStateFacts.
Import Playwright ActionTypes Browser.

Lemma setChecked_log l state b :
  log (snd (LocatorApi.setChecked l state b)) = log b.
Proof.
  rewrite setChecked_run.
  destruct (resolve (document b) l) as [k|e]; [|reflexivity].
  destruct (Bool.eqb (isCheckedAt (document b) k) state); [reflexivity|].
  destruct (isVisibleAt (document b) k); [|reflexivity].
  unfold moved. simpl. apply app_nil_r.
Qed.

End SetStateFacts.

(** C3, on the code.  [check] passes the timeout of its options, 10000 ms
    when absent, to the check primitive.  [uncheck] has no options
    parameter and calls the uncheck primitive with no timeout argument at
    all, so the 10000 ms default does not reach it. *)
Theorem check_passes_timeout_uncheck_passes_none :
  forall (this : CommonActions.t) (target : ActionTypes.SelectorOrLocator)
         (options : ActionTypes.CheckOptions) (b : Browser.t),
    let locator := CommonActions._getLocator this target in
    Browser.log (snd (CommonActions.check this target options b))
    = Browser.log b
      ++ [Browser.Action (Browser.A_check target options);
          Browser.Prim
            (Browser.P_check locator
               (Some (default 10000%Z (ActionTypes.check_timeout options))))]
    /\ Browser.log (snd (CommonActions.uncheck this target b))
       = Browser.log b
         ++ [Browser.Action (Browser.A_uncheck target);
             Browser.Prim (Browser.P_uncheck locator None)].
Proof.
  intros this target options b locator. split.
  - rewrite CommonActions_check_run. cbn zeta. rewrite setChecked_log. reflexivity.
  - rewrite CommonActions_uncheck_run. cbn zeta. rewrite setChecked_log. reflexivity.
Qed.

(** C7.  Whatever the two strings are, empty ones included, [login] is the
    three wrapper calls in sequence: [fill] on the username field with the
    username as given, then [fill] on the password field with the password
    as given, run where the first left off, then [click] on the submit
    button, run where the second left off.  When a call fails, [login]
    fails with that call's error in the state that call left, and no later
    call is made; otherwise its result and final state are those of the
    [click].  On the page: when each target resolves to a visible element
    in its turn, the two values are set and the application's reaction to
    the click is the final document.  In the log the wrapper calls are
    always a non-empty initial part of the three, in this order; when
    [login] returns normally they are exactly the three, each followed by
    its own primitives, run with the default timeouts, before the next call
    is entered. *)
Theorem login_fills_username_password_then_clicks :
  forall (this : LoginPage.t) (username password : string) (b : Browser.t),
    let fillUsername :=
      Browser.A_fill (ActionTypes.Loc (LoginPage.usernameInput this)) username
                     ActionTypes.noFillOptions in
    let fillPassword :=
      Browser.A_fill (ActionTypes.Loc (LoginPage.passwordInput this)) password
                     ActionTypes.noFillOptions in
    let clickSubmit :=
      Browser.A_click (ActionTypes.Loc (LoginPage.loginButton this))
                      ActionTypes.noClickOptions in
    let first :=
      CommonActions.fill (LoginPage.actions this)
        (ActionTypes.Loc (LoginPage.usernameInput this)) username
        ActionTypes.noFillOptions in
    let second :=
      CommonActions.fill (LoginPage.actions this)
        (ActionTypes.Loc (LoginPage.passwordInput this)) password
        ActionTypes.noFillOptions in
    let third :=
      CommonActions.click (LoginPage.actions this)
        (ActionTypes.Loc (LoginPage.loginButton this))
        ActionTypes.noClickOptions in
    let b1 := snd (first b) in
    let b2 := snd (second b1) in
    let events :=
      [Browser.Action fillUsername;
       Browser.Prim
         (Browser.P_fill (LoginPage.usernameInput this) username 10000%Z);
       Browser.Action fillPassword;
       Browser.Prim
         (Browser.P_fill (LoginPage.passwordInput this) password 10000%Z);
       Browser.Action clickSubmit;
       Browser.Prim
         (Browser.P_waitFor (LoginPage.loginButton this)
                            Playwright.Visible 10000%Z);
       Browser.Prim
         (Browser.P_click (LoginPage.loginButton this) false 10000%Z)] in
    (forall e, fst (first b) = Playwright.Err e ->
               LoginPage.login this username password b = (Playwright.Err e, b1))
    /\ (fst (first b) = Playwright.Ok tt ->
        forall e, fst (second b1) = Playwright.Err e ->
                  LoginPage.login this username password b
                  = (Playwright.Err e, b2))
    /\ (fst (first b) = Playwright.Ok tt ->
        fst (second b1) = Playwright.Ok tt ->
        LoginPage.login this username password b = third b2)
    /\ (forall k1 k2 k3,
          let d := Browser.document b in
          let d1 := alter (Dom.setValue username) k1 d in
          let d2 := alter (Dom.setValue password) k2 d1 in
          Playwright.resolve d (LoginPage.usernameInput this) = Playwright.Ok k1 ->
          Playwright.isVisibleAt d k1 = true ->
          Playwright.resolve d1 (LoginPage.passwordInput this) = Playwright.Ok k2 ->
          Playwright.isVisibleAt d1 k2 = true ->
          Playwright.resolve d2 (LoginPage.loginButton this) = Playwright.Ok k3 ->
          Playwright.isVisibleAt d2 k3 = true ->
          LoginPage.login this username password b
          = (Playwright.Ok tt,
             Browser.moved b (Browser.onClick b d2 k3) events))
    /\ exists new : list Browser.Event,
      Browser.log (snd (LoginPage.login this username password b))
      = Browser.log b ++ new
      /\ (Browser.actionsOf new = [fillUsername]
          \/ Browser.actionsOf new = [fillUsername; fillPassword]
          \/ Browser.actionsOf new = [fillUsername; fillPassword; clickSubmit])
      /\ (fst (LoginPage.login this username password b) = Playwright.Ok tt ->
          new = events).
Proof.
  intros this username password b fillUsername fillPassword clickSubmit
         first second third b1 b2 events.
  assert (Seq : LoginPage.login this username password b
                = match first b with
                  | (Playwright.Ok _, s1) =>
                      match second s1 with
                      | (Playwright.Ok _, s2) => third s2
                      | (Playwright.Err e, s2) => (Playwright.Err e, s2)
                      end
                  | (Playwright.Err e, s1) => (Playwright.Err e, s1)
                  end) by reflexivity.
  split; [|split; [|split; [|split]]].
  - intros e F. rewrite Seq. unfold b1.
    destruct (first b) as [[u|e'] s1]; cbn [fst snd] in *; congruence.
  - intros F e S. rewrite Seq. unfold b2, b1 in *.
    destruct (first b) as [[u|e'] s1]; cbn [fst snd] in *; [|discriminate].
    destruct (second s1) as [[u'|e''] s2]; cbn [fst snd] in *; congruence.
  - intros F S. rewrite Seq. unfold b2, b1 in *.
    destruct (first b) as [[u|e'] s1]; cbn [fst snd] in *; [|discriminate].
    destruct (second s1) as [[u'|e''] s2]; cbn [fst snd] in *;
      [reflexivity|discriminate].
  - intros k1 k2 k3 d d1 d2 R1 V1 R2 V2 R3 V3. rewrite Seq.
    unfold first. rewrite CommonActions_fill_run. cbn zeta.
    cbn [CommonActions._getLocator default ActionTypes.fill_timeout
         ActionTypes.noFillOptions].
    fold d. rewrite R1, V1. fold d1.
    unfold second. rewrite CommonActions_fill_run. cbn zeta.
    cbn [CommonActions._getLocator default ActionTypes.fill_timeout
         ActionTypes.noFillOptions Browser.document Browser.moved].
    rewrite R2, V2. fold d2.
    unfold third. rewrite CommonActions_click_run. cbn zeta.
    cbn [CommonActions._getLocator default ActionTypes.click_timeout
         ActionTypes.click_force ActionTypes.noClickOptions
         Browser.document Browser.moved Browser.onClick].
    rewrite R3, V3. unfold Browser.moved. cbn [Browser.onClick Browser.log].
    rewrite <- !app_assoc. reflexivity.
  - clear Seq.
    destruct (LoginPage.login this username password b) as [r b'] eqn:E.
    cbn [fst snd]. unfold LoginPage.login in E.
    unfold Browser.bind at 1 in E. rewrite CommonActions_fill_run in E.
    cbn zeta in E.
    cbn [CommonActions._getLocator default ActionTypes.fill_timeout
         ActionTypes.noFillOptions] in E.
    fold fillUsername in E.
    destruct (Playwright.resolve (Browser.document b) (LoginPage.usernameInput this))
      as [k1|e1].
    2:{ inversion E; subst. eexists. split; [reflexivity|].
        split; [left; reflexivity|discriminate]. }
    destruct (Playwright.isVisibleAt (Browser.document b) k1).
    2:{ inversion E; subst. eexists. split; [reflexivity|].
        split; [left; reflexivity|discriminate]. }
    set (s1 := Browser.moved b _ _) in E.
    unfold Browser.bind at 1 in E. rewrite CommonActions_fill_run in E.
    cbn zeta in E.
    cbn [CommonActions._getLocator default ActionTypes.fill_timeout
         ActionTypes.noFillOptions] in E.
    fold fillPassword in E.
    destruct (Playwright.resolve (Browser.document s1) (LoginPage.passwordInput this))
      as [k2|e2].
    2:{ inversion E; subst. eexists.
        split; [unfold Browser.logged, s1, Browser.moved; simpl;
                rewrite <- app_assoc; reflexivity|].
        split; [right; left; reflexivity|discriminate]. }
    destruct (Playwright.isVisibleAt (Browser.document s1) k2).
    2:{ inversion E; subst. eexists.
        split; [unfold Browser.logged, s1, Browser.moved; simpl;
                rewrite <- app_assoc; reflexivity|].
        split; [right; left; reflexivity|discriminate]. }
    set (s2 := Browser.moved s1 _ _) in E.
    rewrite CommonActions_click_run in E. cbn zeta in E.
    cbn [CommonActions._getLocator default ActionTypes.click_timeout
         ActionTypes.click_force ActionTypes.noClickOptions] in E.
    fold clickSubmit in E.
    destruct (Playwright.resolve (Browser.document s2) (LoginPage.loginButton this))
      as [k3|e3].
    2:{ inversion E; subst. eexists.
        split; [unfold Browser.logged, s2, s1, Browser.moved; simpl;
                rewrite <- !app_assoc; reflexivity|].
        split; [right; right; reflexivity|discriminate]. }
    destruct (Playwright.isVisibleAt (Browser.document s2) k3).
    2:{ inversion E; subst. eexists.
        split; [unfold Browser.logged, s2, s1, Browser.moved; simpl;
                rewrite <- !app_assoc; reflexivity|].
        split; [right; right; reflexivity|discriminate]. }
    inversion E; subst. eexists.
    split; [unfold s2, s1, Browser.moved; simpl;
            rewrite <- !app_assoc; reflexivity|].
    split; [right; right; reflexivity|].
    intros _. reflexivity.
Qed.

Lemma login_fills_username_password_then_clicks_witness :
  let this := LoginPage.constructor 0 in
  let b := Fixtures.browser Fixtures.loginDocument in
  let empty := Fixtures.browser [] in
  LoginPage.login this "" "pw" b
  = (Playwright.Ok tt,
     Browser.moved b
       (alter (Dom.setValue "pw") 3 (alter (Dom.setValue "") 2 Fixtures.loginDocument))
       [Browser.Action
          (Browser.A_fill (ActionTypes.Loc (Playwright.page_locator 0 "#username"))
                          "" ActionTypes.noFillOptions);
        Browser.Prim (Browser.P_fill (Playwright.page_locator 0 "#username")
                                     "" 10000%Z);
        Browser.Action
          (Browser.A_fill (ActionTypes.Loc (Playwright.page_locator 0 "#password"))
                          "pw" ActionTypes.noFillOptions);
        Browser.Prim (Browser.P_fill (Playwright.page_locator 0 "#password")
                                     "pw" 10000%Z);
        Browser.Action
          (Browser.A_click
             (ActionTypes.Loc (Playwright.page_locator 0 LoginPage.submitSelector))
             ActionTypes.noClickOptions);
        Browser.Prim
          (Browser.P_waitFor (Playwright.page_locator 0 LoginPage.submitSelector)
                             Playwright.Visible 10000%Z);
        Browser.Prim
          (Browser.P_click (Playwright.page_locator 0 LoginPage.submitSelector)
                           false 10000%Z)])
  /\ LoginPage.login this "" "pw" empty
     = (Playwright.Err Playwright.TimeoutError,
        snd (CommonActions.fill (LoginPage.actions this)
               (ActionTypes.Loc (LoginPage.usernameInput this)) ""
               ActionTypes.noFillOptions empty)).
Proof.
  intros this b empty. split.
  - destruct (login_fills_username_password_then_clicks this "" "pw" b)
      as (_ & _ & _ & Effect & _).
    exact (Effect 2 3 4 eq_refl eq_refl eq_refl eq_refl eq_refl eq_refl).
  - destruct (login_fills_username_password_then_clicks this "" "pw" empty)
      as (Stop & _).
    exact (Stop Playwright.TimeoutError eq_refl).
Defined.

(** ** Documents under changes of checked state *)

Section DocumentFacts.
Import Playwright ActionTypes Browser.

Implicit Types (d : Dom.Document) (k j : nat) (v : bool).

Lemma setChecked_same (e : Dom.Element) v :
  Dom.checked e = v -> Dom.setChecked v e = e.
Proof. intros <-. destruct e. reflexivity. Qed.

Lemma setChecked_setChecked (e : Dom.Element) v w :
  Dom.setChecked v (Dom.setChecked w e) = Dom.setChecked v e.
Proof. reflexivity. Qed.

Lemma alter_setChecked_same d k v :
  isCheckedAt d k = v -> k < length d -> alter (Dom.setChecked v) k d = d.
Proof.
  intros C L. apply list_eq. intros j.
  destruct (decide (k = j)) as [<-|Hne].
  - rewrite list_lookup_alter_eq. unfold isCheckedAt in C.
    destruct (d !! k) as [e|] eqn:E; [|reflexivity].
    simpl. rewrite setChecked_same by exact C. reflexivity.
  - apply list_lookup_alter_ne, Hne.
Qed.

Lemma isCheckedAt_alter_eq d k v :
  k < length d -> isCheckedAt (alter (Dom.setChecked v) k d) k = v.
Proof.
  intros L. unfold isCheckedAt. rewrite list_lookup_alter_eq.
  destruct (lookup_lt_is_Some_2 d k L) as [e ->]. reflexivity.
Qed.

Lemma isCheckedAt_alter_ne d k j v :
  k <> j -> isCheckedAt (alter (Dom.setChecked v) k d) j = isCheckedAt d j.
Proof.
  intros Hne. unfold isCheckedAt. rewrite list_lookup_alter_ne by exact Hne.
  reflexivity.
Qed.

Lemma isVisibleAt_alter d k j v :
  isVisibleAt (alter (Dom.setChecked v) k d) j = isVisibleAt d j.
Proof.
  unfold isVisibleAt. destruct (decide (k = j)) as [<-|Hne].
  - rewrite list_lookup_alter_eq. destruct (d !! k); reflexivity.
  - rewrite list_lookup_alter_ne by exact Hne. reflexivity.
Qed.

Lemma resolve_alter d k v l :
  resolve (alter (Dom.setChecked v) k d) l = resolve d l.
Proof. unfold resolve. rewrite query_alter_setChecked. reflexivity. Qed.

Lemma resolve_bound d l k : resolve d l = Ok k -> k < length d.
Proof.
  unfold resolve. destruct (query d l) as [|k' [|]] eqn:Q; try discriminate.
  intros E. inversion E; subst. apply (query_bound d l). rewrite Q. left.
  reflexivity.
Qed.

Lemma resolve_nth d l i k :
  query d l !! i = Some k -> resolve d (locator_nth l i) = Ok k.
Proof. intros E. unfold resolve. simpl. rewrite E. reflexivity. Qed.

(** Setting the state twice at one element is setting it once. *)
Lemma alter_setChecked_twice d k v w :
  alter (Dom.setChecked v) k (alter (Dom.setChecked w) k d)
  = alter (Dom.setChecked v) k d.
Proof.
  apply list_eq. intros j. destruct (decide (k = j)) as [<-|Hne].
  - rewrite !list_lookup_alter_eq. destruct (d !! k); reflexivity.
  - rewrite !list_lookup_alter_ne by exact Hne. reflexivity.
Qed.

Lemma length_setAll v ks d : length (Checkboxes.setAll v ks d) = length d.
Proof.
  revert d. induction ks as [|k ks IH]; intros d; simpl; [reflexivity|].
  unfold Checkboxes.setAll in *. simpl. rewrite IH. apply length_alter.
Qed.

Lemma query_setAll v ks d l : query (Checkboxes.setAll v ks d) l = query d l.
Proof.
  revert d. induction ks as [|k ks IH]; intros d; [reflexivity|].
  unfold Checkboxes.setAll in *. simpl. rewrite IH.
  apply query_alter_setChecked.
Qed.

(** [setAll] changes the elements it names, and only their checked
    state. *)
Lemma lookup_setAll v ks d j :
  Checkboxes.setAll v ks d !! j
  = if existsb (Nat.eqb j) ks then Dom.setChecked v <$> d !! j else d !! j.
Proof.
  revert d. induction ks as [|k ks IH]; intros d; [reflexivity|].
  unfold Checkboxes.setAll in *. simpl. rewrite IH.
  destruct (Nat.eqb_spec j k) as [->|Hne]; simpl.
  - rewrite list_lookup_alter_eq.
    destruct (existsb (Nat.eqb k) ks); destruct (d !! k); reflexivity.
  - rewrite list_lookup_alter_ne by congruence. reflexivity.
Qed.

Lemma isCheckedAt_setAll v ks d j :
  j < length d ->
  isCheckedAt (Checkboxes.setAll v ks d) j
  = if existsb (Nat.eqb j) ks then v else isCheckedAt d j.
Proof.
  intros L. unfold isCheckedAt. rewrite lookup_setAll.
  destruct (lookup_lt_is_Some_2 d j L) as [e ->].
  destruct (existsb (Nat.eqb j) ks); reflexivity.
Qed.

Lemma existsb_eqb_In j (ks : list nat) : In j ks -> existsb (Nat.eqb j) ks = true.
Proof.
  intros H. apply existsb_exists. exists j. split; [exact H|apply Nat.eqb_refl].
Qed.

Lemma map_lookup_seq {A B} (f : A -> B) (dflt : B) (ks : list A) :
  map (fun i => match ks !! i with Some k => f k | None => dflt end)
      (seq 0 (length ks))
  = map f ks.
Proof.
  induction ks as [|k ks IH]; [reflexivity|].
  simpl length. rewrite <- cons_seq, <- seq_shift. simpl.
  f_equal. rewrite List.map_map. exact IH.
Qed.

Lemma boolArrayEqual_spec (a e : list bool) :
  LocatorApi.boolArrayEqual a e = true <-> a = e.
Proof.
  revert e. induction a as [|x a IH]; intros [|y e]; simpl;
    try (split; [discriminate|discriminate]); [split; reflexivity|].
  rewrite andb_true_iff, IH. split.
  - intros [H ->]. apply Bool.eqb_prop in H. subst. reflexivity.
  - intros H. inversion H; subst. split; [apply Bool.eqb_reflx|reflexivity].
Qed.

End DocumentFacts.

(** ** Reading and validating all checkbox states *)

Section ReadAllFacts.
Import Playwright ActionTypes Browser.

Lemma promiseAllMap_isChecked l (idxs : list nat) b :
  Forall (fun i => is_Some (query (document b) l !! i)) idxs ->
  LocatorApi.promiseAllMap (fun checkbox => LocatorApi.isChecked checkbox)
                           (map (locator_nth l) idxs) b
  = (Ok (map (Checkboxes.stateAt (document b) l) idxs),
     logged b (map (fun i => Prim (P_isChecked (locator_nth l i))) idxs)).
Proof.
  revert b. induction idxs as [|i idxs IH]; intros b F.
  - simpl. rewrite logged_nil. reflexivity.
  - inversion F as [|? ? [k Ek] F']; subst.
    cbn [map LocatorApi.promiseAllMap].
    rewrite isChecked_run, (resolve_nth _ _ _ _ Ek).
    rewrite IH by exact F'. cbn [document logged].
    rewrite logged_logged. unfold Checkboxes.stateAt at 2. rewrite Ek.
    reflexivity.
Qed.

Lemma seq_lookup_is_Some {A} (ks : list A) :
  Forall (fun i => is_Some (ks !! i)) (seq 0 (length ks)).
Proof.
  apply List.Forall_forall. intros i H. apply in_seq in H.
  apply lookup_lt_is_Some_2. lia.
Qed.

Lemma getCheckboxStates_run (this : CheckboxesPage.t) b :
  let l := CheckboxesPage.checkboxes this in
  CheckboxesPage.getCheckboxStates this b
  = (Ok (map (isCheckedAt (document b)) (query (document b) l)),
     logged b (Prim (P_all l)
               :: map (fun i => Prim (P_isChecked (locator_nth l i)))
                      (seq 0 (length (query (document b) l))))).
Proof.
  intros l. unfold CheckboxesPage.getCheckboxStates.
  unfold bind. rewrite all_run. fold l.
  rewrite promiseAllMap_isChecked by apply seq_lookup_is_Some.
  cbn [document logged]. rewrite logged_logged. f_equal. f_equal.
  unfold Checkboxes.stateAt. apply map_lookup_seq.
Qed.

End ReadAllFacts.

(** C8.  [getCheckboxStates] always returns a sequence, and
    [validateAllCheckboxStates] returns normally if and only if that
    sequence and the expected one are equal as lists, which is: the same
    length and the same boolean at every position; when they differ it
    fails with an assertion error. *)
Theorem validateAllCheckboxStates_passes_iff_equal :
  forall (this : CheckboxesPage.t) (expectedStates : list bool) (b : Browser.t),
  exists actualStates : list bool,
    fst (CheckboxesPage.getCheckboxStates this b) = Playwright.Ok actualStates
    /\ (fst (CheckboxesPage.validateAllCheckboxStates this expectedStates b)
          = Playwright.Ok tt
        <-> actualStates = expectedStates)
    /\ (actualStates = expectedStates
        <-> length actualStates = length expectedStates
            /\ forall i, actualStates !! i = expectedStates !! i)
    /\ (actualStates <> expectedStates ->
        fst (CheckboxesPage.validateAllCheckboxStates this expectedStates b)
        = Playwright.Err Playwright.AssertionError).
Proof.
  intros this expectedStates b.
  exists (map (Playwright.isCheckedAt (Browser.document b))
              (Playwright.query (Browser.document b) (CheckboxesPage.checkboxes this))).
  set (actual := map _ _).
  assert (V : fst (CheckboxesPage.validateAllCheckboxStates this expectedStates b)
              = if LocatorApi.boolArrayEqual actual expectedStates
                then Playwright.Ok tt
                else Playwright.Err Playwright.AssertionError).
  { unfold CheckboxesPage.validateAllCheckboxStates, Browser.bind.
    rewrite getCheckboxStates_run. cbn zeta. fold actual.
    unfold LocatorApi.expectToEqual.
    destruct (LocatorApi.boolArrayEqual actual expectedStates); reflexivity. }
  split; [rewrite getCheckboxStates_run; reflexivity|].
  split; [|split].
  - rewrite V, <- boolArrayEqual_spec.
    destruct (LocatorApi.boolArrayEqual actual expectedStates);
      split; intros H; try reflexivity; discriminate.
  - split.
    + intros ->. split; reflexivity.
    + intros [_ H]. apply list_eq, H.
  - intros N. rewrite V.
    destruct (LocatorApi.boolArrayEqual actual expectedStates) eqn:E;
      [|reflexivity].
    apply boolArrayEqual_spec in E. contradiction.
Qed.

Lemma validateAllCheckboxStates_passes_iff_equal_witness :
  fst (CheckboxesPage.validateAllCheckboxStates (CheckboxesPage.constructor 0)
         [false; true]
         (Fixtures.browser (Fixtures.checkboxesDocument [false; true])))
  = Playwright.Ok tt
  /\ fst (CheckboxesPage.validateAllCheckboxStates (CheckboxesPage.constructor 0)
            [false]
            (Fixtures.browser (Fixtures.checkboxesDocument [false; true])))
     = Playwright.Err Playwright.AssertionError.
Proof.
  split.
  - destruct (validateAllCheckboxStates_passes_iff_equal
                (CheckboxesPage.constructor 0) [false; true]
                (Fixtures.browser (Fixtures.checkboxesDocument [false; true])))
      as (actual & G & P & _).
    apply P. vm_compute in G. inversion G. reflexivity.
  - destruct (validateAllCheckboxStates_passes_iff_equal
                (CheckboxesPage.constructor 0) [false]
                (Fixtures.browser (Fixtures.checkboxesDocument [false; true])))
      as (actual & G & _ & _ & F).
    apply F. vm_compute in G. inversion G. discriminate.
Defined.

(** ** The loops of [checkAll] and [uncheckAll] *)

Section LoopFacts.
Import Playwright ActionTypes Browser.

Lemma moved_moved b d new d' more :
  moved (moved b d new) d' more = moved b d' (new ++ more).
Proof. unfold moved. simpl. rewrite <- app_assoc. reflexivity. Qed.

Lemma stateAt_alter_ne v d l k i j :
  query d l !! j = Some k -> i <> j ->
  Checkboxes.stateAt (alter (Dom.setChecked v) k d) l i = Checkboxes.stateAt d l i.
Proof.
  intros Ej Hne. unfold Checkboxes.stateAt. rewrite query_alter_setChecked.
  destruct (query d l !! i) as [k'|] eqn:Ei; [|reflexivity].
  apply isCheckedAt_alter_ne. intros ->. apply Hne.
  pose proof (query_NoDup d l) as N. apply NoDup_ListNoDup in N.
  eapply NoDup_lookup; eassumption.
Qed.

Variable v : bool.
Variable l : Locator.
Variable body : Locator -> Async unit.

(** One round: on a visible match, the body returns normally, leaves the
    match in state [v] and logs [roundCalls]. *)
Hypothesis round :
  forall i k b,
    query (document b) l !! i = Some k ->
    isVisibleAt (document b) k = true ->
    body (locator_nth l i) b
    = (Ok tt, moved b (alter (Dom.setChecked v) k (document b))
                      (Checkboxes.roundCalls v (document b) l i)).

Lemma forOf_rounds (rest pre : list nat) b :
  query (document b) l = pre ++ rest ->
  Forall (fun k => isVisibleAt (document b) k = true) rest ->
  LocatorApi.forOf (map (locator_nth l) (seq (length pre) (length rest))) body b
  = (Ok tt,
     moved b (Checkboxes.setAll v rest (document b))
           (concat (map (Checkboxes.roundCalls v (document b) l)
                        (seq (length pre) (length rest))))).
Proof.
  revert pre b. induction rest as [|k rest IH]; intros pre b Q F.
  - simpl. unfold ret, moved. simpl. rewrite app_nil_r. destruct b; reflexivity.
  - inversion F as [|? ? Vk F']; subst.
    assert (Ek : query (document b) l !! length pre = Some k).
    { rewrite Q. apply list_lookup_middle. reflexivity. }
    cbn [length seq map LocatorApi.forOf concat].
    unfold bind. rewrite (round _ k b Ek Vk).
    set (d1 := alter (Dom.setChecked v) k (document b)).
    set (b1 := moved b d1 _).
    assert (Q1 : query (document b1) l = (pre ++ [k]) ++ rest).
    { unfold b1, moved, d1. simpl. rewrite query_alter_setChecked, Q.
      rewrite <- app_assoc. reflexivity. }
    assert (F1 : Forall (fun k' => isVisibleAt (document b1) k' = true) rest).
    { eapply Forall_impl; [exact F'|]. intros k' V. unfold b1, moved, d1. simpl.
      rewrite isVisibleAt_alter. exact V. }
    pose proof (IH (pre ++ [k]) b1 Q1 F1) as R.
    rewrite length_app in R. simpl in R. rewrite Nat.add_1_r in R.
    rewrite R. unfold b1. rewrite moved_moved. cbn [document moved].
    f_equal. f_equal. f_equal. f_equal.
    apply List.map_ext_in. intros j Hj. apply in_seq in Hj.
    unfold Checkboxes.roundCalls, d1.
    rewrite (stateAt_alter_ne v (document b) l k j (length pre) Ek) by lia.
    reflexivity.
Qed.

Lemma actionsOf_rounds d (idxs : list nat) :
  actionsOf (concat (map (Checkboxes.roundCalls v d l) idxs))
  = map (Checkboxes.setAction v l)
        (List.filter (fun i => negb (Bool.eqb (Checkboxes.stateAt d l i) v)) idxs).
Proof.
  induction idxs as [|i idxs IH]; [reflexivity|].
  cbn [map concat List.filter]. rewrite actionsOf_app, IH.
  unfold Checkboxes.roundCalls.
  destruct (Bool.eqb (Checkboxes.stateAt d l i) v); reflexivity.
Qed.

End LoopFacts.

Section CheckAllFacts.
Import Playwright ActionTypes Browser.

Lemma checkAll_round (this : CheckboxesPage.t) l i k b :
  query (document b) l !! i = Some k ->
  isVisibleAt (document b) k = true ->
  (isChecked <- LocatorApi.isChecked (locator_nth l i) ;;
   if negb isChecked
   then CommonActions.check (CheckboxesPage.actions this)
                            (Loc (locator_nth l i)) noCheckOptions
   else ret tt) b
  = (Ok tt, moved b (alter (Dom.setChecked true) k (document b))
                    (Checkboxes.roundCalls true (document b) l i)).
Proof.
  intros E V. unfold bind at 1.
  rewrite isChecked_run, (resolve_nth _ _ _ _ E).
  unfold Checkboxes.roundCalls, Checkboxes.stateAt. rewrite E.
  destruct (isCheckedAt (document b) k) eqn:C; cbn [negb Bool.eqb].
  - unfold ret. rewrite alter_setChecked_same; [destruct b; reflexivity|exact C|].
    apply (query_bound (document b) l). apply list_elem_of_In.
    eapply list_elem_of_lookup_2, E.
  - rewrite CommonActions_check_run. cbn zeta.
    cbn [CommonActions._getLocator default check_timeout noCheckOptions].
    rewrite setChecked_run. cbn [document logged].
    rewrite (resolve_nth _ _ _ _ E), C, V. cbn [Bool.eqb].
    rewrite logged_logged, moved_logged, app_nil_r. reflexivity.
Qed.

Lemma uncheckAll_round (this : CheckboxesPage.t) l i k b :
  query (document b) l !! i = Some k ->
  isVisibleAt (document b) k = true ->
  (isChecked <- LocatorApi.isChecked (locator_nth l i) ;;
   if isChecked : bool
   then CommonActions.uncheck (CheckboxesPage.actions this) (Loc (locator_nth l i))
   else ret tt) b
  = (Ok tt, moved b (alter (Dom.setChecked false) k (document b))
                    (Checkboxes.roundCalls false (document b) l i)).
Proof.
  intros E V. unfold bind at 1.
  rewrite isChecked_run, (resolve_nth _ _ _ _ E).
  unfold Checkboxes.roundCalls, Checkboxes.stateAt. rewrite E.
  destruct (isCheckedAt (document b) k) eqn:C; cbn [negb Bool.eqb].
  - rewrite CommonActions_uncheck_run. cbn zeta.
    cbn [CommonActions._getLocator].
    rewrite setChecked_run. cbn [document logged].
    rewrite (resolve_nth _ _ _ _ E), C, V. cbn [Bool.eqb].
    rewrite logged_logged, moved_logged, app_nil_r. reflexivity.
  - unfold ret. rewrite alter_setChecked_same; [destruct b; reflexivity|exact C|].
    apply (query_bound (document b) l). apply list_elem_of_In.
    eapply list_elem_of_lookup_2, E.
Qed.

End CheckAllFacts.

Section SetAllFacts.
Import Playwright ActionTypes Browser.

Lemma setAll_run_gen (v : bool) (this : CheckboxesPage.t)
      (body : Locator -> Async unit) b :
  let l := CheckboxesPage.checkboxes this in
  (forall i k b',
      query (document b') l !! i = Some k ->
      isVisibleAt (document b') k = true ->
      body (locator_nth l i) b'
      = (Ok tt, moved b' (alter (Dom.setChecked v) k (document b'))
                       (Checkboxes.roundCalls v (document b') l i))) ->
  Forall (fun k => isVisibleAt (document b) k = true) (query (document b) l) ->
  (allCheckboxes <- LocatorApi.all l ;; LocatorApi.forOf allCheckboxes body) b
  = (Ok tt,
     moved b (Checkboxes.setAll v (query (document b) l) (document b))
           (Prim (P_all l)
            :: concat (map (Checkboxes.roundCalls v (document b) l)
                           (seq 0 (length (query (document b) l)))))).
Proof.
  intros l R F. unfold bind at 1. rewrite all_run.
  pose proof (forOf_rounds v l body R (query (document b) l) []
                (logged b [Prim (P_all l)]) eq_refl F) as H.
  cbn [length document logged] in H. rewrite H.
  rewrite moved_logged. reflexivity.
Qed.

Lemma checkAll_run (this : CheckboxesPage.t) b :
  let l := CheckboxesPage.checkboxes this in
  Forall (fun k => isVisibleAt (document b) k = true) (query (document b) l) ->
  CheckboxesPage.checkAll this b
  = (Ok tt,
     moved b (Checkboxes.setAll true (query (document b) l) (document b))
           (Prim (P_all l)
            :: concat (map (Checkboxes.roundCalls true (document b) l)
                           (seq 0 (length (query (document b) l)))))).
Proof.
  intros l F. unfold CheckboxesPage.checkAll.
  apply (setAll_run_gen true this _ b); [|exact F].
  intros i k b'. apply checkAll_round.
Qed.

Lemma uncheckAll_run (this : CheckboxesPage.t) b :
  let l := CheckboxesPage.checkboxes this in
  Forall (fun k => isVisibleAt (document b) k = true) (query (document b) l) ->
  CheckboxesPage.uncheckAll this b
  = (Ok tt,
     moved b (Checkboxes.setAll false (query (document b) l) (document b))
           (Prim (P_all l)
            :: concat (map (Checkboxes.roundCalls false (document b) l)
                           (seq 0 (length (query (document b) l)))))).
Proof.
  intros l F. unfold CheckboxesPage.uncheckAll.
  apply (setAll_run_gen false this _ b); [|exact F].
  intros i k b'. apply uncheckAll_round.
Qed.

(** After [setAll v] on the matches of [l], every match reads [v]. *)
Lemma states_after_setAll v d l :
  map (isCheckedAt (Checkboxes.setAll v (query d l) d)) (query d l)
  = repeat v (length (query d l)).
Proof.
  assert (H : forall ks' : list nat,
             (forall k, In k ks' -> In k (query d l)) ->
             map (isCheckedAt (Checkboxes.setAll v (query d l) d)) ks'
             = repeat v (length ks')).
  { induction ks' as [|k ks' IH]; intros S; [reflexivity|]. simpl.
    rewrite IH by (intros k' Hk'; apply S; right; exact Hk').
    f_equal. rewrite isCheckedAt_setAll.
    - rewrite existsb_eqb_In; [reflexivity|]. apply S. left. reflexivity.
    - apply (query_bound d l). apply S. left. reflexivity. }
  apply H. auto.
Qed.

(** [setAll v] touches exactly the matches whose state is not [v]. *)
Lemma lookup_setAll_changed v ks d j :
  Checkboxes.setAll v ks d !! j
  = if existsb (Nat.eqb j) ks && negb (Bool.eqb (isCheckedAt d j) v)
    then Dom.setChecked v <$> d !! j
    else d !! j.
Proof.
  rewrite lookup_setAll. destruct (existsb (Nat.eqb j) ks); [|reflexivity].
  cbn [andb]. unfold isCheckedAt.
  destruct (d !! j) as [e|] eqn:E; [|destruct (negb _); reflexivity].
  destruct (Bool.eqb (Dom.checked e) v) eqn:C; cbn [negb]; [|reflexivity].
  simpl. rewrite setChecked_same; [reflexivity|]. apply Bool.eqb_prop, C.
Qed.

End SetAllFacts.

(** ** How the two kinds of checkbox locator are read *)

Section SelectorFacts.
Import Playwright ActionTypes Browser.

Lemma splitOn_digits (u : Decimal.uint) (rest : string) :
  Dom.splitOn ")" (NilEmpty.string_of_uint u ++ String ")" rest)
  = Some (NilEmpty.string_of_uint u, rest).
Proof.
  induction u as [|u IH|u IH|u IH|u IH|u IH|u IH|u IH|u IH|u IH|u IH];
    simpl; [reflexivity|..]; rewrite IH; reflexivity.
Qed.

Lemma to_uint_nonnil (n : nat) : Nat.to_uint n <> Decimal.Nil.
Proof.
  rewrite <- (DecimalNat.Unsigned.of_to n) at 1.
  rewrite DecimalNat.Unsigned.to_of. apply DecimalFacts.unorm_nonnil.
Qed.

Lemma numberToString_nonEmpty (n : nat) :
  Dom.nonEmpty (Js.numberToString n) = true.
Proof.
  unfold Js.numberToString. pose proof (to_uint_nonnil n) as H.
  destruct (Nat.to_uint n); [contradiction|..]; reflexivity.
Qed.

(** The index-based selector is read as [input[type="checkbox"]] with
    [:nth-of-type(index)], for every index. *)
Lemma parse_nthCheckboxSelector (index : nat) :
  Dom.parse (CheckboxesPage.nthCheckboxSelector index)
  = Some (Dom.ByTagAttr "input" "type" "checkbox" (Some index)).
Proof.
  unfold CheckboxesPage.nthCheckboxSelector, CheckboxesPage.checkboxSelector.
  cbn -[Js.numberToString NilEmpty.uint_of_string Dom.splitOn Nat.of_uint].
  unfold Dom.parseTagAttr.
  cbn -[Js.numberToString NilEmpty.uint_of_string Nat.of_uint Dom.parseNth].
  unfold Dom.parseNth.
  cbn -[Js.numberToString NilEmpty.uint_of_string Nat.of_uint Dom.splitOn].
  unfold Js.numberToString at 1. rewrite splitOn_digits.
  fold (Js.numberToString index). rewrite numberToString_nonEmpty.
  unfold Js.numberToString. rewrite NilEmpty.usu.
  rewrite DecimalNat.Unsigned.of_to. reflexivity.
Qed.

Lemma parse_checkboxSelector :
  Dom.parse CheckboxesPage.checkboxSelector
  = Some (Dom.ByTagAttr "input" "type" "checkbox" None).
Proof. reflexivity. Qed.

(** An index-based operation looks through the whole document for inputs
    of type checkbox that are the [index]-th [input] among their
    siblings. *)
Lemma query_nthCheckboxSelector (page : Page) (index : nat) (d : Dom.Document) :
  query d (page_locator page (CheckboxesPage.nthCheckboxSelector index))
  = List.filter (Dom.holds d (Dom.ByTagAttr "input" "type" "checkbox" (Some index)))
                (seq 0 (length d)).
Proof.
  simpl. unfold Dom.querySelectorAll. rewrite parse_nthCheckboxSelector.
  reflexivity.
Qed.

(** The enumerating operations look for inputs of type checkbox below an
    element with id [checkboxes]. *)
Lemma query_checkboxes (page : Page) (d : Dom.Document) :
  query d (CheckboxesPage.checkboxes (CheckboxesPage.constructor page))
  = List.filter
      (Dom.isDescendantOfAny d
         (List.filter (Dom.holds d (Dom.ById "checkboxes")) (seq 0 (length d))))
      (List.filter (Dom.holds d (Dom.ByTagAttr "input" "type" "checkbox" None))
                   (seq 0 (length d))).
Proof. reflexivity. Qed.

End SelectorFacts.

(** ** The reference page, for any vector of states *)

Section ReferencePageFacts.
Import Playwright ActionTypes Browser.

Lemma filter_all {A} (f : A -> bool) (xs : list A) :
  (forall x, In x xs -> f x = true) -> List.filter f xs = xs.
Proof.
  induction xs as [|x xs IH]; intros H; [reflexivity|]. simpl.
  rewrite (H x (or_introl eq_refl)), IH; [reflexivity|].
  intros y Hy. apply H. right. exact Hy.
Qed.

Lemma filter_none {A} (f : A -> bool) (xs : list A) :
  (forall x, In x xs -> f x = false) -> List.filter f xs = [].
Proof.
  induction xs as [|x xs IH]; intros H; [reflexivity|]. simpl.
  rewrite (H x (or_introl eq_refl)). apply IH.
  intros y Hy. apply H. right. exact Hy.
Qed.

Lemma checkboxesDocument_lookup (states : list bool) (i : nat) :
  Fixtures.checkboxesDocument states !! S i
  = Fixtures.checkbox (Some 0) <$> states !! i.
Proof.
  unfold Fixtures.checkboxesDocument. cbn [lookup list_lookup].
  change (map (Fixtures.checkbox (Some 0)) states !! i
          = Fixtures.checkbox (Some 0) <$> states !! i).
  apply list_lookup_fmap.
Qed.

Lemma checkboxesDocument_length (states : list bool) :
  length (Fixtures.checkboxesDocument states) = S (length states).
Proof. unfold Fixtures.checkboxesDocument. simpl. rewrite length_map. reflexivity. Qed.

(** On the reference page the enumerated checkboxes are the elements
    1, 2, ..., one per entry of the vector. *)
Lemma checkboxesDocument_query (page : Page) (states : list bool) :
  query (Fixtures.checkboxesDocument states)
        (CheckboxesPage.checkboxes (CheckboxesPage.constructor page))
  = seq 1 (length states).
Proof.
  rewrite query_checkboxes, checkboxesDocument_length.
  set (d := Fixtures.checkboxesDocument states).
  assert (Inner : List.filter
                    (Dom.holds d (Dom.ByTagAttr "input" "type" "checkbox" None))
                    (seq 0 (S (length states)))
                  = seq 1 (length states)).
  { cbn [seq List.filter]. replace (Dom.holds d _ 0) with false by reflexivity.
    apply filter_all. intros k Hk. apply in_seq in Hk.
    destruct k as [|i]; [lia|]. unfold Dom.holds, d.
    rewrite checkboxesDocument_lookup.
    destruct (lookup_lt_is_Some_2 states i ltac:(lia)) as [s ->]. reflexivity. }
  assert (Roots : List.filter (Dom.holds d (Dom.ById "checkboxes"))
                              (seq 0 (S (length states)))
                  = [0]).
  { cbn [seq List.filter]. replace (Dom.holds d _ 0) with true by reflexivity.
    f_equal. apply filter_none. intros k Hk. apply in_seq in Hk.
    destruct k as [|i]; [lia|]. unfold Dom.holds, d.
    rewrite checkboxesDocument_lookup.
    destruct (states !! i); reflexivity. }
  rewrite Inner, Roots.
  apply filter_all. intros k Hk. apply in_seq in Hk.
  destruct k as [|i]; [lia|].
  unfold Dom.isDescendantOfAny. unfold d at 1.
  rewrite checkboxesDocument_length. cbn [Dom.ancestors].
  unfold d at 1. rewrite checkboxesDocument_lookup.
  destruct (lookup_lt_is_Some_2 states i ltac:(lia)) as [s ->]. reflexivity.
Qed.

Lemma checkboxesDocument_visible (page : Page) (states : list bool) :
  Forall (fun k => isVisibleAt (Fixtures.checkboxesDocument states) k = true)
         (query (Fixtures.checkboxesDocument states)
                (CheckboxesPage.checkboxes (CheckboxesPage.constructor page))).
Proof.
  rewrite checkboxesDocument_query. apply List.Forall_forall.
  intros k Hk. apply in_seq in Hk. destruct k as [|i]; [lia|].
  unfold isVisibleAt. rewrite checkboxesDocument_lookup.
  destruct (lookup_lt_is_Some_2 states i ltac:(lia)) as [s ->]. reflexivity.
Qed.

(** The states read off the reference page are the vector it was built
    from. *)
Lemma checkboxesDocument_states (page : Page) (states : list bool) :
  map (isCheckedAt (Fixtures.checkboxesDocument states))
      (query (Fixtures.checkboxesDocument states)
             (CheckboxesPage.checkboxes (CheckboxesPage.constructor page)))
  = states.
Proof.
  rewrite checkboxesDocument_query, <- seq_shift, List.map_map.
  transitivity (map (fun s : bool => s) states); [|apply List.map_id].
  rewrite <- (map_lookup_seq (fun s : bool => s) false states).
  apply List.map_ext. intros i. unfold isCheckedAt.
  rewrite checkboxesDocument_lookup. destruct (states !! i); reflexivity.
Qed.

Lemma filter_eqb_seq (index n a : nat) :
  a <= index < a + n ->
  List.filter (fun k => Nat.eqb k index) (seq a n) = [index].
Proof.
  revert a. induction n as [|n IH]; intros a H; [lia|].
  cbn [seq List.filter]. destruct (Nat.eqb_spec a index) as [->|Hne].
  - f_equal. apply filter_none. intros k Hk. apply in_seq in Hk.
    apply Nat.eqb_neq. lia.
  - apply IH. lia.
Qed.

(** On the reference page the checkbox inputs are the only children of
    the form, so the [i]-th input among its siblings is element [i]. *)
Lemma checkboxesDocument_typePosition (states : list bool) (i : nat) :
  i < length states ->
  Dom.typePosition (Fixtures.checkboxesDocument states) (S i) = S i.
Proof.
  intros L. unfold Dom.typePosition. f_equal.
  destruct (lookup_lt_is_Some_2 states i L) as [s Es].
  assert (F : List.filter
                (Dom.sameTypeSibling (Fixtures.checkboxesDocument states) (S i))
                (seq 0 (S i))
              = seq 1 i).
  { cbn [seq List.filter].
    assert (Z : Dom.sameTypeSibling (Fixtures.checkboxesDocument states) (S i) 0
                = false).
    { unfold Dom.sameTypeSibling. rewrite checkboxesDocument_lookup, Es.
      reflexivity. }
    rewrite Z. apply filter_all. intros j Hj. apply in_seq in Hj.
    destruct j as [|j']; [lia|]. unfold Dom.sameTypeSibling.
    rewrite !checkboxesDocument_lookup, Es.
    destruct (lookup_lt_is_Some_2 states j' ltac:(lia)) as [s' ->].
    reflexivity. }
  rewrite F. apply length_seq.
Qed.

(** On the reference page the index-based selector resolves to element
    [index], which is the [index]-th of the enumerated checkboxes. *)
Lemma checkboxesDocument_nth_query (page : Page) (states : list bool) (index : nat) :
  1 <= index <= length states ->
  query (Fixtures.checkboxesDocument states)
        (page_locator page (CheckboxesPage.nthCheckboxSelector index))
  = [index].
Proof.
  intros H. rewrite query_nthCheckboxSelector, checkboxesDocument_length.
  cbn [seq List.filter].
  replace (Dom.holds (Fixtures.checkboxesDocument states) _ 0) with false
    by reflexivity.
  rewrite <- (filter_eqb_seq index (length states) 1) by lia.
  apply List.filter_ext_in. intros k Hk. apply in_seq in Hk.
  destruct k as [|i]; [lia|]. unfold Dom.holds.
  rewrite checkboxesDocument_typePosition by lia.
  rewrite checkboxesDocument_lookup.
  destruct (lookup_lt_is_Some_2 states i ltac:(lia)) as [s ->]. reflexivity.
Qed.

End ReferencePageFacts.

(** What [checkAll] and [uncheckAll] do on any page whose checkboxes are
    actionable. *)
Lemma checkAll_uncheckAll_on_actionable :
  forall (this : CheckboxesPage.t) (b : Browser.t),
    let d := Browser.document b in
    let l := CheckboxesPage.checkboxes this in
    let ks := Playwright.query d l in
    Forall (fun k => Playwright.isVisibleAt d k = true) ks ->
    fst (CheckboxesPage.getCheckboxStates this b)
    = Playwright.Ok (map (Playwright.isCheckedAt d) ks)
    /\ (fst (CheckboxesPage.checkAll this b) = Playwright.Ok tt
        /\ (forall j,
              Browser.document (snd (CheckboxesPage.checkAll this b)) !! j
              = if existsb (Nat.eqb j) ks && negb (Playwright.isCheckedAt d j)
                then Dom.setChecked true <$> d !! j
                else d !! j)
        /\ (exists new,
              Browser.log (snd (CheckboxesPage.checkAll this b))
              = Browser.log b ++ new
              /\ new = Browser.Prim (Browser.P_all l)
                       :: concat (map (Checkboxes.roundCalls true d l)
                                      (seq 0 (length ks)))
              /\ Browser.actionsOf new
                 = map (fun i => Browser.A_check
                                   (ActionTypes.Loc (Playwright.locator_nth l i))
                                   ActionTypes.noCheckOptions)
                       (Checkboxes.positionsNot true d l))
        /\ fst (CheckboxesPage.getCheckboxStates this
                  (snd (CheckboxesPage.checkAll this b)))
           = Playwright.Ok (repeat true (length ks)))
    /\ (fst (CheckboxesPage.uncheckAll this b) = Playwright.Ok tt
        /\ (forall j,
              Browser.document (snd (CheckboxesPage.uncheckAll this b)) !! j
              = if existsb (Nat.eqb j) ks && Playwright.isCheckedAt d j
                then Dom.setChecked false <$> d !! j
                else d !! j)
        /\ (exists new,
              Browser.log (snd (CheckboxesPage.uncheckAll this b))
              = Browser.log b ++ new
              /\ new = Browser.Prim (Browser.P_all l)
                       :: concat (map (Checkboxes.roundCalls false d l)
                                      (seq 0 (length ks)))
              /\ Browser.actionsOf new
                 = map (fun i => Browser.A_uncheck
                                   (ActionTypes.Loc (Playwright.locator_nth l i)))
                       (Checkboxes.positionsNot false d l))
        /\ fst (CheckboxesPage.getCheckboxStates this
                  (snd (CheckboxesPage.uncheckAll this b)))
           = Playwright.Ok (repeat false (length ks))).
Proof.
  intros this b d l ks F.
  split; [rewrite getCheckboxStates_run; reflexivity|].
  split.
  - rewrite (checkAll_run this b F). fold d l ks. cbn [fst snd].
    split; [reflexivity|]. split; [|split].
    + intros j. cbn [Browser.document Browser.moved].
      rewrite lookup_setAll_changed.
      destruct (Playwright.isCheckedAt d j); reflexivity.
    + eexists. split; [reflexivity|]. split; [reflexivity|].
      cbn [Browser.actionsOf]. rewrite actionsOf_rounds. reflexivity.
    + rewrite getCheckboxStates_run. cbn zeta.
      cbn [fst Browser.document Browser.moved]. fold l.
      rewrite query_setAll. f_equal. apply states_after_setAll.
  - rewrite (uncheckAll_run this b F). fold d l ks. cbn [fst snd].
    split; [reflexivity|]. split; [|split].
    + intros j. cbn [Browser.document Browser.moved].
      rewrite lookup_setAll_changed.
      destruct (Playwright.isCheckedAt d j); reflexivity.
    + eexists. split; [reflexivity|]. split; [reflexivity|].
      cbn [Browser.actionsOf]. rewrite actionsOf_rounds. reflexivity.
    + rewrite getCheckboxStates_run. cbn zeta.
      cbn [fst Browser.document Browser.moved]. fold l.
      rewrite query_setAll. f_equal. apply states_after_setAll.
Qed.

(** C2.  On a page whose checkboxes are actionable, whatever their states
    (the sequence [getCheckboxStates] returns): [checkAll] returns
    normally; it changes the document at exactly the checkboxes that were
    unchecked, setting them checked, and nowhere else; its wrapper calls
    are one [check] per checkbox that was unchecked, in order, and none for
    a checkbox that was checked (of such a checkbox the log shows the read
    of its state and nothing else); and [getCheckboxStates] then returns
    [true] at every position.  Likewise [uncheckAll], with one [uncheck]
    per checkbox that was checked and [false] at every position
    afterwards.  Every vector of states is the starting vector of such a
    page: the checkboxes page built from it. *)
Theorem checkAll_uncheckAll_flip_exactly_the_others :
  (forall (this : CheckboxesPage.t) (b : Browser.t),
      let d := Browser.document b in
      let l := CheckboxesPage.checkboxes this in
      let ks := Playwright.query d l in
      Forall (fun k => Playwright.isVisibleAt d k = true) ks ->
      fst (CheckboxesPage.getCheckboxStates this b)
      = Playwright.Ok (map (Playwright.isCheckedAt d) ks)
      /\ (fst (CheckboxesPage.checkAll this b) = Playwright.Ok tt
          /\ (forall j,
                Browser.document (snd (CheckboxesPage.checkAll this b)) !! j
                = if existsb (Nat.eqb j) ks && negb (Playwright.isCheckedAt d j)
                  then Dom.setChecked true <$> d !! j
                  else d !! j)
          /\ (exists new,
                Browser.log (snd (CheckboxesPage.checkAll this b))
                = Browser.log b ++ new
                /\ new = Browser.Prim (Browser.P_all l)
                         :: concat (map (Checkboxes.roundCalls true d l)
                                        (seq 0 (length ks)))
                /\ Browser.actionsOf new
                   = map (fun i => Browser.A_check
                                     (ActionTypes.Loc (Playwright.locator_nth l i))
                                     ActionTypes.noCheckOptions)
                         (Checkboxes.positionsNot true d l))
          /\ fst (CheckboxesPage.getCheckboxStates this
                    (snd (CheckboxesPage.checkAll this b)))
             = Playwright.Ok (repeat true (length ks)))
      /\ (fst (CheckboxesPage.uncheckAll this b) = Playwright.Ok tt
          /\ (forall j,
                Browser.document (snd (CheckboxesPage.uncheckAll this b)) !! j
                = if existsb (Nat.eqb j) ks && Playwright.isCheckedAt d j
                  then Dom.setChecked false <$> d !! j
                  else d !! j)
          /\ (exists new,
                Browser.log (snd (CheckboxesPage.uncheckAll this b))
                = Browser.log b ++ new
                /\ new = Browser.Prim (Browser.P_all l)
                         :: concat (map (Checkboxes.roundCalls false d l)
                                        (seq 0 (length ks)))
                /\ Browser.actionsOf new
                   = map (fun i => Browser.A_uncheck
                                     (ActionTypes.Loc (Playwright.locator_nth l i)))
                         (Checkboxes.positionsNot false d l))
          /\ fst (CheckboxesPage.getCheckboxStates this
                    (snd (CheckboxesPage.uncheckAll this b)))
             = Playwright.Ok (repeat false (length ks))))
  /\ (forall (page : Playwright.Page) (states : list bool),
        let this := CheckboxesPage.constructor page in
        let b := Fixtures.browser (Fixtures.checkboxesDocument states) in
        fst (CheckboxesPage.getCheckboxStates this b) = Playwright.Ok states
        /\ fst (CheckboxesPage.checkAll this b) = Playwright.Ok tt
        /\ fst (CheckboxesPage.getCheckboxStates this
                  (snd (CheckboxesPage.checkAll this b)))
           = Playwright.Ok (repeat true (length states))
        /\ fst (CheckboxesPage.uncheckAll this b) = Playwright.Ok tt
        /\ fst (CheckboxesPage.getCheckboxStates this
                  (snd (CheckboxesPage.uncheckAll this b)))
           = Playwright.Ok (repeat false (length states))).
Proof.
  split; [exact checkAll_uncheckAll_on_actionable|].
  intros page states this b.
  destruct (checkAll_uncheckAll_on_actionable this b
              (checkboxesDocument_visible page states))
    as (G & (C1 & _ & _ & C2) & (U1 & _ & _ & U2)).
  cbn [Browser.document Fixtures.browser b] in G, C2, U2.
  unfold this in G, C2, U2.
  rewrite checkboxesDocument_states in G.
  rewrite checkboxesDocument_query, length_seq in C2, U2.
  repeat split; assumption.
Qed.

Lemma checkAll_uncheckAll_flip_exactly_the_others_witness :
  Forall (fun k =>
            Playwright.isVisibleAt (Fixtures.checkboxesDocument [false; true]) k
            = true)
         (Playwright.query (Fixtures.checkboxesDocument [false; true])
            (CheckboxesPage.checkboxes (CheckboxesPage.constructor 0)))
  /\ fst (CheckboxesPage.getCheckboxStates (CheckboxesPage.constructor 0)
            (snd (CheckboxesPage.checkAll (CheckboxesPage.constructor 0)
                    (Fixtures.browser (Fixtures.checkboxesDocument [false; true])))))
     = Playwright.Ok [true; true]
  /\ fst (CheckboxesPage.getCheckboxStates (CheckboxesPage.constructor 0)
            (snd (CheckboxesPage.uncheckAll (CheckboxesPage.constructor 0)
                    (Fixtures.browser (Fixtures.checkboxesDocument [false; true])))))
     = Playwright.Ok [false; false].
Proof.
  assert (F : Forall (fun k =>
            Playwright.isVisibleAt (Fixtures.checkboxesDocument [false; true]) k
            = true)
         (Playwright.query (Fixtures.checkboxesDocument [false; true])
            (CheckboxesPage.checkboxes (CheckboxesPage.constructor 0)))).
  { vm_compute. repeat constructor. }
  split; [exact F|].
  destruct (proj1 checkAll_uncheckAll_flip_exactly_the_others
              (CheckboxesPage.constructor 0)
              (Fixtures.browser (Fixtures.checkboxesDocument [false; true])) F)
    as (_ & (_ & _ & _ & C) & (_ & _ & _ & U)).
  split; [exact C|exact U].
Defined.

(** ** Toggling *)

Section ToggleFacts.
Import Playwright ActionTypes Browser.

Lemma toggleCheckbox_run (this : CheckboxesPage.t) (index : nat) b :
  let target := Selector (CheckboxesPage.nthCheckboxSelector index) in
  let locator := CommonActions._getLocator (CheckboxesPage.actions this) target in
  CheckboxesPage.toggleCheckbox this index b
  = match resolve (document b) locator with
    | Err e =>
        (Err e, logged b [Action (A_isChecked target noCheckOptions);
                          Prim (P_waitFor locator Attached 10000%Z)])
    | Ok k =>
        let c := isCheckedAt (document b) k in
        if isVisibleAt (document b) k
        then (Ok tt, moved b (alter (Dom.setChecked (negb c)) k (document b))
                           (Checkboxes.toggleCalls target locator c))
        else (Err TimeoutError, logged b (Checkboxes.toggleCalls target locator c))
    end.
Proof.
  intros target locator. unfold CheckboxesPage.toggleCheckbox.
  fold target. unfold bind. rewrite CommonActions_isChecked_run. cbn zeta.
  cbn [default check_timeout noCheckOptions]. fold locator.
  destruct (resolve (document b) locator) as [k|e] eqn:R; [|reflexivity].
  destruct (isCheckedAt (document b) k) eqn:C.
  - rewrite CommonActions_uncheck_run. cbn zeta. fold locator.
    rewrite setChecked_run. cbn [document logged]. rewrite R, C.
    cbn [Bool.eqb negb].
    destruct (isVisibleAt (document b) k).
    + rewrite logged_logged, moved_logged, app_nil_r. reflexivity.
    + rewrite logged_logged. reflexivity.
  - rewrite CommonActions_check_run. cbn zeta.
    cbn [default check_timeout noCheckOptions]. fold locator.
    rewrite setChecked_run. cbn [document logged]. rewrite R, C.
    cbn [Bool.eqb negb].
    destruct (isVisibleAt (document b) k).
    + rewrite logged_logged, moved_logged, app_nil_r. reflexivity.
    + rewrite logged_logged. reflexivity.
Qed.

End ToggleFacts.

(** Two toggles in succession, on any page. *)
Lemma toggleCheckbox_twice_on_any_page :
  forall (this : CheckboxesPage.t) (index : nat) (b : Browser.t),
    let d := Browser.document b in
    let target := ActionTypes.Selector (CheckboxesPage.nthCheckboxSelector index) in
    let locator :=
      Playwright.page_locator (CommonActions.page (CheckboxesPage.actions this))
                              (CheckboxesPage.nthCheckboxSelector index) in
    let b1 := snd (CheckboxesPage.toggleCheckbox this index b) in
    let b2 := snd (CheckboxesPage.toggleCheckbox this index b1) in
    Browser.document
      (snd ((CheckboxesPage.toggleCheckbox this index ;;
             CheckboxesPage.toggleCheckbox this index) b)) = d
    /\ forall k,
        Playwright.resolve d locator = Playwright.Ok k ->
        Playwright.isVisibleAt d k = true ->
        fst (CheckboxesPage.toggleCheckbox this index b) = Playwright.Ok tt
        /\ Browser.log b1
           = Browser.log b
             ++ Checkboxes.toggleCalls target locator (Playwright.isCheckedAt d k)
        /\ Playwright.isCheckedAt (Browser.document b1) k
           = negb (Playwright.isCheckedAt d k)
        /\ fst (CheckboxesPage.toggleCheckbox this index b1) = Playwright.Ok tt
        /\ Browser.log b2
           = Browser.log b1
             ++ Checkboxes.toggleCalls target locator
                  (negb (Playwright.isCheckedAt d k))
        /\ Playwright.isCheckedAt (Browser.document b2) k
           = Playwright.isCheckedAt d k
        /\ Browser.document b2 = d.
Proof.
  intros this index b d target locator b1 b2.
  assert (Step : forall k,
             Playwright.resolve d locator = Playwright.Ok k ->
             Playwright.isVisibleAt d k = true ->
             CheckboxesPage.toggleCheckbox this index b
             = (Playwright.Ok tt,
                Browser.moved b
                  (alter (Dom.setChecked (negb (Playwright.isCheckedAt d k))) k d)
                  (Checkboxes.toggleCalls target locator (Playwright.isCheckedAt d k)))
             /\ CheckboxesPage.toggleCheckbox this index
                  (Browser.moved b
                     (alter (Dom.setChecked (negb (Playwright.isCheckedAt d k))) k d)
                     (Checkboxes.toggleCalls target locator
                        (Playwright.isCheckedAt d k)))
                = (Playwright.Ok tt,
                   Browser.moved b d
                     (Checkboxes.toggleCalls target locator
                        (Playwright.isCheckedAt d k)
                      ++ Checkboxes.toggleCalls target locator
                           (negb (Playwright.isCheckedAt d k))))).
  { intros k R V. pose proof (resolve_bound d locator k R) as L.
    split.
    - rewrite toggleCheckbox_run. cbn zeta. cbn [CommonActions._getLocator].
      fold target locator d. rewrite R, V. reflexivity.
    - rewrite toggleCheckbox_run. cbn zeta. cbn [CommonActions._getLocator].
      fold target locator.
      cbn [Browser.document Browser.moved].
      rewrite resolve_alter, R, isVisibleAt_alter, V.
      rewrite isCheckedAt_alter_eq by exact L.
      rewrite alter_setChecked_twice, negb_involutive.
      rewrite (alter_setChecked_same d k (Playwright.isCheckedAt d k) eq_refl L).
      unfold Browser.moved. cbn [Browser.log Browser.onClick].
      rewrite <- app_assoc. reflexivity. }
  split.
  - unfold Browser.bind.
    rewrite (toggleCheckbox_run this index b). cbn zeta.
    cbn [CommonActions._getLocator]. fold target locator d.
    destruct (Playwright.resolve d locator) as [k|e] eqn:R; [|reflexivity].
    destruct (Playwright.isVisibleAt d k) eqn:V; [|reflexivity].
    destruct (Step k eq_refl V) as [_ S2]. rewrite S2. reflexivity.
  - intros k R V. destruct (Step k R V) as [S1 S2].
    unfold b2, b1. rewrite S1. cbn [fst snd]. rewrite S2. cbn [fst snd].
    cbn [Browser.document Browser.log Browser.moved].
    pose proof (resolve_bound d locator k R) as L.
    rewrite isCheckedAt_alter_eq by exact L.
    repeat split; try reflexivity. rewrite <- app_assoc. reflexivity.
Qed.

(** C5.  For every index and every page, two calls of [toggleCheckbox] in
    succession leave the document, and so the state of every checkbox, as
    it was.  When the selector of the index resolves to an actionable
    checkbox, each of the two calls returns normally; a call reads the
    state through the wrapper and then writes the opposite state through
    the wrapper, so that the checkbox is in the opposite state between the
    calls and in its original state after them.  On the checkboxes page
    this is so for every vector of starting states and every index from 1
    to the number of checkboxes. *)
Theorem toggleCheckbox_twice_restores_state :
  (forall (this : CheckboxesPage.t) (index : nat) (b : Browser.t),
      let d := Browser.document b in
      let target := ActionTypes.Selector (CheckboxesPage.nthCheckboxSelector index) in
      let locator :=
        Playwright.page_locator (CommonActions.page (CheckboxesPage.actions this))
                                (CheckboxesPage.nthCheckboxSelector index) in
      let b1 := snd (CheckboxesPage.toggleCheckbox this index b) in
      let b2 := snd (CheckboxesPage.toggleCheckbox this index b1) in
      Browser.document
        (snd ((CheckboxesPage.toggleCheckbox this index ;;
               CheckboxesPage.toggleCheckbox this index) b)) = d
      /\ forall k,
          Playwright.resolve d locator = Playwright.Ok k ->
          Playwright.isVisibleAt d k = true ->
          fst (CheckboxesPage.toggleCheckbox this index b) = Playwright.Ok tt
          /\ Browser.log b1
             = Browser.log b
               ++ Checkboxes.toggleCalls target locator (Playwright.isCheckedAt d k)
          /\ Playwright.isCheckedAt (Browser.document b1) k
             = negb (Playwright.isCheckedAt d k)
          /\ fst (CheckboxesPage.toggleCheckbox this index b1) = Playwright.Ok tt
          /\ Browser.log b2
             = Browser.log b1
               ++ Checkboxes.toggleCalls target locator
                    (negb (Playwright.isCheckedAt d k))
          /\ Playwright.isCheckedAt (Browser.document b2) k
             = Playwright.isCheckedAt d k
          /\ Browser.document b2 = d)
  /\ (forall (page : Playwright.Page) (states : list bool) (index : nat),
        1 <= index <= length states ->
        let this := CheckboxesPage.constructor page in
        let b := Fixtures.browser (Fixtures.checkboxesDocument states) in
        let b1 := snd (CheckboxesPage.toggleCheckbox this index b) in
        let b2 := snd (CheckboxesPage.toggleCheckbox this index b1) in
        fst (CheckboxesPage.getCheckboxStates this b) = Playwright.Ok states
        /\ fst (CheckboxesPage.toggleCheckbox this index b) = Playwright.Ok tt
        /\ Playwright.isCheckedAt (Browser.document b1) index
           = negb (Playwright.isCheckedAt (Fixtures.checkboxesDocument states) index)
        /\ fst (CheckboxesPage.toggleCheckbox this index b1) = Playwright.Ok tt
        /\ fst (CheckboxesPage.getCheckboxStates this b2) = Playwright.Ok states).
Proof.
  split; [exact toggleCheckbox_twice_on_any_page|].
  intros page states index H this b b1 b2.
  assert (R : Playwright.resolve (Fixtures.checkboxesDocument states)
                (Playwright.page_locator page
                   (CheckboxesPage.nthCheckboxSelector index))
              = Playwright.Ok index).
  { unfold Playwright.resolve. rewrite checkboxesDocument_nth_query by exact H.
    reflexivity. }
  assert (V : Playwright.isVisibleAt (Fixtures.checkboxesDocument states) index
              = true).
  { destruct index as [|i]; [lia|]. unfold Playwright.isVisibleAt.
    rewrite checkboxesDocument_lookup.
    destruct (lookup_lt_is_Some_2 states i ltac:(lia)) as [s ->]. reflexivity. }
  destruct (proj2 (toggleCheckbox_twice_on_any_page this index b) index R V)
    as (T1 & _ & C1 & T2 & _ & _ & D2).
  assert (G : forall b' : Browser.t,
             Browser.document b' = Fixtures.checkboxesDocument states ->
             fst (CheckboxesPage.getCheckboxStates this b') = Playwright.Ok states).
  { intros b' E. rewrite getCheckboxStates_run. cbn zeta. cbn [fst].
    rewrite E. unfold this. rewrite checkboxesDocument_states. reflexivity. }
  split; [apply G; reflexivity|].
  split; [exact T1|]. split; [exact C1|]. split; [exact T2|].
  apply G. exact D2.
Qed.

Lemma toggleCheckbox_twice_restores_state_witness :
  Playwright.resolve (Fixtures.checkboxesDocument [false; true])
    (Playwright.page_locator 0 (CheckboxesPage.nthCheckboxSelector 2))
  = Playwright.Ok 2
  /\ Playwright.isVisibleAt (Fixtures.checkboxesDocument [false; true]) 2 = true
  /\ fst (CheckboxesPage.getCheckboxStates (CheckboxesPage.constructor 0)
            (snd (CheckboxesPage.toggleCheckbox (CheckboxesPage.constructor 0) 2
                    (Fixtures.browser (Fixtures.checkboxesDocument [false; true])))))
     = Playwright.Ok [false; false]
  /\ Browser.document
       (snd (CheckboxesPage.toggleCheckbox (CheckboxesPage.constructor 0) 2
               (snd (CheckboxesPage.toggleCheckbox (CheckboxesPage.constructor 0) 2
                       (Fixtures.browser
                          (Fixtures.checkboxesDocument [false; true]))))))
     = Fixtures.checkboxesDocument [false; true].
Proof.
  split; [vm_compute; reflexivity|]. split; [reflexivity|].
  split; [vm_compute; reflexivity|].
  apply (proj2 (proj1 toggleCheckbox_twice_restores_state
                  (CheckboxesPage.constructor 0) 2
                  (Fixtures.browser (Fixtures.checkboxesDocument [false; true])))
               2 ltac:(vm_compute; reflexivity) eq_refl).
Defined.


(** ** Which locators the calls are made on *)

Section TargetFacts.
Import Playwright ActionTypes Browser.

Lemma forOf_log {A} (Q : PrimCall -> Prop) (xs : list A)
      (body : A -> Async unit) :
  (forall x b, In x xs ->
     exists new, log (snd (body x b)) = log b ++ new /\ Forall Q (primsOf new)) ->
  forall b,
    exists new, log (snd (LocatorApi.forOf xs body b)) = log b ++ new
                /\ Forall Q (primsOf new).
Proof.
  induction xs as [|x xs IH]; intros H b.
  - exists []. split; [simpl; rewrite app_nil_r; reflexivity|constructor].
  - cbn [LocatorApi.forOf]. unfold bind.
    destruct (H x b (or_introl eq_refl)) as (new1 & L1 & Q1).
    destruct (body x b) as [[[]|e] b1] eqn:E; cbn [snd] in L1.
    + destruct (IH (fun x' b' Hx => H x' b' (or_intror Hx)) b1)
        as (new2 & L2 & Q2).
      exists (new1 ++ new2). split.
      * rewrite L2, L1, app_assoc. reflexivity.
      * rewrite primsOf_app. apply Forall_app. split; assumption.
    + exists new1. split; [exact L1|exact Q1].
Qed.

Lemma checkAll_body_log (this : CheckboxesPage.t) (checkbox : Locator) b :
  exists new,
    log (snd ((isChecked <- LocatorApi.isChecked checkbox ;;
               if negb isChecked
               then CommonActions.check (CheckboxesPage.actions this)
                                        (Loc checkbox) noCheckOptions
               else ret tt) b))
    = log b ++ new
    /\ Forall (fun p => primTarget p = checkbox) (primsOf new).
Proof.
  unfold bind at 1. rewrite isChecked_run.
  destruct (resolve (document b) checkbox) as [k|e].
  - destruct (isCheckedAt (document b) k); cbn [negb].
    + eexists. split; [reflexivity|]. repeat constructor.
    + rewrite CommonActions_check_run. cbn zeta. rewrite setChecked_log.
      cbn [CommonActions._getLocator log logged]. rewrite <- app_assoc.
      eexists. split; [reflexivity|]. repeat constructor.
  - eexists. split; [reflexivity|]. repeat constructor.
Qed.

Lemma uncheckAll_body_log (this : CheckboxesPage.t) (checkbox : Locator) b :
  exists new,
    log (snd ((isChecked <- LocatorApi.isChecked checkbox ;;
               if isChecked : bool
               then CommonActions.uncheck (CheckboxesPage.actions this)
                                          (Loc checkbox)
               else ret tt) b))
    = log b ++ new
    /\ Forall (fun p => primTarget p = checkbox) (primsOf new).
Proof.
  unfold bind at 1. rewrite isChecked_run.
  destruct (resolve (document b) checkbox) as [k|e].
  - destruct (isCheckedAt (document b) k).
    + rewrite CommonActions_uncheck_run. cbn zeta. rewrite setChecked_log.
      cbn [CommonActions._getLocator log logged]. rewrite <- app_assoc.
      eexists. split; [reflexivity|]. repeat constructor.
    + eexists. split; [reflexivity|]. repeat constructor.
  - eexists. split; [reflexivity|]. repeat constructor.
Qed.

(** A loop over the [nth] locators of [l] whose body calls primitives on
    its argument only makes all its calls on [l] or its [nth] locators. *)
Lemma enumerate_log (l : Locator) (body : Locator -> Async unit) b :
  (forall checkbox b',
      exists new, log (snd (body checkbox b')) = log b' ++ new
                  /\ Forall (fun p => primTarget p = checkbox) (primsOf new)) ->
  exists new,
    log (snd ((allCheckboxes <- LocatorApi.all l ;;
               LocatorApi.forOf allCheckboxes body) b))
    = log b ++ new
    /\ Forall (Checkboxes.onScoped l) (primsOf new).
Proof.
  intros H. unfold bind at 1. rewrite all_run.
  destruct (forOf_log (Checkboxes.onScoped l)
              (map (locator_nth l) (seq 0 (length (query (document b) l))))
              body) with (b := logged b [Prim (P_all l)]) as (new & L & Q).
  { intros x b' Hx. apply in_map_iff in Hx. destruct Hx as (j & <- & _).
    destruct (H (locator_nth l j) b') as (new & L & Q).
    exists new. split; [exact L|].
    eapply Forall_impl; [exact Q|]. intros p Hp. right. exists j. exact Hp. }
  exists (Prim (P_all l) :: new). split.
  - rewrite L. cbn [log logged]. rewrite <- app_assoc. reflexivity.
  - cbn [primsOf]. constructor; [left; reflexivity|exact Q].
Qed.

Lemma getCheckboxStates_log (this : CheckboxesPage.t) b :
  exists new,
    log (snd (CheckboxesPage.getCheckboxStates this b)) = log b ++ new
    /\ Forall (Checkboxes.onScoped (CheckboxesPage.checkboxes this)) (primsOf new).
Proof.
  rewrite getCheckboxStates_run. cbn zeta. eexists. split; [reflexivity|].
  cbn [primsOf]. constructor; [left; reflexivity|].
  induction (seq 0 _) as [|j js IH]; [constructor|].
  cbn [map primsOf]. constructor; [right; exists j; reflexivity|exact IH].
Qed.

End TargetFacts.

Section IndexOperations.
Import Playwright ActionTypes Browser.

Variable this : CheckboxesPage.t.
Variable index : nat.
Variable b : Browser.t.

Let target := Selector (CheckboxesPage.nthCheckboxSelector index).
Let locator :=
  page_locator (CommonActions.page (CheckboxesPage.actions this))
               (CheckboxesPage.nthCheckboxSelector index).

Lemma checkCheckbox_run :
  let calls := [Action (A_check target noCheckOptions);
                Prim (P_check locator (Some 10000%Z))] in
  CheckboxesPage.checkCheckbox this index b
  = match resolve (document b) locator with
    | Err e => (Err e, logged b calls)
    | Ok k =>
        if isCheckedAt (document b) k then (Ok tt, logged b calls)
        else if isVisibleAt (document b) k
             then (Ok tt, moved b (alter (Dom.setChecked true) k (document b)) calls)
             else (Err TimeoutError, logged b calls)
    end.
Proof.
  intros calls. unfold CheckboxesPage.checkCheckbox.
  rewrite CommonActions_check_run. cbn zeta.
  cbn [CommonActions._getLocator default check_timeout noCheckOptions].
  fold target locator calls.
  rewrite setChecked_run. cbn [document logged].
  destruct (resolve (document b) locator) as [k|e]; [|reflexivity].
  destruct (isCheckedAt (document b) k); cbn [Bool.eqb]; [reflexivity|].
  destruct (isVisibleAt (document b) k); [|reflexivity].
  rewrite moved_logged, app_nil_r. reflexivity.
Qed.

Lemma uncheckCheckbox_run :
  let calls := [Action (A_uncheck target); Prim (P_uncheck locator None)] in
  CheckboxesPage.uncheckCheckbox this index b
  = match resolve (document b) locator with
    | Err e => (Err e, logged b calls)
    | Ok k =>
        if isCheckedAt (document b) k
        then if isVisibleAt (document b) k
             then (Ok tt, moved b (alter (Dom.setChecked false) k (document b)) calls)
             else (Err TimeoutError, logged b calls)
        else (Ok tt, logged b calls)
    end.
Proof.
  intros calls. unfold CheckboxesPage.uncheckCheckbox.
  rewrite CommonActions_uncheck_run. cbn zeta.
  cbn [CommonActions._getLocator].
  fold target locator calls.
  rewrite setChecked_run. cbn [document logged].
  destruct (resolve (document b) locator) as [k|e]; [|reflexivity].
  destruct (isCheckedAt (document b) k); cbn [Bool.eqb]; [|reflexivity].
  destruct (isVisibleAt (document b) k); [|reflexivity].
  rewrite moved_logged, app_nil_r. reflexivity.
Qed.

Lemma validateCheckboxState_run (expectedState : bool) :
  let entered := Action (A_isChecked target noCheckOptions) in
  let waited := Prim (P_waitFor locator Attached 10000%Z) in
  CheckboxesPage.validateCheckboxState this index expectedState b
  = match resolve (document b) locator with
    | Err e => (Err e, logged b [entered; waited])
    | Ok k =>
        (if Bool.eqb (isCheckedAt (document b) k) expectedState
         then Ok tt else Err AssertionError,
         logged b [entered; waited; Prim (P_isChecked locator)])
    end.
Proof.
  intros entered waited.
  unfold CheckboxesPage.validateCheckboxState, bind.
  rewrite CommonActions_isChecked_run. cbn zeta.
  cbn [CommonActions._getLocator default check_timeout noCheckOptions].
  fold target locator entered waited.
  destruct (resolve (document b) locator) as [k|e]; [|reflexivity].
  unfold LocatorApi.expectToBe.
  destruct (Bool.eqb (isCheckedAt (document b) k) expectedState); reflexivity.
Qed.

End IndexOperations.

(** C9.  The index-based operations [checkCheckbox], [uncheckCheckbox],
    [toggleCheckbox] and [validateCheckboxState] resolve the page locator
    of the selector string [input[type="checkbox"]:nth-of-type(index)],
    which is matched against the whole document, and act on the element it
    resolves to: each of them fails with the error of that resolution and
    otherwise reads, sets or compares the checked state of that element and
    of no other; every primitive call they make is on that locator.
    [checkAll], [uncheckAll] and [getCheckboxStates] make every primitive
    call on the locator scoped inside [#checkboxes] or on one of its [nth]
    locators, and [getCheckboxStates] reports the states of the matches of
    that scoped locator.  So the two need not agree: with a checkbox
    outside the container, the four operations at index 1 check, validate,
    toggle and uncheck that outside checkbox while the sequence
    [getCheckboxStates] reports stays what it was; with a text input before
    the checkboxes of the container, the operations at index 2 act on the
    element at position 1 of the reported sequence and at index 1 they find
    no element at all. *)
Theorem index_operations_and_enumeration_resolve_differently :
  (forall (this : CheckboxesPage.t) (index : nat) (expectedState : bool)
          (b : Browser.t),
      let d := Browser.document b in
      let target := ActionTypes.Selector (CheckboxesPage.nthCheckboxSelector index) in
      let locator :=
        Playwright.page_locator
          (CommonActions.page (CheckboxesPage.actions this))
          (CheckboxesPage.nthCheckboxSelector index) in
      let checkCalls :=
        [Browser.Action (Browser.A_check target ActionTypes.noCheckOptions);
         Browser.Prim (Browser.P_check locator (Some 10000%Z))] in
      let uncheckCalls :=
        [Browser.Action (Browser.A_uncheck target);
         Browser.Prim (Browser.P_uncheck locator None)] in
      let readCalls :=
        [Browser.Action (Browser.A_isChecked target ActionTypes.noCheckOptions);
         Browser.Prim (Browser.P_waitFor locator Playwright.Attached 10000%Z)] in
      CheckboxesPage.checkCheckbox this index b
      = match Playwright.resolve d locator with
        | Playwright.Err e => (Playwright.Err e, Browser.logged b checkCalls)
        | Playwright.Ok k =>
            if Playwright.isCheckedAt d k
            then (Playwright.Ok tt, Browser.logged b checkCalls)
            else if Playwright.isVisibleAt d k
                 then (Playwright.Ok tt,
                       Browser.moved b (alter (Dom.setChecked true) k d) checkCalls)
                 else (Playwright.Err Playwright.TimeoutError,
                       Browser.logged b checkCalls)
        end
      /\ CheckboxesPage.uncheckCheckbox this index b
         = match Playwright.resolve d locator with
           | Playwright.Err e => (Playwright.Err e, Browser.logged b uncheckCalls)
           | Playwright.Ok k =>
               if Playwright.isCheckedAt d k
               then if Playwright.isVisibleAt d k
                    then (Playwright.Ok tt,
                          Browser.moved b (alter (Dom.setChecked false) k d)
                                        uncheckCalls)
                    else (Playwright.Err Playwright.TimeoutError,
                          Browser.logged b uncheckCalls)
               else (Playwright.Ok tt, Browser.logged b uncheckCalls)
           end
      /\ CheckboxesPage.toggleCheckbox this index b
         = match Playwright.resolve d locator with
           | Playwright.Err e => (Playwright.Err e, Browser.logged b readCalls)
           | Playwright.Ok k =>
               let c := Playwright.isCheckedAt d k in
               if Playwright.isVisibleAt d k
               then (Playwright.Ok tt,
                     Browser.moved b (alter (Dom.setChecked (negb c)) k d)
                                   (Checkboxes.toggleCalls target locator c))
               else (Playwright.Err Playwright.TimeoutError,
                     Browser.logged b (Checkboxes.toggleCalls target locator c))
           end
      /\ CheckboxesPage.validateCheckboxState this index expectedState b
         = match Playwright.resolve d locator with
           | Playwright.Err e => (Playwright.Err e, Browser.logged b readCalls)
           | Playwright.Ok k =>
               (if Bool.eqb (Playwright.isCheckedAt d k) expectedState
                then Playwright.Ok tt
                else Playwright.Err Playwright.AssertionError,
                Browser.logged b
                  (readCalls ++ [Browser.Prim (Browser.P_isChecked locator)]))
           end
      /\ fst (CheckboxesPage.getCheckboxStates this b)
         = Playwright.Ok
             (map (Playwright.isCheckedAt d)
                  (Playwright.query d (CheckboxesPage.checkboxes this))))
  /\ (forall (this : CheckboxesPage.t) (index : nat) (expectedState : bool)
             (b : Browser.t) (operation : Browser.Async unit),
         In operation [CheckboxesPage.checkCheckbox this index;
                       CheckboxesPage.uncheckCheckbox this index;
                       CheckboxesPage.toggleCheckbox this index;
                       CheckboxesPage.validateCheckboxState this index expectedState] ->
         exists new,
           Browser.log (snd (operation b)) = Browser.log b ++ new
           /\ Forall (fun p =>
                        Browser.primTarget p
                        = Playwright.page_locator
                            (CommonActions.page (CheckboxesPage.actions this))
                            (CheckboxesPage.nthCheckboxSelector index))
                     (Browser.primsOf new))
  /\ (forall (page : Playwright.Page) (index : nat) (d : Dom.Document),
         Playwright.query d
           (Playwright.page_locator page (CheckboxesPage.nthCheckboxSelector index))
         = List.filter
             (Dom.holds d (Dom.ByTagAttr "input" "type" "checkbox" (Some index)))
             (seq 0 (length d)))
  /\ (forall (this : CheckboxesPage.t) (b : Browser.t),
         (exists new,
             Browser.log (snd (CheckboxesPage.checkAll this b)) = Browser.log b ++ new
             /\ Forall (Checkboxes.onScoped (CheckboxesPage.checkboxes this))
                       (Browser.primsOf new))
         /\ (exists new,
                Browser.log (snd (CheckboxesPage.uncheckAll this b))
                = Browser.log b ++ new
                /\ Forall (Checkboxes.onScoped (CheckboxesPage.checkboxes this))
                          (Browser.primsOf new))
         /\ (exists new,
                Browser.log (snd (CheckboxesPage.getCheckboxStates this b))
                = Browser.log b ++ new
                /\ Forall (Checkboxes.onScoped (CheckboxesPage.checkboxes this))
                          (Browser.primsOf new)))
  /\ (forall page : Playwright.Page,
         CheckboxesPage.checkboxes (CheckboxesPage.constructor page)
         = Playwright.locator_locator (Playwright.page_locator page "#checkboxes")
                                      CheckboxesPage.checkboxSelector)
  /\ (let this := CheckboxesPage.constructor 0 in
      let b := Fixtures.browser Fixtures.strayCheckboxDocument in
      let b1 := snd (CheckboxesPage.checkCheckbox this 1 b) in
      let b2 := snd (CheckboxesPage.toggleCheckbox this 1 b1) in
      let b3 := snd (CheckboxesPage.toggleCheckbox this 1 b2) in
      let b4 := snd (CheckboxesPage.uncheckCheckbox this 1 b3) in
      let states s := fst (CheckboxesPage.getCheckboxStates this s) in
      let outside s := Playwright.isCheckedAt (Browser.document s) 1 in
      (states b = Playwright.Ok [false] /\ outside b = false)
      /\ (fst (CheckboxesPage.checkCheckbox this 1 b) = Playwright.Ok tt
          /\ states b1 = Playwright.Ok [false] /\ outside b1 = true)
      /\ (fst (CheckboxesPage.validateCheckboxState this 1 true b1)
          = Playwright.Ok tt
          /\ fst (CheckboxesPage.validateCheckboxState this 1 false b1)
             = Playwright.Err Playwright.AssertionError)
      /\ (fst (CheckboxesPage.toggleCheckbox this 1 b1) = Playwright.Ok tt
          /\ states b2 = Playwright.Ok [false] /\ outside b2 = false)
      /\ (fst (CheckboxesPage.toggleCheckbox this 1 b2) = Playwright.Ok tt
          /\ states b3 = Playwright.Ok [false] /\ outside b3 = true)
      /\ (fst (CheckboxesPage.uncheckCheckbox this 1 b3) = Playwright.Ok tt
          /\ states b4 = Playwright.Ok [false] /\ outside b4 = false))
  /\ (let this := CheckboxesPage.constructor 0 in
      let b := Fixtures.browser Fixtures.mixedInputsDocument in
      let b1 := snd (CheckboxesPage.checkCheckbox this 2 b) in
      let b2 := snd (CheckboxesPage.toggleCheckbox this 2 b1) in
      let b3 := snd (CheckboxesPage.toggleCheckbox this 2 b2) in
      let b4 := snd (CheckboxesPage.uncheckCheckbox this 2 b3) in
      let states s := fst (CheckboxesPage.getCheckboxStates this s) in
      states b = Playwright.Ok [false; false]
      /\ (fst (CheckboxesPage.checkCheckbox this 2 b) = Playwright.Ok tt
          /\ states b1 = Playwright.Ok [true; false])
      /\ (fst (CheckboxesPage.validateCheckboxState this 2 true b1)
          = Playwright.Ok tt)
      /\ (fst (CheckboxesPage.toggleCheckbox this 2 b1) = Playwright.Ok tt
          /\ states b2 = Playwright.Ok [false; false])
      /\ (fst (CheckboxesPage.toggleCheckbox this 2 b2) = Playwright.Ok tt
          /\ states b3 = Playwright.Ok [true; false])
      /\ (fst (CheckboxesPage.uncheckCheckbox this 2 b3) = Playwright.Ok tt
          /\ states b4 = Playwright.Ok [false; false])
      /\ (fst (CheckboxesPage.checkCheckbox this 1 b)
          = Playwright.Err Playwright.TimeoutError
          /\ fst (CheckboxesPage.uncheckCheckbox this 1 b)
             = Playwright.Err Playwright.TimeoutError
          /\ fst (CheckboxesPage.toggleCheckbox this 1 b)
             = Playwright.Err Playwright.TimeoutError
          /\ fst (CheckboxesPage.validateCheckboxState this 1 false b)
             = Playwright.Err Playwright.TimeoutError)).
Proof.
  split; [|split; [|split; [|split; [|split; [|split]]]]].
  - intros this index expectedState b d target locator
           checkCalls uncheckCalls readCalls.
    split; [apply checkCheckbox_run|].
    split; [apply uncheckCheckbox_run|].
    split; [apply toggleCheckbox_run|].
    split; [apply validateCheckboxState_run|].
    rewrite getCheckboxStates_run. reflexivity.
  - intros this index expectedState b operation H.
    set (target := ActionTypes.Selector (CheckboxesPage.nthCheckboxSelector index)).
    set (locator := Playwright.page_locator _ _).
    destruct H as [<-|[<-|[<-|[<-|[]]]]].
    + unfold CheckboxesPage.checkCheckbox. rewrite CommonActions_check_run.
      cbn zeta. rewrite setChecked_log. eexists. split; [reflexivity|].
      repeat constructor.
    + unfold CheckboxesPage.uncheckCheckbox. rewrite CommonActions_uncheck_run.
      cbn zeta. rewrite setChecked_log. eexists. split; [reflexivity|].
      repeat constructor.
    + rewrite toggleCheckbox_run. cbn zeta. cbn [CommonActions._getLocator].
      fold target locator.
      destruct (Playwright.resolve (Browser.document b) locator) as [k|e].
      * destruct (Playwright.isVisibleAt (Browser.document b) k);
          (eexists; split; [reflexivity|]);
          destruct (Playwright.isCheckedAt (Browser.document b) k);
          repeat constructor.
      * eexists. split; [reflexivity|]. repeat constructor.
    + unfold CheckboxesPage.validateCheckboxState, Browser.bind.
      rewrite CommonActions_isChecked_run. cbn zeta.
      cbn [CommonActions._getLocator]. fold target locator.
      destruct (Playwright.resolve (Browser.document b) locator) as [k|e].
      * unfold LocatorApi.expectToBe.
        destruct (Bool.eqb (Playwright.isCheckedAt (Browser.document b) k)
                           expectedState);
          (eexists; split; [reflexivity|]); repeat constructor.
      * eexists. split; [reflexivity|]. repeat constructor.
  - apply query_nthCheckboxSelector.
  - intros this b. split; [|split].
    + unfold CheckboxesPage.checkAll. apply enumerate_log.
      intros checkbox b'. apply checkAll_body_log.
    + unfold CheckboxesPage.uncheckAll. apply enumerate_log.
      intros checkbox b'. apply uncheckAll_body_log.
    + apply getCheckboxStates_log.
  - reflexivity.
  - vm_compute. repeat split; reflexivity.
  - vm_compute. repeat split; reflexivity.
Qed.

Lemma index_operations_and_enumeration_resolve_differently_witness :
  let this := CheckboxesPage.constructor 0 in
  let b := Fixtures.browser Fixtures.strayCheckboxDocument in
  let locator := Playwright.page_locator 0 (CheckboxesPage.nthCheckboxSelector 1) in
  let target := ActionTypes.Selector (CheckboxesPage.nthCheckboxSelector 1) in
  Playwright.resolve (Browser.document b) locator = Playwright.Ok 1
  /\ CheckboxesPage.toggleCheckbox this 1 b
     = (Playwright.Ok tt,
        Browser.moved b (alter (Dom.setChecked true) 1 (Browser.document b))
                      (Checkboxes.toggleCalls target locator false))
  /\ CheckboxesPage.uncheckCheckbox this 1 b
     = (Playwright.Ok tt,
        Browser.logged b [Browser.Action (Browser.A_uncheck target);
                          Browser.Prim (Browser.P_uncheck locator None)])
  /\ CheckboxesPage.validateCheckboxState this 1 true b
     = (Playwright.Err Playwright.AssertionError,
        Browser.logged b
          [Browser.Action (Browser.A_isChecked target ActionTypes.noCheckOptions);
           Browser.Prim (Browser.P_waitFor locator Playwright.Attached 10000%Z);
           Browser.Prim (Browser.P_isChecked locator)])
  /\ fst (CheckboxesPage.getCheckboxStates this b) = Playwright.Ok [false]
  /\ Playwright.query (Browser.document b) (CheckboxesPage.checkboxes this) = [4].
Proof.
  intros this b locator target.
  destruct (proj1 index_operations_and_enumeration_resolve_differently
                  this 1 true b) as (_ & Uncheck & Toggle & Validate & States).
  assert (R : Playwright.resolve (Browser.document b) locator = Playwright.Ok 1)
    by (vm_compute; reflexivity).
  assert (Q : Playwright.query (Browser.document b) (CheckboxesPage.checkboxes this)
              = [4]) by (vm_compute; reflexivity).
  cbn zeta in Uncheck, Toggle, Validate, States.
  change (Playwright.page_locator
            (CommonActions.page (CheckboxesPage.actions this))
            (CheckboxesPage.nthCheckboxSelector 1)) with locator
    in Uncheck, Toggle, Validate.
  rewrite R in Uncheck, Toggle, Validate. rewrite Q in States.
  split; [exact R|]. split; [exact Toggle|]. split; [exact Uncheck|].
  split; [exact Validate|]. split; [exact States|exact Q].
Defined.

(** ** The scenarios of the test suite, replayed *)

(** From two checkboxes in the states unchecked, checked:
    [checkCheckbox(1)], [uncheckCheckbox(2)], then [getCheckboxStates]. *)
Example scenario_check_first_uncheck_second :
  fst ((CheckboxesPage.checkCheckbox (CheckboxesPage.constructor 0) 1 ;;
        CheckboxesPage.uncheckCheckbox (CheckboxesPage.constructor 0) 2 ;;
        CheckboxesPage.getCheckboxStates (CheckboxesPage.constructor 0))
         (Fixtures.browser (Fixtures.checkboxesDocument [false; true])))
  = Playwright.Ok [true; false].
Proof. vm_compute. reflexivity. Qed.

(** Toggle the first checkbox and validate, twice. *)
Example scenario_toggle_and_validate :
  fst ((CheckboxesPage.toggleCheckbox (CheckboxesPage.constructor 0) 1 ;;
        CheckboxesPage.validateCheckboxState (CheckboxesPage.constructor 0) 1 true ;;
        CheckboxesPage.toggleCheckbox (CheckboxesPage.constructor 0) 1 ;;
        CheckboxesPage.validateCheckboxState (CheckboxesPage.constructor 0) 1 false)
         (Fixtures.browser (Fixtures.checkboxesDocument [false; true])))
  = Playwright.Ok tt.
Proof. vm_compute. reflexivity. Qed.

(** A wrong expectation is an assertion error. *)
Example scenario_validate_wrong_state :
  fst (CheckboxesPage.validateCheckboxState (CheckboxesPage.constructor 0) 2 false
         (Fixtures.browser (Fixtures.checkboxesDocument [false; true])))
  = Playwright.Err Playwright.AssertionError.
Proof. vm_compute. reflexivity. Qed.

(** The flash message of the login page, read and trimmed. *)
Example scenario_flash_message :
  fst (CommonActions.getText (CommonActions.constructor 0)
         (ActionTypes.Loc (LoginPage.errorMessage (LoginPage.constructor 0)))
         ActionTypes.noGetTextOptions
         (Fixtures.browser Fixtures.loginDocument))
  = Playwright.Ok (Js.Defined "Your password is invalid!").
Proof. vm_compute. reflexivity. Qed.

(** A manager built on an empty heap hands out one login page, however
    the calls are interleaved with those for the other kinds. *)
Example scenario_manager :
  let h0 := snd (PomManager.constructor 0 []) in
  let (first, h1) := PomManager.getLoginPage 0 h0 in
  let (other, h2) := PomManager.getSecurePage 0 h1 in
  let (again, h3) := PomManager.getLoginPage 0 h2 in
  first = Some 1 /\ other = Some 2 /\ again = Some 1 /\ length h3 = 3.
Proof. vm_compute. repeat split; reflexivity. Qed.

(** The selector built for index 2, character by character. *)
Example scenario_selector_string :
  CheckboxesPage.nthCheckboxSelector 2
  = String.append "input[type="
      (String Js.dquote
         (String.append "checkbox" (String Js.dquote "]:nth-of-type(2)"))).
Proof. reflexivity. Qed.

(* ====================================================================== *)
(** * Further properties of the wrapper, the page objects, the manager,
      the configuration and the tests *)
(* ====================================================================== *)

(** ** Filling *)

Section FillFacts.
Import Playwright ActionTypes Browser.


End FillFacts.



(** ** Setting and reading the checked state *)

Section SetReadFacts.
Import Playwright ActionTypes Browser.

(** What a set-state primitive that returned normally has done. *)
Lemma setChecked_ok (l : Locator) (v : bool) (b : Browser.t) :
  fst (LocatorApi.setChecked l v b) = Ok tt ->
  exists k,
    resolve (document b) l = Ok k
    /\ document (snd (LocatorApi.setChecked l v b))
       = alter (Dom.setChecked v) k (document b)
    /\ onClick (snd (LocatorApi.setChecked l v b)) = onClick b
    /\ isCheckedAt (document (snd (LocatorApi.setChecked l v b))) k = v.
Proof.
  rewrite setChecked_run.
  destruct (resolve (document b) l) as [k|e] eqn:R; [|discriminate].
  pose proof (resolve_bound _ _ _ R) as L.
  destruct (Bool.eqb (isCheckedAt (document b) k) v) eqn:C.
  - intros _. exists k. apply Bool.eqb_prop in C. cbn [snd].
    rewrite (alter_setChecked_same _ _ _ C L). auto.
  - destruct (isVisibleAt (document b) k); [|discriminate].
    intros _. exists k. cbn [snd document moved onClick].
    rewrite isCheckedAt_alter_eq by exact L. auto.
Qed.


End SetReadFacts.

Section SetReadRoundTrip.
Import Playwright ActionTypes Browser.



End SetReadRoundTrip.



(** ** Reading never changes the page *)

Section ReadOnlyFacts.
Import Playwright ActionTypes Browser.

Lemma readOnly_ret {A} (a : A) : readOnly (ret a).
Proof. intros b. split; reflexivity. Qed.

Lemma readOnly_throw {A} (e : Error) : readOnly (@throw A e).
Proof. intros b. split; reflexivity. Qed.

Lemma readOnly_lift {A} (r : Result A) : readOnly (lift r).
Proof. intros b. split; reflexivity. Qed.

Lemma readOnly_emit (e : Event) : readOnly (emit e).
Proof. intros b. split; reflexivity. Qed.

Lemma readOnly_getDocument : readOnly getDocument.
Proof. intros b. split; reflexivity. Qed.

Lemma readOnly_bind {A B} (c : Async A) (k : A -> Async B) :
  readOnly c -> (forall a, readOnly (k a)) -> readOnly (bind c k).
Proof.
  intros Hc Hk b. unfold bind. destruct (Hc b) as [D O].
  destruct (c b) as [[a|e] b1]; cbn [snd] in *.
  - destruct (Hk a b1) as [D' O']. split; congruence.
  - split; assumption.
Qed.

Lemma readOnly_waitFor l state timeout : readOnly (LocatorApi.waitFor l state timeout).
Proof.
  unfold LocatorApi.waitFor.
  apply readOnly_bind; [apply readOnly_emit|intros _].
  apply readOnly_bind; [apply readOnly_getDocument|intros d].
  destruct state.
  - apply readOnly_bind; [apply readOnly_lift|intros; apply readOnly_ret].
  - destruct (query d l) as [|? [|]];
      auto using @readOnly_ret, @readOnly_throw.
  - apply readOnly_bind; [apply readOnly_lift|intros k].
    destruct (isVisibleAt d k); auto using @readOnly_ret, @readOnly_throw.
  - destruct (query d l) as [|k [|]];
      auto using @readOnly_ret, @readOnly_throw.
    destruct (isVisibleAt d k); auto using @readOnly_ret, @readOnly_throw.
Qed.

Lemma readOnly_isChecked l : readOnly (LocatorApi.isChecked l).
Proof.
  unfold LocatorApi.isChecked.
  repeat (apply readOnly_bind;
          [first [apply readOnly_emit|apply readOnly_getDocument|apply readOnly_lift]
          |intros ?]).
  apply readOnly_ret.
Qed.

Lemma readOnly_textContent l timeout : readOnly (LocatorApi.textContent l timeout).
Proof.
  unfold LocatorApi.textContent.
  repeat (apply readOnly_bind;
          [first [apply readOnly_emit|apply readOnly_getDocument|apply readOnly_lift]
          |intros ?]).
  apply readOnly_ret.
Qed.

Lemma readOnly_all l : readOnly (LocatorApi.all l).
Proof.
  unfold LocatorApi.all.
  repeat (apply readOnly_bind;
          [first [apply readOnly_emit|apply readOnly_getDocument]|intros ?]).
  apply readOnly_ret.
Qed.

Lemma readOnly_count l : readOnly (LocatorApi.count l).
Proof.
  unfold LocatorApi.count.
  apply readOnly_bind; [apply readOnly_getDocument|intros ?; apply readOnly_ret].
Qed.

Lemma readOnly_promiseAllMap {A B} (f : A -> Async B) (xs : list A) :
  (forall x, readOnly (f x)) -> readOnly (LocatorApi.promiseAllMap f xs).
Proof.
  intros H. induction xs as [|x xs IH]; intros b.
  - split; reflexivity.
  - cbn [LocatorApi.promiseAllMap]. destruct (H x b) as [D O].
    destruct (f x b) as [rx b1]. cbn [snd] in D, O.
    destruct (IH b1) as [D' O'].
    destruct (LocatorApi.promiseAllMap f xs b1) as [rr b2].
    cbn [snd] in *. split; congruence.
Qed.

Lemma readOnly_expectToBe a e : readOnly (LocatorApi.expectToBe a e).
Proof.
  unfold LocatorApi.expectToBe.
  destruct (Bool.eqb a e); auto using @readOnly_ret, @readOnly_throw.
Qed.

Lemma readOnly_expectToEqual a e : readOnly (LocatorApi.expectToEqual a e).
Proof.
  unfold LocatorApi.expectToEqual.
  destruct (LocatorApi.boolArrayEqual a e);
    auto using @readOnly_ret, @readOnly_throw.
Qed.

Lemma readOnly_expectToContain a e : readOnly (LocatorApi.expectToContain a e).
Proof.
  unfold LocatorApi.expectToContain. destruct a as [|s];
    [apply readOnly_throw|].
  destruct (Js.includes s e); auto using @readOnly_ret, @readOnly_throw.
Qed.

Lemma readOnly_CommonActions_isChecked this target options :
  readOnly (CommonActions.isChecked this target options).
Proof.
  unfold CommonActions.isChecked.
  apply readOnly_bind; [apply readOnly_emit|intros _].
  apply readOnly_bind; [apply readOnly_waitFor|intros _].
  apply readOnly_isChecked.
Qed.

Lemma readOnly_CommonActions_getText this target options :
  readOnly (CommonActions.getText this target options).
Proof.
  unfold CommonActions.getText.
  apply readOnly_bind; [apply readOnly_emit|intros _].
  apply readOnly_bind; [apply readOnly_waitFor|intros _].
  apply readOnly_bind; [apply readOnly_textContent|intros text].
  apply readOnly_ret.
Qed.

Lemma readOnly_getCheckboxStates this :
  readOnly (CheckboxesPage.getCheckboxStates this).
Proof.
  unfold CheckboxesPage.getCheckboxStates.
  apply readOnly_bind; [apply readOnly_all|intros xs].
  apply readOnly_promiseAllMap. intros x. apply readOnly_isChecked.
Qed.

Lemma readOnly_getMessage this : readOnly (SecurePage.getMessage this).
Proof.
  unfold SecurePage.getMessage.
  apply readOnly_bind; [apply readOnly_CommonActions_getText|intros m].
  apply readOnly_ret.
Qed.

End ReadOnlyFacts.

(** X3.  The reading and asserting methods leave the page as they found
    it, whatever they return and also when they fail: [isChecked],
    [getText] and [count] of the wrapper; [getCheckboxStates],
    [getCheckboxCount], [validateCheckboxState] and
    [validateAllCheckboxStates] of the checkboxes page; [getErrorMessage],
    [assertErrorMessage] and [assertSuccessMessage] of the login page;
    [getMessage] and [assertLoggedInMessage] of the secure page. *)
Theorem reading_methods_leave_the_page_unchanged :
  (forall this target options, Browser.readOnly (CommonActions.isChecked this target options))
  /\ (forall this target options, Browser.readOnly (CommonActions.getText this target options))
  /\ (forall this target, Browser.readOnly (CommonActions.count this target))
  /\ (forall this, Browser.readOnly (CheckboxesPage.getCheckboxStates this))
  /\ (forall this, Browser.readOnly (CheckboxesPage.getCheckboxCount this))
  /\ (forall this index expectedState,
         Browser.readOnly (CheckboxesPage.validateCheckboxState this index expectedState))
  /\ (forall this expectedStates,
         Browser.readOnly (CheckboxesPage.validateAllCheckboxStates this expectedStates))
  /\ (forall this, Browser.readOnly (LoginPage.getErrorMessage this))
  /\ (forall this expectedMessage,
         Browser.readOnly (LoginPage.assertErrorMessage this expectedMessage))
  /\ (forall this expectedMessage,
         Browser.readOnly (LoginPage.assertSuccessMessage this expectedMessage))
  /\ (forall this, Browser.readOnly (SecurePage.getMessage this))
  /\ (forall this passedMessage,
         Browser.readOnly (SecurePage.assertLoggedInMessage this passedMessage)).
Proof.
  repeat apply conj; intros.
  - apply readOnly_CommonActions_isChecked.
  - apply readOnly_CommonActions_getText.
  - apply readOnly_count.
  - apply readOnly_getCheckboxStates.
  - apply readOnly_count.
  - apply readOnly_bind; [apply readOnly_CommonActions_isChecked|].
    intros a. apply readOnly_expectToBe.
  - apply readOnly_bind; [apply readOnly_getCheckboxStates|].
    intros a. apply readOnly_expectToEqual.
  - apply readOnly_CommonActions_getText.
  - apply readOnly_bind; [apply readOnly_CommonActions_getText|].
    intros a. apply readOnly_expectToContain.
  - apply readOnly_bind; [apply readOnly_CommonActions_getText|].
    intros a. apply readOnly_expectToContain.
  - apply readOnly_getMessage.
  - apply readOnly_bind; [apply readOnly_getMessage|].
    intros a. apply readOnly_expectToContain.
Qed.

(** ** Validating one checkbox *)

(** X4.  When the selector of the index resolves to one element,
    [validateCheckboxState] returns normally if and only if that element's
    checked state is the expected one, and fails with an assertion error
    otherwise.  When the selector does not resolve (no such checkbox, or
    several), the failure is the resolution error and not an assertion
    error. *)
Theorem validateCheckboxState_passes_iff_state_is_expected :
  forall (this : CheckboxesPage.t) (index : nat) (expectedState : bool)
         (b : Browser.t),
    let locator :=
      Playwright.page_locator (CommonActions.page (CheckboxesPage.actions this))
                              (CheckboxesPage.nthCheckboxSelector index) in
    (forall k,
        Playwright.resolve (Browser.document b) locator = Playwright.Ok k ->
        (fst (CheckboxesPage.validateCheckboxState this index expectedState b)
         = Playwright.Ok tt
         <-> Playwright.isCheckedAt (Browser.document b) k = expectedState)
        /\ (Playwright.isCheckedAt (Browser.document b) k <> expectedState ->
            fst (CheckboxesPage.validateCheckboxState this index expectedState b)
            = Playwright.Err Playwright.AssertionError))
    /\ (forall e,
          Playwright.resolve (Browser.document b) locator = Playwright.Err e ->
          fst (CheckboxesPage.validateCheckboxState this index expectedState b)
          = Playwright.Err e).
Proof.
  intros this index expectedState b locator.
  assert (V : fst (CheckboxesPage.validateCheckboxState this index expectedState b)
              = match Playwright.resolve (Browser.document b) locator with
                | Playwright.Ok k =>
                    if Bool.eqb (Playwright.isCheckedAt (Browser.document b) k)
                                expectedState
                    then Playwright.Ok tt
                    else Playwright.Err Playwright.AssertionError
                | Playwright.Err e => Playwright.Err e
                end).
  { unfold CheckboxesPage.validateCheckboxState, Browser.bind.
    rewrite CommonActions_isChecked_run. cbn zeta.
    cbn [CommonActions._getLocator]. fold locator.
    destruct (Playwright.resolve (Browser.document b) locator) as [k|e];
      [|reflexivity].
    unfold LocatorApi.expectToBe.
    destruct (Bool.eqb (Playwright.isCheckedAt (Browser.document b) k)
                       expectedState); reflexivity. }
  split.
  - intros k R. rewrite V, R.
    destruct (Bool.eqb (Playwright.isCheckedAt (Browser.document b) k)
                       expectedState) eqn:E.
    + apply Bool.eqb_prop in E. split; [split; auto|contradiction].
    + apply Bool.eqb_false_iff in E. split; [split; [discriminate|contradiction]|auto].
  - intros e R. rewrite V, R. reflexivity.
Qed.

Lemma validateCheckboxState_passes_iff_state_is_expected_witness :
  fst (CheckboxesPage.validateCheckboxState (CheckboxesPage.constructor 0) 2 true
         (Fixtures.browser (Fixtures.checkboxesDocument [false; true])))
  = Playwright.Ok tt
  /\ fst (CheckboxesPage.validateCheckboxState (CheckboxesPage.constructor 0) 3 true
            (Fixtures.browser (Fixtures.checkboxesDocument [false; true])))
     = Playwright.Err Playwright.TimeoutError.
Proof.
  split.
  - apply (proj1 (validateCheckboxState_passes_iff_state_is_expected
                    (CheckboxesPage.constructor 0) 2 true
                    (Fixtures.browser (Fixtures.checkboxesDocument [false; true])))
                 2 ltac:(vm_compute; reflexivity)).
    reflexivity.
  - apply (proj2 (validateCheckboxState_passes_iff_state_is_expected
                    (CheckboxesPage.constructor 0) 3 true
                    (Fixtures.browser (Fixtures.checkboxesDocument [false; true])))
                 Playwright.TimeoutError).
    vm_compute. reflexivity.
Defined.

(** ** Counting *)

Section CountFacts.
Import Playwright ActionTypes Browser.

Lemma checkboxesDocument_all_checkboxes (page : Page) (states : list bool) :
  query (Fixtures.checkboxesDocument states)
        (page_locator page CheckboxesPage.checkboxSelector)
  = seq 1 (length states).
Proof.
  cbn [query]. unfold Dom.querySelectorAll.
  rewrite parse_checkboxSelector, checkboxesDocument_length.
  cbn [seq List.filter].
  replace (Dom.holds (Fixtures.checkboxesDocument states) _ 0) with false
    by reflexivity.
  apply filter_all. intros k Hk. apply in_seq in Hk.
  destruct k as [|i]; [lia|]. unfold Dom.holds.
  rewrite checkboxesDocument_lookup.
  destruct (lookup_lt_is_Some_2 states i ltac:(lia)) as [s ->]. reflexivity.
Qed.

End CountFacts.

(** X5.  [getCheckboxCount] never fails and never waits: it returns the
    number of checkbox inputs in the whole document, zero when there is
    none, and leaves the browser state as it is.  That number is at least
    the length of the sequence [getCheckboxStates] returns, which only
    looks inside [#checkboxes]; the two are equal on the checkboxes page,
    whatever its checkboxes, and differ on a page with a checkbox outside
    the container. *)
Theorem getCheckboxCount_is_total_and_bounds_the_states :
  (forall (page : Playwright.Page) (b : Browser.t),
      let this := CheckboxesPage.constructor page in
      exists (n : nat) (states : list bool),
        CheckboxesPage.getCheckboxCount this b = (Playwright.Ok n, b)
        /\ n = length (Dom.querySelectorAll (Browser.document b)
                         CheckboxesPage.checkboxSelector)
        /\ fst (CheckboxesPage.getCheckboxStates this b) = Playwright.Ok states
        /\ length states <= n)
  /\ (forall (page : Playwright.Page) (states : list bool),
         CheckboxesPage.getCheckboxCount (CheckboxesPage.constructor page)
           (Fixtures.browser (Fixtures.checkboxesDocument states))
         = (Playwright.Ok (length states),
            Fixtures.browser (Fixtures.checkboxesDocument states)))
  /\ (fst (CheckboxesPage.getCheckboxCount (CheckboxesPage.constructor 0)
             (Fixtures.browser Fixtures.strayCheckboxDocument))
      = Playwright.Ok 2
      /\ fst (CheckboxesPage.getCheckboxStates (CheckboxesPage.constructor 0)
                (Fixtures.browser Fixtures.strayCheckboxDocument))
         = Playwright.Ok [false]).
Proof.
  split; [|split].
  - intros page b this.
    exists (length (Dom.querySelectorAll (Browser.document b)
                      CheckboxesPage.checkboxSelector)).
    exists (map (Playwright.isCheckedAt (Browser.document b))
                (Playwright.query (Browser.document b)
                   (CheckboxesPage.checkboxes this))).
    split; [reflexivity|]. split; [reflexivity|].
    split; [rewrite getCheckboxStates_run; reflexivity|].
    rewrite length_map. unfold this. cbn [Playwright.query
      CheckboxesPage.checkboxes CheckboxesPage.constructor].
    unfold Dom.querySelectorAllWithin. apply List.filter_length_le.
  - intros page states.
    unfold CheckboxesPage.getCheckboxCount, CommonActions.count,
      LocatorApi.count, Browser.bind, Browser.getDocument, Browser.ret.
    cbn [CommonActions._getLocator Browser.document Fixtures.browser].
    rewrite checkboxesDocument_all_checkboxes, length_seq. reflexivity.
  - vm_compute. split; reflexivity.
Qed.

(** ** The page object on the checkboxes page *)

Section ReferencePageOperations.
Import Playwright ActionTypes Browser.

Lemma checkboxesDocument_alter (states : list bool) (i : nat) (v : bool) :
  alter (Dom.setChecked v) (S i) (Fixtures.checkboxesDocument states)
  = Fixtures.checkboxesDocument (<[i := v]> states).
Proof.
  unfold Fixtures.checkboxesDocument. cbn [alter list_alter]. f_equal.
  revert i. induction states as [|s states IH]; intros i; [reflexivity|].
  destruct i as [|i]; cbn [map alter list_alter insert list_insert];
    [reflexivity|].
  f_equal. apply IH.
Qed.

Lemma checkboxesDocument_isCheckedAt (states : list bool) (i : nat) :
  isCheckedAt (Fixtures.checkboxesDocument states) (S i)
  = default false (states !! i).
Proof.
  unfold isCheckedAt. rewrite checkboxesDocument_lookup.
  destruct (states !! i); reflexivity.
Qed.

Lemma checkboxesDocument_isVisibleAt (states : list bool) (i : nat) :
  i < length states ->
  isVisibleAt (Fixtures.checkboxesDocument states) (S i) = true.
Proof.
  intros L. unfold isVisibleAt. rewrite checkboxesDocument_lookup.
  destruct (lookup_lt_is_Some_2 states i L) as [s ->]. reflexivity.
Qed.

(** Outside the range 1..n the index-based selector matches nothing. *)
Lemma checkboxesDocument_nth_query_none (page : Page) (states : list bool)
      (index : nat) :
  index = 0 \/ length states < index ->
  query (Fixtures.checkboxesDocument states)
        (page_locator page (CheckboxesPage.nthCheckboxSelector index))
  = [].
Proof.
  intros H. rewrite query_nthCheckboxSelector, checkboxesDocument_length.
  cbn [seq List.filter].
  replace (Dom.holds (Fixtures.checkboxesDocument states) _ 0) with false
    by reflexivity.
  apply filter_none. intros k Hk. apply in_seq in Hk.
  destruct k as [|i]; [lia|]. unfold Dom.holds.
  rewrite checkboxesDocument_typePosition by lia.
  rewrite checkboxesDocument_lookup.
  destruct (lookup_lt_is_Some_2 states i ltac:(lia)) as [s ->].
  cbn [fmap option_fmap option_map].
  replace (Nat.eqb (S i) index) with false
    by (symmetry; apply Nat.eqb_neq; lia).
  rewrite andb_false_r. reflexivity.
Qed.

Lemma checkboxesDocument_resolve (page : Page) (states : list bool) (index : nat) :
  resolve (Fixtures.checkboxesDocument states)
          (page_locator page (CheckboxesPage.nthCheckboxSelector index))
  = if (Nat.leb 1 index && Nat.leb index (length states))%bool
    then Ok index else Err TimeoutError.
Proof.
  unfold resolve.
  destruct (Nat.leb_spec 1 index) as [H1|H1];
    [destruct (Nat.leb_spec index (length states)) as [H2|H2]|]; cbn [andb].
  - rewrite checkboxesDocument_nth_query by lia. reflexivity.
  - rewrite checkboxesDocument_nth_query_none by lia. reflexivity.
  - rewrite checkboxesDocument_nth_query_none by lia. reflexivity.
Qed.

(** The set-state primitive on a visible match. *)
Lemma setChecked_visible (l : Locator) (v : bool) (b : Browser.t) (k : nat) :
  resolve (document b) l = Ok k -> isVisibleAt (document b) k = true ->
  fst (LocatorApi.setChecked l v b) = Ok tt
  /\ document (snd (LocatorApi.setChecked l v b))
     = alter (Dom.setChecked v) k (document b).
Proof.
  intros R V. assert (H : fst (LocatorApi.setChecked l v b) = Ok tt).
  { rewrite setChecked_run, R, V.
    destruct (Bool.eqb (isCheckedAt (document b) k) v); reflexivity. }
  split; [exact H|].
  destruct (setChecked_ok l v b H) as (k' & R' & D & _).
  rewrite R in R'. inversion R'; subst. exact D.
Qed.

Variable page : Page.
Variable states : list bool.
Variable b : Browser.t.
Hypothesis onPage : document b = Fixtures.checkboxesDocument states.

Let this := CheckboxesPage.constructor page.

Lemma reference_setCheckbox (v : bool) (index : nat) :
  let operation := if v then CheckboxesPage.checkCheckbox this index
                   else CheckboxesPage.uncheckCheckbox this index in
  (1 <= index <= length states ->
   fst (operation b) = Ok tt
   /\ document (snd (operation b))
      = Fixtures.checkboxesDocument (<[index - 1 := v]> states))
  /\ (index = 0 \/ length states < index ->
      fst (operation b) = Err TimeoutError
      /\ document (snd (operation b)) = document b).
Proof.
  intros operation.
  assert (E : operation b
              = LocatorApi.setChecked
                  (page_locator page (CheckboxesPage.nthCheckboxSelector index)) v
                  (logged b
                     (if v
                      then [Action (A_check
                                      (Selector (CheckboxesPage.nthCheckboxSelector index))
                                      noCheckOptions);
                            Prim (P_check
                                    (page_locator page
                                       (CheckboxesPage.nthCheckboxSelector index))
                                    (Some 10000%Z))]
                      else [Action (A_uncheck
                                      (Selector (CheckboxesPage.nthCheckboxSelector index)));
                            Prim (P_uncheck
                                    (page_locator page
                                       (CheckboxesPage.nthCheckboxSelector index))
                                    None)]))).
  { unfold operation. destruct v.
    - unfold CheckboxesPage.checkCheckbox. rewrite CommonActions_check_run.
      reflexivity.
    - unfold CheckboxesPage.uncheckCheckbox. rewrite CommonActions_uncheck_run.
      reflexivity. }
  rewrite E. set (b0 := logged b _).
  assert (D0 : document b0 = Fixtures.checkboxesDocument states) by exact onPage.
  split.
  - intros H. destruct index as [|i]; [lia|].
    destruct (setChecked_visible
                (page_locator page (CheckboxesPage.nthCheckboxSelector (S i)))
                v b0 (S i)) as [F D].
    + rewrite D0, checkboxesDocument_resolve.
      destruct (Nat.leb_spec 1 (S i)); [|lia].
      destruct (Nat.leb_spec (S i) (length states)); [|lia]. reflexivity.
    + rewrite D0. apply checkboxesDocument_isVisibleAt. lia.
    + split; [exact F|]. rewrite D, D0, checkboxesDocument_alter.
      replace (S i - 1) with i by lia. reflexivity.
  - intros H. rewrite setChecked_run, D0, checkboxesDocument_resolve.
    replace (Nat.leb 1 index && Nat.leb index (length states))%bool with false.
    + split; reflexivity.
    + symmetry. apply andb_false_iff.
      destruct H as [->|H]; [left; reflexivity|right]. apply Nat.leb_gt. exact H.
Qed.

Lemma reference_getCheckboxStates :
  fst (CheckboxesPage.getCheckboxStates this b) = Ok states
  /\ document (snd (CheckboxesPage.getCheckboxStates this b)) = document b.
Proof.
  split; [|apply readOnly_getCheckboxStates].
  rewrite getCheckboxStates_run. cbn zeta. cbn [fst]. rewrite onPage.
  unfold this. rewrite checkboxesDocument_states. reflexivity.
Qed.

Lemma reference_validateCheckboxState (index : nat) (expectedState : bool) :
  fst (CheckboxesPage.validateCheckboxState this index expectedState b)
  = (if (Nat.leb 1 index && Nat.leb index (length states))%bool
     then if Bool.eqb (default false (states !! (index - 1))) expectedState
          then Ok tt else Err AssertionError
     else Err TimeoutError)
  /\ document (snd (CheckboxesPage.validateCheckboxState this index expectedState b))
     = document b.
Proof.
  split.
  2:{ apply (readOnly_bind _ _ (readOnly_CommonActions_isChecked _ _ _)
                            (fun a => readOnly_expectToBe a expectedState)). }
  unfold CheckboxesPage.validateCheckboxState, bind.
  rewrite CommonActions_isChecked_run. cbn zeta.
  cbn [CommonActions._getLocator CheckboxesPage.actions this
       CheckboxesPage.constructor CommonActions.page CommonActions.constructor].
  rewrite onPage, checkboxesDocument_resolve.
  destruct (Nat.leb_spec 1 index) as [H1|H1]; [|reflexivity].
  destruct (Nat.leb_spec index (length states)) as [H2|H2]; [|reflexivity].
  cbn [andb]. destruct index as [|i]; [lia|].
  rewrite checkboxesDocument_isCheckedAt. replace (S i - 1) with i by lia.
  unfold LocatorApi.expectToBe.
  destruct (Bool.eqb (default false (states !! i)) expectedState); reflexivity.
Qed.

End ReferencePageOperations.

(** ** The page object simulated on vectors *)

Section Simulation.
Import Playwright ActionTypes Browser.

Lemma simulates_bind {A B} (c : Async A) (k : A -> Async B)
      (a : VectorModel.Abs A) (ka : A -> VectorModel.Abs B) :
  VectorModel.simulates c a ->
  (forall x, VectorModel.simulates (k x) (ka x)) ->
  VectorModel.simulates (bind c k) (VectorModel.bind a ka).
Proof.
  intros Hc Hk b st D. destruct (Hc b st D) as [F D1].
  unfold bind, VectorModel.bind.
  destruct (c b) as [r b1], (a st) as [r' st1]. cbn [fst snd] in F, D1.
  subst r'. destruct r as [x|e].
  - apply Hk, D1.
  - split; [reflexivity|exact D1].
Qed.

Lemma simulates_ret {A} (x : A) : VectorModel.simulates (ret x) (VectorModel.ret x).
Proof. intros b st D. split; [reflexivity|exact D]. Qed.

(** A computation that only reads simulates its own result. *)
Lemma simulates_readOnly {A} (c : Async A) (a : VectorModel.Abs A) :
  readOnly c ->
  (forall b st, document b = Fixtures.checkboxesDocument st ->
                fst (c b) = fst (a st)) ->
  (forall st, snd (a st) = st) ->
  VectorModel.simulates c a.
Proof.
  intros R F S b st D. split; [apply F, D|].
  rewrite S, (proj1 (R b)). exact D.
Qed.

Lemma simulates_expectToEqual (actual expected : list bool) :
  VectorModel.simulates
    (LocatorApi.expectToEqual actual expected)
    (VectorModel.lift (if LocatorApi.boolArrayEqual actual expected
                       then Ok tt else Err AssertionError)).
Proof.
  apply simulates_readOnly; [apply readOnly_expectToEqual| |reflexivity].
  intros b st _. unfold LocatorApi.expectToEqual.
  destruct (LocatorApi.boolArrayEqual actual expected); reflexivity.
Qed.

Variable page : Page.
Let this := CheckboxesPage.constructor page.

Lemma simulates_checkCheckbox (index : nat) :
  VectorModel.simulates (CheckboxesPage.checkCheckbox this index)
                        (VectorModel.setAt true index).
Proof.
  intros b st D. unfold VectorModel.setAt, VectorModel.inRange.
  destruct (reference_setCheckbox page st b D true index) as [In Out].
  cbn zeta in In, Out.
  destruct (Nat.leb_spec 1 index) as [H1|H1];
    [destruct (Nat.leb_spec index (length st)) as [H2|H2]|]; cbn [andb fst snd].
  - apply In. lia.
  - destruct Out as [F E]; [lia|]. split; [exact F|]. exact (eq_trans E D).
  - destruct Out as [F E]; [lia|]. split; [exact F|]. exact (eq_trans E D).
Qed.

Lemma simulates_uncheckCheckbox (index : nat) :
  VectorModel.simulates (CheckboxesPage.uncheckCheckbox this index)
                        (VectorModel.setAt false index).
Proof.
  intros b st D. unfold VectorModel.setAt, VectorModel.inRange.
  destruct (reference_setCheckbox page st b D false index) as [In Out].
  cbn zeta in In, Out.
  destruct (Nat.leb_spec 1 index) as [H1|H1];
    [destruct (Nat.leb_spec index (length st)) as [H2|H2]|]; cbn [andb fst snd].
  - apply In. lia.
  - destruct Out as [F E]; [lia|]. split; [exact F|]. exact (eq_trans E D).
  - destruct Out as [F E]; [lia|]. split; [exact F|]. exact (eq_trans E D).
Qed.

Lemma simulates_validateCheckboxState (index : nat) (expectedState : bool) :
  VectorModel.simulates
    (CheckboxesPage.validateCheckboxState this index expectedState)
    (VectorModel.validateAt index expectedState).
Proof.
  intros b st D.
  destruct (reference_validateCheckboxState page st b D index expectedState)
    as [F E].
  split; [exact F|]. exact (eq_trans E D).
Qed.

Lemma simulates_getCheckboxStates :
  VectorModel.simulates (CheckboxesPage.getCheckboxStates this)
                        VectorModel.readAll.
Proof.
  intros b st D. destruct (reference_getCheckboxStates page st b D) as [F E].
  split; [exact F|]. exact (eq_trans E D).
Qed.

Lemma simulates_toggleCheckbox (index : nat) :
  VectorModel.simulates (CheckboxesPage.toggleCheckbox this index)
                        (VectorModel.toggleAt index).
Proof.
  intros b st D. rewrite toggleCheckbox_run. cbn zeta.
  cbn [CommonActions._getLocator CheckboxesPage.actions this
       CheckboxesPage.constructor CommonActions.page CommonActions.constructor].
  rewrite D, checkboxesDocument_resolve.
  unfold VectorModel.toggleAt, VectorModel.inRange.
  destruct (Nat.leb_spec 1 index) as [H1|H1];
    [destruct (Nat.leb_spec index (length st)) as [H2|H2]|]; cbn [andb fst snd].
  - destruct index as [|i]; [lia|].
    rewrite checkboxesDocument_isVisibleAt by lia.
    cbn [fst snd document moved].
    rewrite checkboxesDocument_isCheckedAt, checkboxesDocument_alter.
    replace (S i - 1) with i by lia. split; reflexivity.
  - split; [reflexivity|exact D].
  - split; [reflexivity|exact D].
Qed.

Lemma lookup_repeat_lt {A} (v : A) (n i : nat) :
  i < n -> repeat v n !! i = Some v.
Proof.
  revert i. induction n as [|n IH]; intros i L; [lia|].
  destruct i as [|i]; [reflexivity|]. cbn [repeat]. apply IH. lia.
Qed.

Lemma setAll_checkboxesDocument (v : bool) (st : list bool) :
  Checkboxes.setAll v (seq 1 (length st)) (Fixtures.checkboxesDocument st)
  = Fixtures.checkboxesDocument (repeat v (length st)).
Proof.
  apply list_eq. intros j. rewrite lookup_setAll.
  destruct j as [|i].
  { destruct (existsb (Nat.eqb 0) (seq 1 (length st))) eqn:E; [|reflexivity].
    apply existsb_exists in E as (x & Hin & Heq).
    apply in_seq in Hin. apply Nat.eqb_eq in Heq. lia. }
  rewrite !checkboxesDocument_lookup.
  destruct (decide (i < length st)) as [L|L].
  - rewrite existsb_eqb_In by (apply in_seq; lia).
    destruct (lookup_lt_is_Some_2 st i L) as [s ->].
    rewrite (lookup_repeat_lt v (length st) i L).
    reflexivity.
  - rewrite (lookup_ge_None_2 st i) by lia.
    rewrite (lookup_ge_None_2 (repeat v (length st)) i)
      by (rewrite repeat_length; lia).
    destruct (existsb (Nat.eqb (S i)) (seq 1 (length st))); reflexivity.
Qed.

Lemma simulates_checkAll :
  VectorModel.simulates (CheckboxesPage.checkAll this) (VectorModel.setEvery true).
Proof.
  intros b st D.
  assert (F : Forall (fun k => isVisibleAt (document b) k = true)
                     (query (document b) (CheckboxesPage.checkboxes this))).
  { rewrite D. apply checkboxesDocument_visible. }
  rewrite (checkAll_run this b F). cbn [fst snd document moved VectorModel.setEvery].
  split; [reflexivity|]. rewrite D. unfold this.
  rewrite checkboxesDocument_query. apply setAll_checkboxesDocument.
Qed.

Lemma simulates_uncheckAll :
  VectorModel.simulates (CheckboxesPage.uncheckAll this) (VectorModel.setEvery false).
Proof.
  intros b st D.
  assert (F : Forall (fun k => isVisibleAt (document b) k = true)
                     (query (document b) (CheckboxesPage.checkboxes this))).
  { rewrite D. apply checkboxesDocument_visible. }
  rewrite (uncheckAll_run this b F). cbn [fst snd document moved VectorModel.setEvery].
  split; [reflexivity|]. rewrite D. unfold this.
  rewrite checkboxesDocument_query. apply setAll_checkboxesDocument.
Qed.

Lemma simulates_validateAllCheckboxStates (expectedStates : list bool) :
  VectorModel.simulates
    (CheckboxesPage.validateAllCheckboxStates this expectedStates)
    (VectorModel.bind VectorModel.readAll
       (fun actual =>
          VectorModel.lift (if LocatorApi.boolArrayEqual actual expectedStates
                            then Ok tt else Err AssertionError))).
Proof.
  unfold CheckboxesPage.validateAllCheckboxStates.
  apply simulates_bind; [apply simulates_getCheckboxStates|].
  intros actual. apply simulates_expectToEqual.
Qed.

End Simulation.

Ltac simulate page :=
  lazymatch goal with
  | |- VectorModel.simulates (Browser.bind _ _) _ =>
      eapply simulates_bind; [simulate page|intros ?; simulate page]
  | |- VectorModel.simulates (CheckboxesPage.checkCheckbox _ _) _ =>
      apply (simulates_checkCheckbox page)
  | |- VectorModel.simulates (CheckboxesPage.uncheckCheckbox _ _) _ =>
      apply (simulates_uncheckCheckbox page)
  | |- VectorModel.simulates (CheckboxesPage.toggleCheckbox _ _) _ =>
      apply (simulates_toggleCheckbox page)
  | |- VectorModel.simulates (CheckboxesPage.validateCheckboxState _ _ _) _ =>
      apply (simulates_validateCheckboxState page)
  | |- VectorModel.simulates (CheckboxesPage.validateAllCheckboxStates _ _) _ =>
      apply (simulates_validateAllCheckboxStates page)
  | |- VectorModel.simulates (CheckboxesPage.getCheckboxStates _) _ =>
      apply (simulates_getCheckboxStates page)
  | |- VectorModel.simulates (CheckboxesPage.checkAll _) _ =>
      apply (simulates_checkAll page)
  | |- VectorModel.simulates (CheckboxesPage.uncheckAll _) _ =>
      apply (simulates_uncheckAll page)
  | |- VectorModel.simulates (LocatorApi.expectToEqual _ _) _ =>
      apply simulates_expectToEqual
  | |- VectorModel.simulates (Browser.ret _) _ =>
      apply simulates_ret
  end.

(** X6.  On the checkboxes page the page object is its vector of states:
    [checkCheckbox] and [uncheckCheckbox] set the entry of a 1-based index
    and [toggleCheckbox] flips it, an index of 0 or beyond the last checkbox
    being a timeout that changes nothing; [validateCheckboxState] compares
    that entry; [getCheckboxStates] returns the vector; [checkAll] and
    [uncheckAll] make every entry equal; and in each case the page left
    behind is again the checkboxes page of the resulting vector. *)
Theorem checkboxes_page_object_refines_its_vector (page : Playwright.Page) :
  let this := CheckboxesPage.constructor page in
  (forall index,
      VectorModel.simulates (CheckboxesPage.checkCheckbox this index)
                            (VectorModel.setAt true index))
  /\ (forall index,
         VectorModel.simulates (CheckboxesPage.uncheckCheckbox this index)
                               (VectorModel.setAt false index))
  /\ (forall index,
         VectorModel.simulates (CheckboxesPage.toggleCheckbox this index)
                               (VectorModel.toggleAt index))
  /\ (forall index expectedState,
         VectorModel.simulates
           (CheckboxesPage.validateCheckboxState this index expectedState)
           (VectorModel.validateAt index expectedState))
  /\ VectorModel.simulates (CheckboxesPage.getCheckboxStates this)
                           VectorModel.readAll
  /\ VectorModel.simulates (CheckboxesPage.checkAll this)
                           (VectorModel.setEvery true)
  /\ VectorModel.simulates (CheckboxesPage.uncheckAll this)
                           (VectorModel.setEvery false).
Proof.
  intros this. repeat apply conj; intros; simulate page.
Qed.

Lemma checkboxes_page_object_refines_its_vector_witness :
  let b := Fixtures.browser (Fixtures.checkboxesDocument [false; true]) in
  let this := CheckboxesPage.constructor 0 in
  fst (CheckboxesPage.checkCheckbox this 1 b) = Playwright.Ok tt
  /\ Browser.document (snd (CheckboxesPage.checkCheckbox this 1 b))
     = Fixtures.checkboxesDocument [true; true]
  /\ fst (CheckboxesPage.uncheckCheckbox this 3 b)
     = Playwright.Err Playwright.TimeoutError.
Proof.
  intros b this.
  destruct (checkboxes_page_object_refines_its_vector 0)
    as (Check & Uncheck & _).
  destruct (Check 1 b [false; true] eq_refl) as [F D].
  destruct (Uncheck 3 b [false; true] eq_refl) as [F' _].
  repeat apply conj; [exact F|exact D|exact F'].
Defined.

Section TestsOnTheCheckboxesPage.
Import Playwright ActionTypes Browser.

(** X7.  'Uncheck all checkboxes' passes on the checkboxes page exactly
    when the page has two checkboxes, whatever their initial states; with
    any other number of checkboxes the final comparison with
    [[false, false]] fails.  Either way every checkbox is left unchecked. *)
Theorem test_uncheck_all_passes_iff_two_checkboxes
        (page : Page) (states : list bool) (b : Browser.t)
        (onPage : document b = Fixtures.checkboxesDocument states) :
  let test := PomTests.uncheckAllCheckboxes (CheckboxesPage.constructor page) in
  fst (test b)
  = (if Nat.eqb (length states) 2 then Ok tt else Err AssertionError)
  /\ document (snd (test b))
     = Fixtures.checkboxesDocument (repeat false (length states)).
Proof.
  intros test.
  assert (S : VectorModel.simulates test
                (VectorModel.bind (VectorModel.setEvery true) (fun _ =>
                 VectorModel.bind (VectorModel.setEvery false) (fun _ =>
                 VectorModel.bind VectorModel.readAll (fun actual =>
                 VectorModel.lift
                   (if LocatorApi.boolArrayEqual actual [false; false]
                    then Ok tt else Err AssertionError)))))).
  { unfold test, PomTests.uncheckAllCheckboxes. simulate page. }
  destruct (S b states onPage) as [F D]. rewrite F, D. clear.
  unfold VectorModel.bind, VectorModel.setEvery, VectorModel.readAll,
    VectorModel.lift. cbn [fst snd]. rewrite !repeat_length.
  split; [|reflexivity].
  destruct states as [|s1 [|s2 [|s3 r]]]; reflexivity.
Qed.


(** X9.  'Check individual checkbox by index and validate' passes exactly
    when the page has at least two checkboxes, whatever their initial
    states, and then leaves the first two checked and the others as they
    were; with fewer it times out. *)
Theorem test_check_individual_passes_iff_at_least_two_checkboxes
        (page : Page) (states : list bool) (b : Browser.t)
        (onPage : document b = Fixtures.checkboxesDocument states) :
  let test := PomTests.checkIndividualCheckbox (CheckboxesPage.constructor page) in
  fst (test b)
  = (if Nat.leb 2 (length states) then Ok tt else Err TimeoutError)
  /\ (2 <= length states ->
      document (snd (test b))
      = Fixtures.checkboxesDocument (true :: true :: drop 2 states)).
Proof.
  intros test.
  assert (S : VectorModel.simulates test
                (VectorModel.bind (VectorModel.setAt true 1) (fun _ =>
                 VectorModel.bind (VectorModel.validateAt 1 true) (fun _ =>
                 VectorModel.bind (VectorModel.setAt true 2) (fun _ =>
                 VectorModel.validateAt 2 true))))).
  { unfold test, PomTests.checkIndividualCheckbox. simulate page. }
  destruct (S b states onPage) as [F D]. rewrite F, D. clear.
  destruct states as [|s1 [|s2 r]]; split; try reflexivity;
    cbn [length]; intros; lia.
Qed.

(** X10.  'Test checkbox states when starting from unknown state' passes
    exactly when the page has at least two checkboxes, from every initial
    vector, and then leaves the first checked, the second unchecked and the
    others as they were; with fewer checkboxes it times out. *)
Theorem test_unknown_state_normalises_every_initial_vector
        (page : Page) (states : list bool) (b : Browser.t)
        (onPage : document b = Fixtures.checkboxesDocument states) :
  let test := PomTests.startingFromUnknownState (CheckboxesPage.constructor page) in
  fst (test b)
  = (if Nat.leb 2 (length states) then Ok tt else Err TimeoutError)
  /\ (2 <= length states ->
      document (snd (test b))
      = Fixtures.checkboxesDocument (true :: false :: drop 2 states)).
Proof.
  intros test.
  assert (S : VectorModel.simulates test
                (VectorModel.bind VectorModel.readAll (fun initialStates =>
                 VectorModel.bind
                   (match initialStates !! 0 with
                    | Some false => VectorModel.setAt true 1
                    | _ => VectorModel.ret tt
                    end) (fun _ =>
                 VectorModel.bind
                   (match initialStates !! 1 with
                    | Some true => VectorModel.setAt false 2
                    | _ => VectorModel.ret tt
                    end) (fun _ =>
                 VectorModel.bind (VectorModel.validateAt 1 true) (fun _ =>
                 VectorModel.validateAt 2 false)))))).
  { unfold test, PomTests.startingFromUnknownState.
    apply simulates_bind; [simulate page|]. intros initialStates.
    apply simulates_bind; [destruct (initialStates !! 0) as [[|]|]; simulate page|].
    intros _.
    apply simulates_bind; [destruct (initialStates !! 1) as [[|]|]; simulate page|].
    intros _. simulate page. }
  destruct (S b states onPage) as [F D]. rewrite F, D. clear.
  destruct states as [|[|] [|[|] r]]; split; try reflexivity;
    cbn [length]; intros; lia.
Qed.

(** X11.  'Validate all checkbox states together' passes exactly when the
    page has two checkboxes, whatever their initial states; with fewer it
    times out on a missing checkbox, with more the comparison with
    [[true, false]] fails. *)
Theorem test_validate_all_together_passes_iff_two_checkboxes
        (page : Page) (states : list bool) (b : Browser.t)
        (onPage : document b = Fixtures.checkboxesDocument states) :
  let test := PomTests.validateAllTogether (CheckboxesPage.constructor page) in
  fst (test b)
  = (if Nat.ltb (length states) 2 then Err TimeoutError
     else if Nat.eqb (length states) 2 then Ok tt
          else Err AssertionError).
Proof.
  intros test.
  assert (S : VectorModel.simulates test
                (VectorModel.bind (VectorModel.setAt true 1) (fun _ =>
                 VectorModel.bind (VectorModel.setAt false 2) (fun _ =>
                 VectorModel.bind VectorModel.readAll (fun actual =>
                 VectorModel.lift
                   (if LocatorApi.boolArrayEqual actual [true; false]
                    then Ok tt else Err AssertionError)))))).
  { unfold test, PomTests.validateAllTogether. simulate page. }
  destruct (S b states onPage) as [F D]. rewrite F. clear.
  destruct states as [|s1 [|s2 [|s3 r]]]; reflexivity.
Qed.

End TestsOnTheCheckboxesPage.

Lemma test_uncheck_all_passes_iff_two_checkboxes_witness :
  let b := Fixtures.browser (Fixtures.checkboxesDocument [false; true]) in
  let test := PomTests.uncheckAllCheckboxes (CheckboxesPage.constructor 0) in
  fst (test b) = Playwright.Ok tt
  /\ Browser.document (snd (test b)) = Fixtures.checkboxesDocument [false; false].
Proof.
  exact (test_uncheck_all_passes_iff_two_checkboxes
           0 [false; true]
           (Fixtures.browser (Fixtures.checkboxesDocument [false; true]))
           eq_refl).
Defined.


Lemma test_check_individual_passes_iff_at_least_two_checkboxes_witness :
  let b := Fixtures.browser (Fixtures.checkboxesDocument [false; true; false]) in
  let test := PomTests.checkIndividualCheckbox (CheckboxesPage.constructor 0) in
  fst (test b) = Playwright.Ok tt
  /\ Browser.document (snd (test b))
     = Fixtures.checkboxesDocument [true; true; false].
Proof.
  intros b test.
  destruct (test_check_individual_passes_iff_at_least_two_checkboxes
              0 [false; true; false] b eq_refl) as [F D].
  split; [exact F|]. apply D. cbn [length]. lia.
Defined.

Lemma test_unknown_state_normalises_every_initial_vector_witness :
  let b := Fixtures.browser (Fixtures.checkboxesDocument [false; true; true]) in
  let test := PomTests.startingFromUnknownState (CheckboxesPage.constructor 0) in
  fst (test b) = Playwright.Ok tt
  /\ Browser.document (snd (test b))
     = Fixtures.checkboxesDocument [true; false; true].
Proof.
  intros b test.
  destruct (test_unknown_state_normalises_every_initial_vector
              0 [false; true; true] b eq_refl) as [F D].
  split; [exact F|]. apply D. cbn [length]. lia.
Defined.

Lemma test_validate_all_together_passes_iff_two_checkboxes_witness :
  let b := Fixtures.browser (Fixtures.checkboxesDocument [false; true]) in
  let b' := Fixtures.browser (Fixtures.checkboxesDocument [false; true; false]) in
  let test := PomTests.validateAllTogether (CheckboxesPage.constructor 0) in
  fst (test b) = Playwright.Ok tt
  /\ fst (test b') = Playwright.Err Playwright.AssertionError.
Proof.
  intros b b' test. split.
  - exact (test_validate_all_together_passes_iff_two_checkboxes
             0 [false; true] b eq_refl).
  - exact (test_validate_all_together_passes_iff_two_checkboxes
             0 [false; true; false] b' eq_refl).
Defined.

(** ** The configuration *)

(** X12.  The worker count of the configuration.  Off CI it is three
    quarters of the core count rounded down and capped at 20: never more
    than 20 nor than the core count, monotone in the core count, 20 from 27
    cores on, and 0 on a machine with a single core (or none reported).
    On CI, that is with the variable set to a non-empty string, it is 2
    whatever the machine, as is the number of retries, which is 0 off CI. *)
Theorem workers_is_three_quarters_of_the_cores_capped :
  forall (cpuCount : nat) (ci : option string),
    Config.calculateWorkers cpuCount <= 20
    /\ Config.calculateWorkers cpuCount <= cpuCount
    /\ (cpuCount < 27 ->
        4 * Config.calculateWorkers cpuCount <= 3 * cpuCount
        /\ 3 * cpuCount < 4 * Config.calculateWorkers cpuCount + 4)
    /\ (Config.calculateWorkers cpuCount = 20 <-> 27 <= cpuCount)
    /\ (Config.calculateWorkers cpuCount = 0 <-> cpuCount <= 1)
    /\ (forall more, cpuCount <= more ->
                     Config.calculateWorkers cpuCount
                     <= Config.calculateWorkers more)
    /\ (Config.workers ci cpuCount
        = match ci with
          | Some (String _ _) => 2
          | _ => Config.calculateWorkers cpuCount
          end)
    /\ (Config.retries ci
        = match ci with
          | Some (String _ _) => 2
          | _ => 0
          end).
Proof.
  intros cpuCount ci. unfold Config.calculateWorkers.
  pose proof (Nat.div_mod_eq (3 * cpuCount) 4) as E.
  pose proof (Nat.mod_upper_bound (3 * cpuCount) 4 ltac:(lia)) as U.
  repeat apply conj; try lia.
  - intros more L.
    pose proof (Nat.div_mod_eq (3 * more) 4) as E'.
    pose proof (Nat.mod_upper_bound (3 * more) 4 ltac:(lia)) as U'.
    lia.
  - unfold Config.workers, Js.truthy. destruct ci as [[|a s]|]; reflexivity.
  - unfold Config.retries, Js.truthy. destruct ci as [[|a s]|]; reflexivity.
Qed.

(** ** The manager's instances *)

Section PomManagerInstances.
Import PomManager.

Implicit Types (h : Heap) (this r : Ref) (k : Kind) (o : Object).

Lemma consistent_empty : consistent [].
Proof. intros this o k r E. discriminate. Qed.

Lemma field_emptyCache k : field k emptyCache = None.
Proof. destruct k; reflexivity. Qed.

(** An object with a set field, found in a heap extended by one fresh
    object, was there before. *)
Lemma holder_of_extended h (fresh : Instance) this o k r :
  (h ++ [{| instance := fresh; cache := emptyCache |}]) !! this = Some o ->
  field k (cache o) = Some r ->
  h !! this = Some o.
Proof.
  intros E F. destruct (decide (this < length h)) as [L|L].
  - rewrite lookup_app_l in E by exact L. exact E.
  - exfalso. rewrite lookup_app_r in E by lia.
    destruct (this - length h) as [|n]; [|destruct n; discriminate].
    cbn in E. apply (inj Some) in E. subst o. cbn [cache] in F.
    rewrite field_emptyCache in F. discriminate.
Qed.

Lemma constructor_consistent page h :
  consistent h -> consistent (snd (constructor page h)).
Proof.
  intros C this o k r E F. cbn [constructor new snd] in *.
  pose proof (holder_of_extended _ _ _ _ _ _ E F) as E0.
  destruct (C this o k r E0 F) as [P U]. split.
  - destruct (h !! r) as [o1|] eqn:Er; [|discriminate].
    rewrite (lookup_app_l_Some _ _ _ _ Er). exact P.
  - intros this' o' k' E' F'. apply (U this' o' k'); [|exact F'].
    exact (holder_of_extended _ _ _ _ _ _ E' F').
Qed.

Lemma get_consistent k0 this0 h :
  consistent h -> consistent (snd (get k0 this0 h)).
Proof.
  intros C.
  destruct (get_cases k0 this0 h)
    as [[G _]|[(r' & _ & G)|(o0 & o0' & E0 & F0 & G & P0 & F0' & O0)]];
    rewrite G; cbn [snd]; try exact C.
  assert (L0 : this0 < length h) by (eapply lookup_lt_Some; exact E0).
  set (fresh := {| instance := construct k0 (page o0); cache := emptyCache |}).
  (* The objects that were there keep what they were constructed as. *)
  assert (Keep : forall r o,
             h !! r = Some o ->
             instance <$> <[this0 := o0']> (h ++ [fresh]) !! r
             = Some (instance o)).
  { intros r o Er. destruct (decide (this0 = r)) as [->|Hne].
    - rewrite list_lookup_insert_eq by (rewrite length_app; simpl; lia).
      rewrite E0 in Er. inversion Er; subst. cbn. rewrite P0. reflexivity.
    - rewrite list_lookup_insert_ne by exact Hne.
      rewrite (lookup_app_l_Some _ _ _ _ Er). reflexivity. }
  (* What an object of the new heap and one of its set fields are. *)
  assert (Back : forall this o k r,
             <[this0 := o0']> (h ++ [fresh]) !! this = Some o ->
             field k (cache o) = Some r ->
             (this = this0 /\ o = o0' /\ k = k0 /\ r = length h)
             \/ (r < length h
                 /\ instance <$> h !! r = Some (construct k (page o))
                 /\ exists o1, h !! this = Some o1
                               /\ field k (cache o1) = Some r
                               /\ page o1 = page o)).
  { intros this o k r E F.
    destruct (decide (this = this0)) as [->|Hne].
    - rewrite list_lookup_insert_eq in E by (rewrite length_app; simpl; lia).
      apply (inj Some) in E. subst o.
      destruct (decide (k = k0)) as [->|Hk].
      + left. rewrite F0' in F. apply (inj Some) in F. auto.
      + right. rewrite (O0 k Hk) in F.
        destruct (C this0 o0 k r E0 F) as [Pr _].
        assert (Lr : r < length h).
        { destruct (h !! r) as [x|] eqn:Er; [|discriminate].
          eapply lookup_lt_Some; exact Er. }
        split; [exact Lr|].
        split; [rewrite (page_instance _ _ P0); exact Pr|].
        exists o0. split; [exact E0|]. split; [exact F|].
        symmetry. apply page_instance, P0.
    - rewrite list_lookup_insert_ne in E by congruence.
      apply (holder_of_extended _ _ _ _ _ _ E) in F as E1.
      right. destruct (C this o k r E1 F) as [Pr _].
      assert (Lr : r < length h).
      { destruct (h !! r) as [x|] eqn:Er; [|discriminate].
        eapply lookup_lt_Some; exact Er. }
      split; [exact Lr|]. split; [exact Pr|]. exists o. auto. }
  intros this o k r E F.
  destruct (Back this o k r E F)
    as [(-> & -> & -> & ->)|(Lr & Pr & o1 & E1 & F1 & P1)].
  - split.
    + rewrite list_lookup_insert_ne by lia.
      rewrite lookup_app_r by lia. rewrite Nat.sub_diag. cbn.
      rewrite (page_instance _ _ P0). reflexivity.
    + intros this' o' k' E' F'.
      destruct (Back this' o' k' (length h) E' F')
        as [(-> & _ & -> & _)|(Lr & _)]; [auto|lia].
  - split.
    + destruct (h !! r) as [x|] eqn:Er; [|discriminate].
      rewrite (Keep r x Er). exact Pr.
    + intros this' o' k' E' F'.
      destruct (Back this' o' k' r E' F')
        as [(_ & _ & _ & ->)|(_ & _ & o2 & E2 & F2 & _)]; [lia|].
      destruct (C this o1 k r E1 F1) as [_ U].
      exact (U this' o2 k' E2 F2).
Qed.

Lemma reachable_consistent h : reachable h -> consistent h.
Proof.
  induction 1 as [|page h _ IH|k this h _ IH].
  - exact consistent_empty.
  - apply constructor_consistent, IH.
  - apply get_consistent, IH.
Qed.

(** A getter returns the reference its field holds afterwards. *)
Lemma get_returns_cached k this h r :
  fst (get k this h) = Some r -> cached k this (snd (get k this h)) = Some r.
Proof.
  destruct (get_cases k this h)
    as [[G _]|[(r' & Cc & G)|(o & o' & E & F & G & P & F' & O)]];
    rewrite G; cbn [fst snd]; intros R; try discriminate.
  - rewrite <- R. exact Cc.
  - apply (inj Some) in R. subst r. unfold cached.
    assert (L : this < length h) by (eapply lookup_lt_Some; exact E).
    rewrite list_lookup_insert_eq by (rewrite length_app; simpl; lia).
    exact F'.
Qed.

(** One getter call allocates exactly when its field was empty, and fills
    that field. *)
Lemma get_allocation k this h :
  length (snd (get k this h)) + emptyFields this (snd (get k this h))
  = length h + emptyFields this h.
Proof.
  destruct (get_cases k this h)
    as [[G _]|[(r' & _ & G)|(o & o' & E & F & G & P & F' & O)]];
    rewrite G; cbn [snd]; try reflexivity.
  assert (L : this < length h) by (eapply lookup_lt_Some; exact E).
  unfold emptyFields.
  rewrite list_lookup_insert_eq by (rewrite length_app; simpl; lia).
  rewrite E, length_insert, length_app. cbn [length List.filter].
  destruct k; rewrite F'.
  - rewrite (O Secure), (O Checkboxes) by discriminate. rewrite F.
    destruct (field Secure (cache o)), (field Checkboxes (cache o));
      cbn [length]; lia.
  - rewrite (O Login), (O Checkboxes) by discriminate. rewrite F.
    destruct (field Login (cache o)), (field Checkboxes (cache o));
      cbn [length]; lia.
  - rewrite (O Login), (O Secure) by discriminate. rewrite F.
    destruct (field Login (cache o)), (field Secure (cache o));
      cbn [length]; lia.
Qed.

Lemma emptyFields_bound this h : emptyFields this h <= 3.
Proof.
  unfold emptyFields. destruct (h !! this) as [o|]; try lia.
  cbn [List.filter].
  destruct (field Login (cache o)), (field Secure (cache o)),
    (field Checkboxes (cache o)); cbn [length]; lia.
Qed.

Lemma run_allocation (ks : list Kind) this h :
  length (run (map (fun k => (k, this)) ks) h)
  + emptyFields this (run (map (fun k => (k, this)) ks) h)
  = length h + emptyFields this h.
Proof.
  revert h. induction ks as [|k ks IH]; intros h; [reflexivity|].
  cbn [map run]. rewrite IH. apply get_allocation.
Qed.

End PomManagerInstances.

(** X13.  In every heap a test can reach from the empty one by creating
    managers and calling getters, on any receivers in any order: a cache
    field that is set names a page object of its kind, constructed from
    the page handle of the object that holds the field; no two cache
    fields, of the same or of different objects, name the same page object;
    and what a getter returns is what its field holds afterwards. *)
Theorem managers_never_share_or_mix_up_instances :
  forall (h : PomManager.Heap),
    PomManager.reachable h ->
    (forall this o k r,
        h !! this = Some o ->
        PomManager.field k (PomManager.cache o) = Some r ->
        PomManager.instance <$> h !! r
        = Some (PomManager.construct k (PomManager.page o)))
    /\ (forall this this' k k' r,
           PomManager.cached k this h = Some r ->
           PomManager.cached k' this' h = Some r ->
           this' = this /\ k' = k)
    /\ (forall k this r,
           fst (PomManager.get k this h) = Some r ->
           PomManager.cached k this (snd (PomManager.get k this h)) = Some r
           /\ exists o,
               h !! this = Some o
               /\ PomManager.instance <$> snd (PomManager.get k this h) !! r
                  = Some (PomManager.construct k (PomManager.page o))).
Proof.
  intros h R. pose proof (reachable_consistent h R) as C.
  repeat apply conj.
  - intros this o k r E F. exact (proj1 (C this o k r E F)).
  - intros this this' k k' r C1 C2. unfold PomManager.cached in *.
    destruct (h !! this) as [o|] eqn:E; try discriminate.
    destruct (h !! this') as [o'|] eqn:E'; try discriminate.
    exact (proj2 (C this o k r E C1) this' o' k' E' C2).
  - intros k this r G.
    pose proof (get_returns_cached k this h r G) as Cc.
    split; [exact Cc|].
    pose proof (get_consistent k this h C) as C'.
    unfold PomManager.cached in Cc.
    destruct (snd (PomManager.get k this h) !! this) as [o'|] eqn:E';
      try discriminate.
    pose proof (proj1 (C' this o' k r E' Cc)) as Built.
    destruct (get_cases k this h)
      as [[G' _]|[(r' & Cr & G')|(o & o1 & E & F & G' & P & F' & O)]];
      rewrite G' in E'; cbn [snd] in E'.
    + rewrite G' in G. discriminate.
    + exists o'. split; [exact E'|]. exact Built.
    + assert (L : this < length h) by (eapply lookup_lt_Some; exact E).
      rewrite list_lookup_insert_eq in E' by (rewrite length_app; simpl; lia).
      apply (inj Some) in E'. subst o'. exists o. split; [exact E|].
      rewrite Built. rewrite (page_instance _ _ P). reflexivity.
Qed.

Lemma managers_never_share_or_mix_up_instances_witness :
  let h0 := snd (PomManager.constructor 7 []) in
  let h1 := snd (PomManager.constructor 8 h0) in
  let h2 := PomManager.run [(PomManager.Login, 0); (PomManager.Login, 1);
                            (PomManager.Secure, 0)] h1 in
  PomManager.cached PomManager.Login 0 h2 = Some 2
  /\ PomManager.cached PomManager.Login 1 h2 = Some 3
  /\ PomManager.instance <$> h2 !! 3
     = Some (PomManager.construct PomManager.Login 8).
Proof.
  intros h0 h1 h2.
  assert (R : PomManager.reachable h2).
  { unfold h2. cbn [PomManager.run].
    repeat apply PomManager.reachable_get.
    repeat apply PomManager.reachable_constructor.
    exact PomManager.reachable_empty. }
  destruct (managers_never_share_or_mix_up_instances h2 R) as (Built & _ & _).
  split; [reflexivity|]. split; [reflexivity|].
  exact (Built 1 _ PomManager.Login 3 eq_refl eq_refl).
Defined.

(** X14.  The manager is lazy.  Creating it allocates the manager alone,
    with its three cache fields empty; one getter call allocates one page
    object when its field was empty and nothing when it was set; so any
    number of getter calls on one manager, in any order, allocates at most
    three page objects, as many as it fills cache fields. *)
Theorem manager_allocates_each_page_object_at_most_once :
  forall (page : Playwright.Page) (h : PomManager.Heap)
         (this : PomManager.Ref) (k : PomManager.Kind)
         (ks : list PomManager.Kind),
    (length (snd (PomManager.constructor page h)) = S (length h)
     /\ PomManager.emptyFields (fst (PomManager.constructor page h))
                               (snd (PomManager.constructor page h)) = 3)
    /\ (length (snd (PomManager.get k this h))
        = match PomManager.cached k this h, h !! this with
          | None, Some _ => S (length h)
          | _, _ => length h
          end)
    /\ (let h' := PomManager.run (map (fun k => (k, this)) ks) h in
        length h' + PomManager.emptyFields this h'
        = length h + PomManager.emptyFields this h
        /\ length h' <= length h + 3).
Proof.
  intros page h this k ks. repeat apply conj.
  - cbn [PomManager.constructor PomManager.new snd].
    rewrite length_app. simpl. lia.
  - cbn [PomManager.constructor PomManager.new fst snd].
    unfold PomManager.emptyFields.
    rewrite lookup_app_r by lia. rewrite Nat.sub_diag. reflexivity.
  - destruct (get_cases k this h)
      as [[G N]|[(r' & Cr & G)|(o & o' & E & F & G & P & F' & O)]];
      rewrite G; cbn [snd].
    + unfold PomManager.cached. rewrite N. reflexivity.
    + rewrite Cr. reflexivity.
    + unfold PomManager.cached. rewrite E, F.
      rewrite length_insert, length_app. simpl. lia.
  - apply run_allocation.
  - pose proof (run_allocation ks this h) as A.
    pose proof (emptyFields_bound this h). lia.
Qed.

(** ** The messages *)

Section MessageFacts.
Import Playwright ActionTypes Browser.

Lemma startsWith_spec (s p : string) :
  Js.startsWith s p = true <-> exists post, s = String.append p post.
Proof.
  revert s. induction p as [|a p IH]; intros s.
  - split; [intros _; exists s; reflexivity|].
    intros _. destruct s; reflexivity.
  - destruct s as [|c s]; cbn [Js.startsWith].
    + split; [discriminate|intros [post E]; discriminate].
    + rewrite andb_true_iff, Ascii.eqb_eq, IH. split.
      * intros [-> [post ->]]. exists post. reflexivity.
      * intros [post E]. cbn in E. inversion E; subst.
        split; [reflexivity|exists post; reflexivity].
Qed.

(** [includes] is the search for a substring. *)
Lemma includes_spec (s sub : string) :
  Js.includes s sub = true
  <-> exists pre post, s = String.append pre (String.append sub post).
Proof.
  induction s as [|c s IH].
  - cbn [Js.includes]. rewrite orb_false_r, startsWith_spec. split.
    + intros [post E]. exists EmptyString, post. exact E.
    + intros (pre & post & E). destruct pre as [|a pre]; [|discriminate].
      exists post. exact E.
  - cbn [Js.includes]. rewrite orb_true_iff, startsWith_spec, IH. split.
    + intros [[post E]|(pre & post & E)].
      * exists EmptyString, post. exact E.
      * exists (String c pre), post. cbn. rewrite E. reflexivity.
    + intros (pre & post & E). destruct pre as [|a pre].
      * left. exists post. exact E.
      * right. cbn in E. inversion E; subst. exists pre, post. reflexivity.
Qed.

Lemma includes_of_empty (sub : string) :
  Js.includes EmptyString sub = true <-> sub = EmptyString.
Proof.
  cbn [Js.includes]. rewrite orb_false_r.
  destruct sub; cbn; split; congruence.
Qed.

Lemma CommonActionsJs_getText_run this target options b :
  let timeout := default 10000%Z (text_timeout options) in
  let trim := default true (text_trim options) in
  let locator := CommonActions._getLocator this target in
  let entered := Action (A_getText target options) in
  let waited := Prim (P_waitFor locator Visible timeout) in
  let read := Prim (P_textContent locator timeout) in
  CommonActionsJs.getText this target options b
  = match resolve (document b) locator with
    | Ok k =>
        if isVisibleAt (document b) k
        then (Ok (match document b !! k with
                  | Some e =>
                      match Dom.textContent e with
                      | Js.NotNull s => Js.Present (if trim then Js.trim s else s)
                      | Js.Null => if trim then Js.IsUndefined else Js.IsNull
                      end
                  | None => if trim then Js.IsUndefined else Js.IsNull
                  end),
              logged b [entered; waited; read])
        else (Err TimeoutError, logged b [entered; waited])
    | Err e => (Err e, logged b [entered; waited])
    end.
Proof.
  intros timeout trim locator entered waited read.
  unfold CommonActionsJs.getText.
  unfold bind at 1. unfold emit at 1. fold (logged b [entered]).
  fold timeout trim locator.
  unfold bind. rewrite waitFor_visible_run. cbn [document logged].
  destruct (resolve (document b) locator) as [k|e] eqn:R.
  - destruct (isVisibleAt (document b) k) eqn:V.
    + rewrite textContent_run. cbn [document logged]. rewrite R.
      unfold ret, logged. simpl. rewrite <- !app_assoc. simpl.
      f_equal. f_equal.
      destruct (document b !! k) as [e|]; [|destruct trim; reflexivity].
      destruct (Dom.textContent e), trim; reflexivity.
    + unfold logged. simpl. rewrite <- app_assoc. reflexivity.
  - unfold logged. simpl. rewrite <- app_assoc. reflexivity.
Qed.

(** When [getText] returns a string, and which. *)
Lemma getText_defined this target options b (t : string) :
  fst (CommonActions.getText this target options b) = Ok (Js.Defined t)
  <-> exists k e s,
      resolve (document b) (CommonActions._getLocator this target) = Ok k
      /\ document b !! k = Some e
      /\ Dom.visible e = true
      /\ Dom.textContent e = Js.NotNull s
      /\ t = if default true (text_trim options) then Js.trim s else s.
Proof.
  rewrite CommonActions_getText_run. cbn zeta.
  destruct (resolve (document b) _) as [k|err] eqn:R; cbn [fst].
  - unfold isVisibleAt. destruct (document b !! k) as [e|] eqn:E.
    + destruct (Dom.visible e) eqn:V; cbn [fst].
      * destruct (Dom.textContent e) as [|s] eqn:T.
        -- split; [discriminate|].
           intros (k' & e' & s' & R' & E' & _ & T' & _).
           inversion R'; subst k'. rewrite E in E'. inversion E'; subst e'.
           rewrite T in T'. discriminate.
        -- split.
           ++ intros H. inversion H. exists k, e, s. auto.
           ++ intros (k' & e' & s' & R' & E' & _ & T' & ->).
              inversion R'; subst k'. rewrite E in E'. inversion E'; subst e'.
              rewrite T in T'. inversion T'; subst s'. reflexivity.
      * split; [discriminate|].
        intros (k' & e' & s' & R' & E' & V' & _).
        inversion R'; subst k'. rewrite E in E'. inversion E'; subst e'.
        congruence.
    + split; [discriminate|].
      intros (k' & e' & s' & R' & E' & _).
      inversion R'; subst k'. congruence.
  - split; [discriminate|]. intros (k' & e' & s' & R' & _). discriminate.
Qed.

Lemma expectToContain_ok (actual : Js.OrUndefined string) (expected : string) b :
  fst (LocatorApi.expectToContain actual expected b) = Ok tt
  <-> exists t, actual = Js.Defined t /\ Js.includes t expected = true.
Proof.
  unfold LocatorApi.expectToContain. destruct actual as [|t].
  - split; [discriminate|intros (t & E & _); discriminate].
  - destruct (Js.includes t expected) eqn:I; cbn.
    + split; [intros _; exists t; auto|reflexivity].
    + split; [discriminate|].
      intros (t' & E & I'). inversion E; subst. congruence.
Qed.

Lemma bind_ok_iff {A B} (c : Async A) (k : A -> Async B) b (y : B) :
  fst (bind c k b) = Ok y
  <-> exists a, fst (c b) = Ok a /\ fst (k a (snd (c b))) = Ok y.
Proof.
  unfold bind. destruct (c b) as [[a|e] b1]; cbn [fst snd].
  - split; [intros H; exists a; auto|].
    intros (a' & E & H). inversion E; subst. exact H.
  - split; [discriminate|intros (a' & E & _); discriminate].
Qed.

End MessageFacts.

(** X15.  [assertErrorMessage] and [assertSuccessMessage] of the login page
    are one computation.  It passes exactly when [#flash] resolves to one
    element, that element is visible and has a text, and the expected
    message occurs in that text after trimming; surrounding whitespace in
    the page therefore never fails it. *)
Theorem flash_assertions_pass_iff_trimmed_text_contains :
  forall (page : Playwright.Page) (expectedMessage : string) (b : Browser.t),
    let this := LoginPage.constructor page in
    LoginPage.assertSuccessMessage this expectedMessage
    = LoginPage.assertErrorMessage this expectedMessage
    /\ (fst (LoginPage.assertErrorMessage this expectedMessage b)
        = Playwright.Ok tt
        <-> exists k e s pre post,
          Playwright.resolve (Browser.document b)
                             (Playwright.page_locator page "#flash")
          = Playwright.Ok k
          /\ Browser.document b !! k = Some e
          /\ Dom.visible e = true
          /\ Dom.textContent e = Js.NotNull s
          /\ Js.trim s
             = String.append pre (String.append expectedMessage post)).
Proof.
  intros page expectedMessage b this. split; [reflexivity|].
  unfold LoginPage.assertErrorMessage. rewrite bind_ok_iff. split.
  - intros (a & G & X). apply expectToContain_ok in X as (t & -> & I).
    apply getText_defined in G as (k & e & s & R & E & V & T & ->).
    apply includes_spec in I as (pre & post & I).
    exists k, e, s, pre, post. auto.
  - intros (k & e & s & pre & post & R & E & V & T & I).
    exists (Js.Defined (Js.trim s)). split.
    + apply getText_defined. exists k, e, s. auto.
    + apply expectToContain_ok. exists (Js.trim s). split; [reflexivity|].
      apply includes_spec. exists pre, post. exact I.
Qed.

(** X16.  The JavaScript [getText] and the TypeScript one log the same
    calls and leave the same state; they fail together, with the same
    error, and return the same string when the element has a text.  When
    it has none, the TypeScript version returns [undefined] always, the
    JavaScript version [null] when trimming is switched off and
    [undefined] otherwise. *)
Theorem getText_versions_differ_only_in_null :
  forall (this : CommonActions.t) (target : ActionTypes.SelectorOrLocator)
         (options : ActionTypes.GetTextOptions) (b : Browser.t),
    snd (CommonActionsJs.getText this target options b)
    = snd (CommonActions.getText this target options b)
    /\ match fst (CommonActionsJs.getText this target options b),
             fst (CommonActions.getText this target options b) with
       | Playwright.Ok (Js.Present s), Playwright.Ok (Js.Defined s') => s = s'
       | Playwright.Ok Js.IsUndefined, Playwright.Ok Js.Undefined =>
           ActionTypes.text_trim options <> Some false
       | Playwright.Ok Js.IsNull, Playwright.Ok Js.Undefined =>
           ActionTypes.text_trim options = Some false
       | Playwright.Err e, Playwright.Err e' => e = e'
       | _, _ => False
       end.
Proof.
  intros this target options b.
  rewrite CommonActionsJs_getText_run, CommonActions_getText_run. cbn zeta.
  destruct (Playwright.resolve (Browser.document b) _) as [k|e];
    [|split; reflexivity].
  destruct (Playwright.isVisibleAt (Browser.document b) k);
    [|split; reflexivity].
  cbn [fst snd]. split; [reflexivity|].
  destruct options as [timeout [[|]|]]; cbn;
    destruct (Browser.document b !! k) as [e|];
    try destruct (Dom.textContent e); cbn; congruence.
Qed.

Section LoggedInMessage.
Import Playwright ActionTypes Browser.

Variable page : Page.
Variable passedMessage : string.
Variable b : Browser.t.

Let this := SecurePage.constructor page.
Let flash := page_locator page "#flash".

Lemma secure_getText_js_ok (m : Js.OrNullish string) :
  fst (SecurePageJs.getMessage this b) = Ok m
  <-> exists k e,
      resolve (document b) flash = Ok k
      /\ document b !! k = Some e
      /\ Dom.visible e = true
      /\ m = match Dom.textContent e with
             | Js.NotNull s => Js.Present (Js.trim s)
             | Js.Null => Js.IsUndefined
             end.
Proof.
  unfold SecurePageJs.getMessage. rewrite CommonActionsJs_getText_run.
  cbn zeta.
  change (CommonActions._getLocator (SecurePage.actions this)
            (Selector (SecurePage.flashMessage this))) with flash.
  cbn [text_trim default].
  destruct (resolve (document b) flash) as [k|err] eqn:R; cbn [fst].
  - pose proof (resolve_bound _ _ _ R) as L.
    destruct (lookup_lt_is_Some_2 _ _ L) as [e E].
    unfold isVisibleAt. rewrite E.
    destruct (Dom.visible e) eqn:V; cbn [fst].
    + split.
      * intros H. inversion H. exists k, e. auto.
      * intros (k' & e' & R' & E' & _ & ->).
        inversion R'; subst k'. rewrite E in E'. inversion E'; subst e'.
        reflexivity.
    + split; [discriminate|].
      intros (k' & e' & R' & E' & V' & _).
      inversion R'; subst k'. rewrite E in E'. inversion E'; subst e'.
      congruence.
  - split; [discriminate|]. intros (k' & e' & R' & _). discriminate.
Qed.

Lemma secure_getMessage_ok (m : string) :
  fst (SecurePage.getMessage this b) = Ok m
  <-> exists k e,
      resolve (document b) flash = Ok k
      /\ document b !! k = Some e
      /\ Dom.visible e = true
      /\ m = match Dom.textContent e with
             | Js.NotNull s => Js.trim s
             | Js.Null => EmptyString
             end.
Proof.
  unfold SecurePage.getMessage. unfold bind.
  rewrite CommonActions_getText_run. cbn zeta.
  change (CommonActions._getLocator (SecurePage.actions this)
            (Selector (SecurePage.flashMessage this))) with flash.
  cbn [text_trim default].
  destruct (resolve (document b) flash) as [k|err] eqn:R; cbn [fst].
  - pose proof (resolve_bound _ _ _ R) as L.
    destruct (lookup_lt_is_Some_2 _ _ L) as [e E].
    unfold isVisibleAt. rewrite E.
    destruct (Dom.visible e) eqn:V; cbn [fst].
    + split.
      * intros H. exists k, e. split; [reflexivity|].
        split; [exact E|]. split; [exact V|].
        destruct (Dom.textContent e); cbn in H; inversion H; reflexivity.
      * intros (k' & e' & R' & E' & _ & ->).
        inversion R'; subst k'. rewrite E in E'. inversion E'; subst e'.
        destruct (Dom.textContent e); reflexivity.
    + split; [discriminate|].
      intros (k' & e' & R' & E' & V' & _).
      inversion R'; subst k'. rewrite E in E'. inversion E'; subst e'.
      congruence.
  - split; [discriminate|]. intros (k' & e' & R' & _). discriminate.
Qed.

Lemma expectToContainJs_ok (actual : Js.OrNullish string) (expected : string) b' :
  fst (LocatorApi.expectToContainJs actual expected b') = Ok tt
  <-> exists t, actual = Js.Present t /\ Js.includes t expected = true.
Proof.
  unfold LocatorApi.expectToContainJs. destruct actual as [| |t].
  - split; [discriminate|intros (t & E & _); discriminate].
  - split; [discriminate|intros (t & E & _); discriminate].
  - destruct (Js.includes t expected) eqn:I; cbn.
    + split; [intros _; exists t; auto|reflexivity].
    + split; [discriminate|].
      intros (t' & E & I'). inversion E; subst. congruence.
Qed.

Lemma assertLoggedInMessage_ok :
  fst (SecurePage.assertLoggedInMessage this passedMessage b) = Ok tt
  <-> exists k e,
      resolve (document b) flash = Ok k
      /\ document b !! k = Some e
      /\ Dom.visible e = true
      /\ Js.includes (match Dom.textContent e with
                      | Js.NotNull s => Js.trim s
                      | Js.Null => EmptyString
                      end) passedMessage = true.
Proof.
  unfold SecurePage.assertLoggedInMessage. rewrite bind_ok_iff. split.
  - intros (m & G & X). apply expectToContain_ok in X as (t & T & I).
    inversion T; subst t.
    apply secure_getMessage_ok in G as (k & e & R & E & V & ->).
    exists k, e. auto.
  - intros (k & e & R & E & V & I). eexists. split.
    + apply secure_getMessage_ok. exists k, e. auto.
    + apply expectToContain_ok. eexists. split; [reflexivity|exact I].
Qed.

Lemma assertLoggedInMessageJs_ok :
  fst (SecurePageJs.assertLoggedInMessage this passedMessage b) = Ok tt
  <-> exists k e s,
      resolve (document b) flash = Ok k
      /\ document b !! k = Some e
      /\ Dom.visible e = true
      /\ Dom.textContent e = Js.NotNull s
      /\ Js.includes (Js.trim s) passedMessage = true.
Proof.
  unfold SecurePageJs.assertLoggedInMessage. rewrite bind_ok_iff. split.
  - intros (m & G & X). apply expectToContainJs_ok in X as (t & -> & I).
    apply secure_getText_js_ok in G as (k & e & R & E & V & T).
    destruct (Dom.textContent e) as [|s] eqn:Tx; [discriminate|].
    inversion T; subst t. exists k, e, s. auto.
  - intros (k & e & s & R & E & V & T & I). eexists. split.
    + apply secure_getText_js_ok. exists k, e. auto.
    + rewrite T. apply expectToContainJs_ok. eexists.
      split; [reflexivity|exact I].
Qed.

End LoggedInMessage.

(** X17.  [assertLoggedInMessage] of the secure page passes exactly when
    [#flash] resolves to one visible element and the expected message
    occurs in its trimmed text, an element without text counting as the
    empty string: on such an element the TypeScript version passes for the
    empty expected message and for no other.  The JavaScript version
    passes exactly when the TypeScript one does and the element has a
    text. *)
Theorem assertLoggedInMessage_passes_iff_message_contains :
  forall (page : Playwright.Page) (passedMessage : string) (b : Browser.t),
    let this := SecurePage.constructor page in
    let flash := Playwright.page_locator page "#flash" in
    (fst (SecurePage.assertLoggedInMessage this passedMessage b)
     = Playwright.Ok tt
     <-> exists k e,
        Playwright.resolve (Browser.document b) flash = Playwright.Ok k
        /\ Browser.document b !! k = Some e
        /\ Dom.visible e = true
        /\ match Dom.textContent e with
           | Js.NotNull s =>
               exists pre post,
               Js.trim s = String.append pre (String.append passedMessage post)
           | Js.Null => passedMessage = EmptyString
           end)
    /\ (fst (SecurePageJs.assertLoggedInMessage this passedMessage b)
        = Playwright.Ok tt
        <-> fst (SecurePage.assertLoggedInMessage this passedMessage b)
            = Playwright.Ok tt
            /\ exists k e s,
               Playwright.resolve (Browser.document b) flash = Playwright.Ok k
               /\ Browser.document b !! k = Some e
               /\ Dom.textContent e = Js.NotNull s).
Proof.
  intros page passedMessage b this flash. split.
  - unfold this, flash. rewrite assertLoggedInMessage_ok. split.
    + intros (k & e & R & E & V & I). exists k, e.
      repeat (split; [assumption|]).
      destruct (Dom.textContent e) as [|s].
      * apply includes_of_empty, I.
      * apply includes_spec, I.
    + intros (k & e & R & E & V & I). exists k, e.
      repeat (split; [assumption|]).
      destruct (Dom.textContent e) as [|s].
      * apply includes_of_empty, I.
      * apply includes_spec, I.
  - unfold this, flash.
    rewrite assertLoggedInMessageJs_ok, assertLoggedInMessage_ok. split.
    + intros (k & e & s & R & E & V & T & I). split.
      * exists k, e. rewrite T. auto.
      * exists k, e, s. auto.
    + intros [(k & e & R & E & V & I) (k' & e' & s & R' & E' & T)].
      rewrite R in R'. inversion R'; subst k'.
      rewrite E in E'. inversion E'; subst e'.
      exists k, e, s. rewrite T in I. auto.
Qed.

(** ** Selector strings and locators *)

Section SelectorOrLocatorFacts.
Import Playwright ActionTypes Browser.

Lemma agree_logged {A} (r : Result A) b d (a a' : ActionCall) (rest : list Event) :
  agree (r, moved b d (Action a :: rest)) (r, moved b d (Action a' :: rest)).
Proof.
  unfold agree, moved. cbn [fst snd document onClick log].
  rewrite !primsOf_app. auto.
Qed.

Lemma agree_setChecked l v b (a a' : ActionCall) (rest : list Event) :
  agree (LocatorApi.setChecked l v (logged b (Action a :: rest)))
        (LocatorApi.setChecked l v (logged b (Action a' :: rest))).
Proof.
  rewrite !setChecked_run. cbn [document logged].
  destruct (resolve (document b) l) as [k|e];
    [|apply (agree_logged _ b (document b))].
  destruct (Bool.eqb (isCheckedAt (document b) k) v);
    [apply (agree_logged _ b (document b))|].
  destruct (isVisibleAt (document b) k);
    [|apply (agree_logged _ b (document b))].
  unfold agree, moved, logged. cbn [fst snd document onClick log].
  rewrite !primsOf_app. auto.
Qed.

End SelectorOrLocatorFacts.

(** X18.  A selector string and the page locator made from it are
    interchangeable as the target of the wrapper's methods: [click],
    [fill], [check], [uncheck], [isChecked], [getText] and [count] return
    the same result, fail with the same error, leave the same page and make
    the same primitive calls in the same order whichever of the two they
    are given. *)
Theorem selector_string_and_page_locator_are_interchangeable :
  forall (this : CommonActions.t) (selector : string) (b : Browser.t),
    let byString := ActionTypes.Selector selector in
    let byLocator :=
      ActionTypes.Loc (Playwright.page_locator (CommonActions.page this) selector) in
    (forall options,
        Browser.agree (CommonActions.click this byString options b)
                      (CommonActions.click this byLocator options b))
    /\ (forall text options,
           Browser.agree (CommonActions.fill this byString text options b)
                         (CommonActions.fill this byLocator text options b))
    /\ (forall options,
           Browser.agree (CommonActions.check this byString options b)
                         (CommonActions.check this byLocator options b))
    /\ Browser.agree (CommonActions.uncheck this byString b)
                     (CommonActions.uncheck this byLocator b)
    /\ (forall options,
           Browser.agree (CommonActions.isChecked this byString options b)
                         (CommonActions.isChecked this byLocator options b))
    /\ (forall options,
           Browser.agree (CommonActions.getText this byString options b)
                         (CommonActions.getText this byLocator options b))
    /\ CommonActions.count this byString b = CommonActions.count this byLocator b.
Proof.
  intros this selector b byString byLocator.
  split; [intros options|]. 2: split; [intros text options|].
  3: split; [intros options|]. 4: split; [|].
  5: split; [intros options|]. 6: split; [intros options|].
  - rewrite !CommonActions_click_run. cbn zeta.
    cbn [CommonActions._getLocator byString byLocator].
    destruct (Playwright.resolve _ _) as [k|e];
      [|apply (agree_logged _ b (Browser.document b))].
    destruct (Playwright.isVisibleAt _ k);
      [apply agree_logged|apply (agree_logged _ b (Browser.document b))].
  - rewrite !CommonActions_fill_run. cbn zeta.
    cbn [CommonActions._getLocator byString byLocator].
    destruct (Playwright.resolve _ _) as [k|e];
      [|apply (agree_logged _ b (Browser.document b))].
    destruct (Playwright.isVisibleAt _ k);
      [apply agree_logged|apply (agree_logged _ b (Browser.document b))].
  - rewrite !CommonActions_check_run. cbn zeta.
    cbn [CommonActions._getLocator byString byLocator].
    apply agree_setChecked.
  - rewrite !CommonActions_uncheck_run. cbn zeta.
    cbn [CommonActions._getLocator byString byLocator].
    apply agree_setChecked.
  - rewrite !CommonActions_isChecked_run. cbn zeta.
    cbn [CommonActions._getLocator byString byLocator].
    destruct (Playwright.resolve _ _) as [k|e];
      apply (agree_logged _ b (Browser.document b)).
  - rewrite !CommonActions_getText_run. cbn zeta.
    cbn [CommonActions._getLocator byString byLocator].
    destruct (Playwright.resolve _ _) as [k|e];
      [|apply (agree_logged _ b (Browser.document b))].
    destruct (Playwright.isVisibleAt _ k);
      apply (agree_logged _ b (Browser.document b)).
  - reflexivity.
Qed.

(** ** Running the bulk operations again, and on a page that resists *)

Section BulkAgain.
Import Playwright ActionTypes Browser.

Lemma isVisibleAt_setAll v ks d j :
  isVisibleAt (Checkboxes.setAll v ks d) j = isVisibleAt d j.
Proof.
  unfold isVisibleAt. rewrite lookup_setAll.
  destruct (existsb (Nat.eqb j) ks); [|reflexivity].
  destruct (d !! j) as [e|]; reflexivity.
Qed.

Lemma setAll_setAll v w ks d :
  Checkboxes.setAll w ks (Checkboxes.setAll v ks d) = Checkboxes.setAll w ks d.
Proof.
  apply list_eq. intros j. rewrite !lookup_setAll.
  destruct (existsb (Nat.eqb j) ks); [|reflexivity].
  destruct (d !! j) as [e|]; reflexivity.
Qed.

Lemma stateAt_setAll v d l i :
  i < length (query d l) ->
  Checkboxes.stateAt (Checkboxes.setAll v (query d l) d) l i = v.
Proof.
  intros L. unfold Checkboxes.stateAt. rewrite query_setAll.
  destruct (lookup_lt_is_Some_2 _ _ L) as [k E]. rewrite E.
  assert (I : In k (query d l)).
  { apply list_elem_of_In. eapply list_elem_of_lookup_2, E. }
  rewrite isCheckedAt_setAll by (apply (query_bound d l), I).
  rewrite existsb_eqb_In by exact I. reflexivity.
Qed.

(** What a bulk operation logs on a page another bulk operation left:
    the read of every state, and a set call per checkbox only when the two
    operations differ. *)
Lemma rounds_after_setAll v w d l :
  map (Checkboxes.roundCalls w (Checkboxes.setAll v (query d l) d) l)
      (seq 0 (length (query d l)))
  = map (fun i => Prim (P_isChecked (locator_nth l i))
                  :: (if Bool.eqb v w then [] else Checkboxes.setCalls w l i))
        (seq 0 (length (query d l))).
Proof.
  apply List.map_ext_in. intros i Hi. apply in_seq in Hi.
  unfold Checkboxes.roundCalls. rewrite stateAt_setAll by lia. reflexivity.
Qed.

Lemma actionsOf_reads_only l (idxs : list nat) :
  actionsOf (concat (map (fun i => [Prim (P_isChecked (locator_nth l i))]) idxs))
  = [].
Proof. induction idxs as [|i idxs IH]; [reflexivity|exact IH]. Qed.

Lemma actionsOf_reads_and_sets w l (idxs : list nat) :
  actionsOf (concat (map (fun i => Prim (P_isChecked (locator_nth l i))
                                   :: Checkboxes.setCalls w l i) idxs))
  = map (Checkboxes.setAction w l) idxs.
Proof.
  induction idxs as [|i idxs IH]; [reflexivity|].
  cbn [map concat]. cbn [app actionsOf Checkboxes.setCalls].
  rewrite IH. reflexivity.
Qed.

Variable this : CheckboxesPage.t.
Variable b : Browser.t.

Let d := document b.
Let l := CheckboxesPage.checkboxes this.
Let ks := query d l.

Hypothesis actionable : Forall (fun k => isVisibleAt d k = true) ks.

Lemma actionable_after_setAll v :
  Forall (fun k => isVisibleAt (Checkboxes.setAll v ks d) k = true)
         (query (Checkboxes.setAll v ks d) l).
Proof.
  rewrite query_setAll. eapply Forall_impl; [exact actionable|].
  intros k V. cbn beta. rewrite isVisibleAt_setAll. exact V.
Qed.

(** The outcome of one bulk operation ([w]) run where another ([v]) has
    just returned. *)
Lemma bulk_after_bulk (v w : bool) :
  let first := if v then CheckboxesPage.checkAll this
               else CheckboxesPage.uncheckAll this in
  let second := if w then CheckboxesPage.checkAll this
                else CheckboxesPage.uncheckAll this in
  let b1 := snd (first b) in
  fst (first b) = Ok tt
  /\ fst (second b1) = Ok tt
  /\ document (snd (second b1)) = Checkboxes.setAll w ks d
  /\ exists new,
      log (snd (second b1)) = log b1 ++ new
      /\ primsOf new
         = primsOf (Prim (P_all l)
                    :: concat (map (fun i =>
                                      Prim (P_isChecked (locator_nth l i))
                                      :: (if Bool.eqb v w then []
                                          else Checkboxes.setCalls w l i))
                                   (seq 0 (length ks))))
      /\ actionsOf new
         = if Bool.eqb v w then []
           else map (Checkboxes.setAction w l) (seq 0 (length ks)).
Proof.
  intros first second b1.
  assert (R1 : first b
               = (Ok tt,
                  moved b (Checkboxes.setAll v ks d)
                        (Prim (P_all l)
                         :: concat (map (Checkboxes.roundCalls v d l)
                                        (seq 0 (length ks)))))).
  { unfold first. destruct v;
      [apply (checkAll_run this b actionable)
      |apply (uncheckAll_run this b actionable)]. }
  assert (D1 : document b1 = Checkboxes.setAll v ks d).
  { unfold b1. rewrite R1. reflexivity. }
  assert (F1 : Forall (fun k => isVisibleAt (document b1) k = true)
                      (query (document b1) l)).
  { rewrite D1. apply actionable_after_setAll. }
  assert (R2 : second b1
               = (Ok tt,
                  moved b1 (Checkboxes.setAll w (query (document b1) l)
                                              (document b1))
                        (Prim (P_all l)
                         :: concat (map (Checkboxes.roundCalls w (document b1) l)
                                        (seq 0 (length (query (document b1) l))))))).
  { unfold second. destruct w;
      [apply (checkAll_run this b1 F1)|apply (uncheckAll_run this b1 F1)]. }
  split; [rewrite R1; reflexivity|].
  split; [rewrite R2; reflexivity|].
  rewrite R2. cbn [snd document moved log]. rewrite D1.
  unfold ks at 1 3 4 5. rewrite query_setAll. fold ks.
  split; [apply setAll_setAll|].
  eexists. split; [reflexivity|].
  unfold ks. rewrite (rounds_after_setAll v w d l). fold ks.
  split; [reflexivity|].
  cbn [actionsOf]. destruct (Bool.eqb v w).
  - apply actionsOf_reads_only.
  - apply actionsOf_reads_and_sets.
Qed.

End BulkAgain.

(** X19.  On a page whose checkboxes are actionable, [checkAll] and
    [uncheckAll] are idempotent and each undoes the other completely.  Run
    where [checkAll] has just returned, a second [checkAll] returns
    normally, leaves the page as the first left it and makes no wrapper
    call at all, only the reads of the states; [uncheckAll] returns
    normally and makes one [uncheck] call per checkbox, in order, leaving
    the page [uncheckAll] alone would have left.  Likewise with the two
    exchanged. *)
Theorem bulk_operations_are_idempotent_and_undo_each_other :
  forall (this : CheckboxesPage.t) (b : Browser.t),
    let d := Browser.document b in
    let l := CheckboxesPage.checkboxes this in
    let n := length (Playwright.query d l) in
    let afterCheckAll := snd (CheckboxesPage.checkAll this b) in
    let afterUncheckAll := snd (CheckboxesPage.uncheckAll this b) in
    let newCalls (before after : Browser.t) :=
      Browser.actionsOf (drop (length (Browser.log before)) (Browser.log after)) in
    Forall (fun k => Playwright.isVisibleAt d k = true) (Playwright.query d l) ->
    (fst (CheckboxesPage.checkAll this afterCheckAll) = Playwright.Ok tt
     /\ Browser.document (snd (CheckboxesPage.checkAll this afterCheckAll))
        = Browser.document afterCheckAll
     /\ newCalls afterCheckAll (snd (CheckboxesPage.checkAll this afterCheckAll))
        = [])
    /\ (fst (CheckboxesPage.uncheckAll this afterUncheckAll) = Playwright.Ok tt
        /\ Browser.document (snd (CheckboxesPage.uncheckAll this afterUncheckAll))
           = Browser.document afterUncheckAll
        /\ newCalls afterUncheckAll
                    (snd (CheckboxesPage.uncheckAll this afterUncheckAll))
           = [])
    /\ (fst (CheckboxesPage.uncheckAll this afterCheckAll) = Playwright.Ok tt
        /\ Browser.document (snd (CheckboxesPage.uncheckAll this afterCheckAll))
           = Browser.document afterUncheckAll
        /\ newCalls afterCheckAll
                    (snd (CheckboxesPage.uncheckAll this afterCheckAll))
           = map (fun i => Browser.A_uncheck
                             (ActionTypes.Loc (Playwright.locator_nth l i)))
                 (seq 0 n))
    /\ (fst (CheckboxesPage.checkAll this afterUncheckAll) = Playwright.Ok tt
        /\ Browser.document (snd (CheckboxesPage.checkAll this afterUncheckAll))
           = Browser.document afterCheckAll
        /\ newCalls afterUncheckAll
                    (snd (CheckboxesPage.checkAll this afterUncheckAll))
           = map (fun i => Browser.A_check
                             (ActionTypes.Loc (Playwright.locator_nth l i))
                             ActionTypes.noCheckOptions)
                 (seq 0 n)).
Proof.
  intros this b d l n afterCheckAll afterUncheckAll newCalls F.
  assert (DC : Browser.document afterCheckAll
               = Checkboxes.setAll true (Playwright.query d l) d).
  { unfold afterCheckAll. rewrite (checkAll_run this b F). reflexivity. }
  assert (DU : Browser.document afterUncheckAll
               = Checkboxes.setAll false (Playwright.query d l) d).
  { unfold afterUncheckAll. rewrite (uncheckAll_run this b F). reflexivity. }
  assert (New : forall (before after : Browser.t) new,
             Browser.log after = Browser.log before ++ new ->
             newCalls before after = Browser.actionsOf new).
  { intros before after new E. unfold newCalls. rewrite E.
    rewrite drop_app_length. reflexivity. }
  destruct (bulk_after_bulk this b F true true)
    as (_ & O1 & D1 & new1 & L1 & _ & A1).
  destruct (bulk_after_bulk this b F false false)
    as (_ & O2 & D2 & new2 & L2 & _ & A2).
  destruct (bulk_after_bulk this b F true false)
    as (_ & O3 & D3 & new3 & L3 & _ & A3).
  destruct (bulk_after_bulk this b F false true)
    as (_ & O4 & D4 & new4 & L4 & _ & A4).
  cbv beta iota zeta in O1, D1, L1, O2, D2, L2, O3, D3, L3, O4, D4, L4.
  cbn [Bool.eqb] in A1, A2, A3, A4.
  repeat apply conj.
  - exact O1.
  - exact (eq_trans D1 (eq_sym DC)).
  - exact (eq_trans (New _ _ _ L1) A1).
  - exact O2.
  - exact (eq_trans D2 (eq_sym DU)).
  - exact (eq_trans (New _ _ _ L2) A2).
  - exact O3.
  - exact (eq_trans D3 (eq_sym DU)).
  - exact (eq_trans (New _ _ _ L3) A3).
  - exact O4.
  - exact (eq_trans D4 (eq_sym DC)).
  - exact (eq_trans (New _ _ _ L4) A4).
Qed.

Lemma bulk_operations_are_idempotent_and_undo_each_other_witness :
  let this := CheckboxesPage.constructor 0 in
  let b := Fixtures.browser (Fixtures.checkboxesDocument [false; true]) in
  let afterCheckAll := snd (CheckboxesPage.checkAll this b) in
  fst (CheckboxesPage.checkAll this afterCheckAll) = Playwright.Ok tt
  /\ Browser.document (snd (CheckboxesPage.checkAll this afterCheckAll))
     = Browser.document afterCheckAll.
Proof.
  intros this b afterCheckAll.
  assert (F : Forall (fun k => Playwright.isVisibleAt (Browser.document b) k = true)
                     (Playwright.query (Browser.document b)
                                       (CheckboxesPage.checkboxes this))).
  { vm_compute. repeat constructor. }
  destruct (bulk_operations_are_idempotent_and_undo_each_other this b F)
    as ((O & D & _) & _).
  split; [exact O|exact D].
Defined.

Section BulkStuck.
Import Playwright ActionTypes Browser.

Lemma forOf_app {A} (xs ys : list A) (body : A -> Async unit) b :
  LocatorApi.forOf (xs ++ ys) body b
  = match LocatorApi.forOf xs body b with
    | (Ok _, b1) => LocatorApi.forOf ys body b1
    | (Err e, b1) => (Err e, b1)
    end.
Proof.
  revert b. induction xs as [|x xs IH]; intros b; [reflexivity|].
  cbn [app LocatorApi.forOf]. unfold bind.
  destruct (body x b) as [[[]|e] b1]; [apply IH|reflexivity].
Qed.

Lemma isCheckedAt_setAll_other v ks d k :
  ~ In k ks -> isCheckedAt (Checkboxes.setAll v ks d) k = isCheckedAt d k.
Proof.
  intros N. unfold isCheckedAt. rewrite lookup_setAll.
  destruct (existsb (Nat.eqb k) ks) eqn:E; [|reflexivity].
  exfalso. apply N. apply existsb_exists in E as (x & I & Q).
  apply Nat.eqb_eq in Q. subst x. exact I.
Qed.

Variable v : bool.
Variable l : Locator.
Variable body : Locator -> Async unit.

Hypothesis round : forall i k b,
  query (document b) l !! i = Some k ->
  isVisibleAt (document b) k = true ->
  body (locator_nth l i) b
  = (Ok tt, moved b (alter (Dom.setChecked v) k (document b))
                    (Checkboxes.roundCalls v (document b) l i)).

Hypothesis stuck : forall i k b,
  query (document b) l !! i = Some k ->
  isVisibleAt (document b) k = false ->
  isCheckedAt (document b) k = negb v ->
  body (locator_nth l i) b
  = (Err TimeoutError, logged b (Checkboxes.roundCalls v (document b) l i)).

(** The rounds over a stretch of actionable matches. *)
Lemma forOf_stretch (good pre rest : list nat) b :
  query (document b) l = pre ++ good ++ rest ->
  Forall (fun k => isVisibleAt (document b) k = true) good ->
  LocatorApi.forOf (map (locator_nth l) (seq (length pre) (length good))) body b
  = (Ok tt,
     moved b (Checkboxes.setAll v good (document b))
           (concat (map (Checkboxes.roundCalls v (document b) l)
                        (seq (length pre) (length good))))).
Proof.
  revert pre b. induction good as [|k good IH]; intros pre b Q F.
  - simpl. unfold ret, moved. simpl. rewrite app_nil_r. destruct b; reflexivity.
  - inversion F as [|? ? Vk F']; subst.
    assert (Ek : query (document b) l !! length pre = Some k).
    { rewrite Q. apply list_lookup_middle. reflexivity. }
    cbn [length seq map LocatorApi.forOf concat].
    unfold bind. rewrite (round _ k b Ek Vk).
    set (d1 := alter (Dom.setChecked v) k (document b)).
    set (b1 := moved b d1 _).
    assert (Q1 : query (document b1) l = (pre ++ [k]) ++ good ++ rest).
    { unfold b1, moved, d1. simpl. rewrite query_alter_setChecked, Q.
      rewrite <- app_assoc. reflexivity. }
    assert (F1 : Forall (fun k' => isVisibleAt (document b1) k' = true) good).
    { eapply Forall_impl; [exact F'|]. intros k' V. unfold b1, moved, d1. simpl.
      rewrite isVisibleAt_alter. exact V. }
    pose proof (IH (pre ++ [k]) b1 Q1 F1) as R.
    rewrite length_app in R. simpl in R. rewrite Nat.add_1_r in R.
    rewrite R. unfold b1. rewrite moved_moved. cbn [document moved].
    f_equal. f_equal. f_equal. f_equal.
    apply List.map_ext_in. intros j Hj. apply in_seq in Hj.
    unfold Checkboxes.roundCalls, d1.
    rewrite (stateAt_alter_ne v (document b) l k j (length pre) Ek) by lia.
    reflexivity.
Qed.

(** The loop over all matches when the first match that is not
    actionable needs setting. *)
Lemma forOf_stuck (good rest : list nat) (k : nat) b :
  query (document b) l = good ++ k :: rest ->
  Forall (fun k' => isVisibleAt (document b) k' = true) good ->
  isVisibleAt (document b) k = false ->
  isCheckedAt (document b) k = negb v ->
  (allCheckboxes <- LocatorApi.all l ;; LocatorApi.forOf allCheckboxes body) b
  = (Err TimeoutError,
     moved b (Checkboxes.setAll v good (document b))
           (Prim (P_all l)
            :: concat (map (Checkboxes.roundCalls v (document b) l)
                           (seq 0 (S (length good)))))).
Proof.
  intros Q F V C.
  set (final := moved b _ _).
  unfold bind at 1. rewrite all_run.
  rewrite Q, length_app. cbn [length].
  rewrite seq_app, map_app, forOf_app. cbn [Nat.add seq map].
  pose proof (forOf_stretch good [] (k :: rest)
                (logged b [Prim (P_all l)]) Q F) as H.
  cbn [length document logged] in H. rewrite H. clear H.
  cbn [LocatorApi.forOf]. unfold bind.
  set (b1 := moved _ _ _).
  assert (N : ~ In k good).
  { pose proof (query_NoDup (document b) l) as ND. rewrite Q in ND.
    apply List.NoDup_remove_2 in ND.
    intros I. apply ND. apply in_or_app. left. exact I. }
  assert (E1 : query (document b1) l !! length good = Some k).
  { unfold b1. cbn [document moved]. rewrite query_setAll, Q.
    apply list_lookup_middle. reflexivity. }
  assert (V1 : isVisibleAt (document b1) k = false).
  { unfold b1. cbn [document moved]. rewrite isVisibleAt_setAll. exact V. }
  assert (C1 : isCheckedAt (document b1) k = negb v).
  { unfold b1. cbn [document moved].
    rewrite isCheckedAt_setAll_other by exact N. exact C. }
  rewrite (stuck _ k b1 E1 V1 C1).
  assert (Last : Checkboxes.roundCalls v (document b1) l (length good)
                 = Checkboxes.roundCalls v (document b) l (length good)).
  { unfold Checkboxes.roundCalls, Checkboxes.stateAt.
    rewrite E1, C1, Q.
    rewrite (list_lookup_middle good rest k (length good) eq_refl), C.
    reflexivity. }
  rewrite Last. unfold final, b1. rewrite moved_logged.
  unfold logged, moved. cbn [document onClick log].
  f_equal. f_equal. rewrite <- app_assoc. f_equal. cbn [app]. f_equal.
  replace (S (length good)) with (length good + 1) by lia.
  rewrite seq_app, map_app, concat_app. f_equal.
  cbn [Nat.add seq map concat]. rewrite app_nil_r. reflexivity.
Qed.

End BulkStuck.

Section BulkStuckRounds.
Import Playwright ActionTypes Browser.

Lemma checkAll_stuck_round (this : CheckboxesPage.t) l i k b :
  query (document b) l !! i = Some k ->
  isVisibleAt (document b) k = false ->
  isCheckedAt (document b) k = negb true ->
  (isChecked <- LocatorApi.isChecked (locator_nth l i) ;;
   if negb isChecked
   then CommonActions.check (CheckboxesPage.actions this)
                            (Loc (locator_nth l i)) noCheckOptions
   else ret tt) b
  = (Err TimeoutError, logged b (Checkboxes.roundCalls true (document b) l i)).
Proof.
  intros E V C. cbn [negb] in C. unfold bind at 1.
  rewrite isChecked_run, (resolve_nth _ _ _ _ E).
  unfold Checkboxes.roundCalls, Checkboxes.stateAt. rewrite E, C.
  cbn [negb Bool.eqb].
  rewrite CommonActions_check_run. cbn zeta.
  cbn [CommonActions._getLocator default check_timeout noCheckOptions].
  rewrite setChecked_run. cbn [document logged].
  rewrite (resolve_nth _ _ _ _ E), C, V. cbn [Bool.eqb].
  rewrite logged_logged. reflexivity.
Qed.

Lemma uncheckAll_stuck_round (this : CheckboxesPage.t) l i k b :
  query (document b) l !! i = Some k ->
  isVisibleAt (document b) k = false ->
  isCheckedAt (document b) k = negb false ->
  (isChecked <- LocatorApi.isChecked (locator_nth l i) ;;
   if isChecked : bool
   then CommonActions.uncheck (CheckboxesPage.actions this) (Loc (locator_nth l i))
   else ret tt) b
  = (Err TimeoutError, logged b (Checkboxes.roundCalls false (document b) l i)).
Proof.
  intros E V C. cbn [negb] in C. unfold bind at 1.
  rewrite isChecked_run, (resolve_nth _ _ _ _ E).
  unfold Checkboxes.roundCalls, Checkboxes.stateAt. rewrite E, C.
  cbn [negb Bool.eqb].
  rewrite CommonActions_uncheck_run. cbn zeta.
  cbn [CommonActions._getLocator].
  rewrite setChecked_run. cbn [document logged].
  rewrite (resolve_nth _ _ _ _ E), C, V. cbn [Bool.eqb].
  rewrite logged_logged. reflexivity.
Qed.

End BulkStuckRounds.

(** X20.  The bulk operations are not atomic.  When the first checkbox
    that is not actionable is one [checkAll] has to check (it is
    unchecked), [checkAll] fails there with a timeout: the checkboxes in
    front of it have been checked and stay so, its own state and every
    later checkbox are untouched, and the later checkboxes are not even
    read.  Likewise [uncheckAll] at a checked checkbox that is not
    actionable. *)
Theorem bulk_operation_stops_at_first_checkbox_it_cannot_set :
  forall (this : CheckboxesPage.t) (b : Browser.t)
         (good rest : list nat) (k : nat) (v : bool),
    let d := Browser.document b in
    let l := CheckboxesPage.checkboxes this in
    let operation := if v then CheckboxesPage.checkAll this
                     else CheckboxesPage.uncheckAll this in
    Playwright.query d l = good ++ k :: rest ->
    Forall (fun k' => Playwright.isVisibleAt d k' = true) good ->
    Playwright.isVisibleAt d k = false ->
    Playwright.isCheckedAt d k = negb v ->
    fst (operation b) = Playwright.Err Playwright.TimeoutError
    /\ Browser.document (snd (operation b)) = Checkboxes.setAll v good d
    /\ (forall j, In j good ->
                  Playwright.isCheckedAt (Browser.document (snd (operation b))) j = v)
    /\ (forall j, ~ In j good ->
                  Browser.document (snd (operation b)) !! j = d !! j)
    /\ Browser.log (snd (operation b))
       = Browser.log b
         ++ Browser.Prim (Browser.P_all l)
            :: concat (map (Checkboxes.roundCalls v d l)
                           (seq 0 (S (length good)))).
Proof.
  intros this b good rest k v d l operation Q F V C.
  assert (R : operation b
              = (Playwright.Err Playwright.TimeoutError,
                 Browser.moved b (Checkboxes.setAll v good d)
                   (Browser.Prim (Browser.P_all l)
                    :: concat (map (Checkboxes.roundCalls v d l)
                                   (seq 0 (S (length good))))))).
  { unfold operation. destruct v.
    - unfold CheckboxesPage.checkAll.
      apply (forOf_stuck true l _
               (fun i k b => checkAll_round this l i k b)
               (fun i k b => checkAll_stuck_round this l i k b)
               good rest k b Q F V C).
    - unfold CheckboxesPage.uncheckAll.
      apply (forOf_stuck false l _
               (fun i k b => uncheckAll_round this l i k b)
               (fun i k b => uncheckAll_stuck_round this l i k b)
               good rest k b Q F V C). }
  rewrite R. cbn [fst snd Browser.document Browser.moved Browser.log].
  repeat apply conj; try reflexivity.
  - intros j I. rewrite isCheckedAt_setAll.
    + rewrite existsb_eqb_In by exact I. reflexivity.
    + apply (query_bound d l). rewrite Q. apply in_or_app. left. exact I.
  - intros j N. rewrite lookup_setAll.
    destruct (existsb (Nat.eqb j) good) eqn:E; [|reflexivity].
    exfalso. apply N. apply existsb_exists in E as (x & I & Ex).
    apply Nat.eqb_eq in Ex. subst x. exact I.
Qed.

Lemma bulk_operation_stops_at_first_checkbox_it_cannot_set_witness :
  let hidden := Dom.mkElement "input" [("type", "checkbox")] (Some 0) false
                              (Js.NotNull "") "" false in
  let d := [ Fixtures.element "form" [("id", "checkboxes")] None;
             Fixtures.checkbox (Some 0) false;
             hidden;
             Fixtures.checkbox (Some 0) false ] in
  let b := Fixtures.browser d in
  let this := CheckboxesPage.constructor 0 in
  fst (CheckboxesPage.checkAll this b) = Playwright.Err Playwright.TimeoutError
  /\ Playwright.isCheckedAt
       (Browser.document (snd (CheckboxesPage.checkAll this b))) 1 = true
  /\ Browser.document (snd (CheckboxesPage.checkAll this b)) !! 3 = d !! 3.
Proof.
  intros hidden d b this.
  assert (Q : Playwright.query (Browser.document b) (CheckboxesPage.checkboxes this)
              = [1] ++ 2 :: [3]) by (vm_compute; reflexivity).
  assert (F : Forall (fun k' => Playwright.isVisibleAt (Browser.document b) k' = true)
                     [1]) by (repeat constructor).
  destruct (bulk_operation_stops_at_first_checkbox_it_cannot_set
              this b [1] [3] 2 true Q F eq_refl eq_refl)
    as (E & _ & Checked & Kept & _).
  split; [exact E|]. split.
  - apply Checked. left. reflexivity.
  - apply Kept. intros [H|[]]. discriminate.
Defined.
